(** * DOCUMENTS-BOT: the PDF resolution chain and the batch dispatcher

    A shallow embedding of [Downloader.py], [downloads/Pdf.py] and
    [downloads/Example.py].

    - A Python [str] is a [string]: a sequence of characters with code points
      below 256, so [lower], [strip] and the regular-expression classes are the
      ones Python applies to that range.
    - Every call that leaves the interpreter (directory creation, HTTP, file
      writes, the [googlesearch] package, image encoding) is answered by an
      environment [Env]; the answer may depend on everything that happened
      before, which is recorded, in order, in a [Trace].
    - A Python function that may raise is a computation in the monad [M]:
      it takes the trace so far and yields a value or an exception together
      with the extended trace.
    - Console output ([print]) is one of these calls: the console may refuse
      a line, and then [print] raises.
    - The texts of the exceptions the interpreter raises itself are those of
      CPython 3.11 to 3.13.
    - Headers and timeouts of the HTTP calls do not influence control flow and
      are left out. Paths are joined as on POSIX. *)

From Stdlib Require Import String Ascii List Bool Arith NArith Lia Permutation.
Import ListNotations.
Open Scope string_scope.
Set Warnings "-register-all".

(* ------------------------------------------------------------------ *)
(** ** Python strings *)

Module PyStr.

Definition code (c : ascii) : N := N_of_ascii c.

Definition between (lo hi n : N) : bool := (lo <=? n)%N && (n <=? hi)%N.

(** [str.lower] on one character: A-Z and the Latin-1 capitals. *)
Definition lower_char (c : ascii) : ascii :=
  let n := code c in
  if between 65 90 n || (between 192 222 n && negb (n =? 215)%N)
  then ascii_of_N (n + 32) else c.

Fixpoint lower (s : string) : string :=
  match s with
  | EmptyString => EmptyString
  | String c s' => String (lower_char c) (lower s')
  end.

(** [str.isspace] on one character; it is also the class [\s]. *)
Definition isspace (c : ascii) : bool :=
  let n := code c in
  between 9 13 n || between 28 32 n || (n =? 133)%N || (n =? 160)%N.

Definition isdigit (c : ascii) : bool := between 48 57 (code c).

Definition isalpha_ascii (c : ascii) : bool :=
  let n := code c in between 65 90 n || between 97 122 n.

(** The class [\w]: alphanumeric characters and the underscore. *)
Definition isword (c : ascii) : bool :=
  let n := code c in
  isalpha_ascii c || isdigit c || (n =? 95)%N
  || (n =? 170)%N || (n =? 178)%N || (n =? 179)%N || (n =? 181)%N
  || between 185 186 n || between 188 190 n
  || between 192 214 n || between 216 246 n || between 248 255 n.

Fixpoint rev_onto (s acc : string) : string :=
  match s with
  | EmptyString => acc
  | String c s' => rev_onto s' (String c acc)
  end.

Definition rev (s : string) : string := rev_onto s EmptyString.

Fixpoint lstrip (s : string) : string :=
  match s with
  | EmptyString => EmptyString
  | String c s' => if isspace c then lstrip s' else s
  end.

Definition rstrip (s : string) : string := rev (lstrip (rev s)).

Definition strip (s : string) : string := rstrip (lstrip s).

Fixpoint startswith (s p : string) {struct p} : bool :=
  match p with
  | EmptyString => true
  | String a p' =>
      match s with
      | EmptyString => false
      | String b s' => Ascii.eqb a b && startswith s' p'
      end
  end.

Definition endswith (s suffix : string) : bool :=
  startswith (rev s) (rev suffix).

(** [sub in s] *)
Fixpoint contains (s sub : string) : bool :=
  startswith s sub ||
  match s with
  | EmptyString => false
  | String _ s' => contains s' sub
  end.

(** [s.replace(a, b)] for one-character [a] and [b]. *)
Fixpoint replace (a b : ascii) (s : string) : string :=
  match s with
  | EmptyString => EmptyString
  | String c s' => String (if Ascii.eqb c a then b else c) (replace a b s')
  end.

(** [s.split(sep)[-1]] for a one-character [sep]. *)
Fixpoint last_segment_from (sep : ascii) (s cur : string) : string :=
  match s with
  | EmptyString => rev cur
  | String c s' =>
      if Ascii.eqb c sep then last_segment_from sep s' EmptyString
      else last_segment_from sep s' (String c cur)
  end.

Definition split_last (sep : ascii) (s : string) : string :=
  last_segment_from sep s EmptyString.

Definition drop_last (n : nat) (s : string) : string :=
  substring 0 (String.length s - n) s.

Definition is_empty (s : string) : bool :=
  match s with EmptyString => true | _ => false end.

Definition newline : string := String (ascii_of_N 10) EmptyString.

(** [os.path.join(a, b)] *)
Definition path_join (a b : string) : string :=
  if startswith b "/" then b
  else if is_empty a || endswith a "/" then a ++ b
  else a ++ "/" ++ b.

End PyStr.
Import PyStr.

(* ------------------------------------------------------------------ *)
(** ** The regular expressions of the source *)

Module Re.

Definition dquote : string := String (ascii_of_N 34) EmptyString.

Definition take (n : nat) (s : string) : string := substring 0 n s.

Definition drop (n : nat) (s : string) : string :=
  substring n (String.length s - n) s.

Fixpoint all_chars (p : ascii -> bool) (s : string) : bool :=
  match s with
  | EmptyString => true
  | String c s' => p c && all_chars p s'
  end.

Fixpoint filter_chars (p : ascii -> bool) (s : string) : string :=
  match s with
  | EmptyString => EmptyString
  | String c s' => if p c then String c (filter_chars p s') else filter_chars p s'
  end.

(** [re.sub(r'\.pdf$', '', s, flags=re.IGNORECASE)]: [$] matches at the end
    of the string and also just before a newline that ends the string. *)
Definition sub_pdf_suffix (s : string) : string :=
  if endswith (lower s) ".pdf" then drop_last 4 s
  else if endswith s newline && endswith (lower (drop_last 1 s)) ".pdf"
       then drop_last 5 s ++ newline
       else s.

(** [re.sub(r'[^\w\s-]', '', title)] *)
Definition sub_non_word (title : string) : string :=
  filter_chars (fun c => isword c || isspace c || Ascii.eqb c "-"%char) title.

(** The lazy group [(.+?\.pdf)] followed by a double quote: [acc] holds, in
    reverse, the characters the group has taken so far. *)
Fixpoint lazy_pdf (s acc : string) : option string :=
  match s with
  | EmptyString => None
  | String c s' =>
      if Ascii.eqb c (ascii_of_N 10) then None
      else if startswith s' (".pdf" ++ dquote)
           then Some (PyStr.rev (String c acc) ++ ".pdf")
           else lazy_pdf s' (String c acc)
  end.

(** [re.search(r'data-preview="(.+?\.pdf)"', text)], giving [group(1)]. *)
Fixpoint search_data_preview (text : string) : option string :=
  match text with
  | EmptyString => None
  | String _ rest =>
      let here :=
        if startswith text ("data-preview=" ++ dquote)
        then lazy_pdf (drop 14 text) EmptyString else None in
      match here with
      | Some g => Some g
      | None => search_data_preview rest
      end
  end.

Definition digits (n : nat) (s : string) : bool :=
  Nat.eqb (String.length (take n s)) n && all_chars isdigit (take n s).

(** [\s?\d{3}] at the head of [s]: the length matched. *)
Definition space_digits3 (s : string) : option nat :=
  let with_space :=
    match s with
    | String c s' => if isspace c && digits 3 s' then Some 4%nat else None
    | EmptyString => None
    end in
  match with_space with
  | Some n => Some n
  | None => if digits 3 s then Some 3%nat else None
  end.

(** [[A-Za-z]{k}\s?\d{3}] at the head of [s]. *)
Definition letters_then (k : nat) (s : string) : option nat :=
  if Nat.eqb (String.length (take k s)) k && all_chars isalpha_ascii (take k s)
  then option_map (Nat.add k) (space_digits3 (drop k s))
  else None.

(** [[A-Za-z]{2,4}\s?\d{3}] at the head of [s], greedy. *)
Definition course_code_at (s : string) : option nat :=
  match letters_then 4 s with
  | Some n => Some n
  | None =>
      match letters_then 3 s with
      | Some n => Some n
      | None => letters_then 2 s
      end
  end.

(** [re.search(r'([A-Za-z]{2,4}\s?\d{3})', text)], giving [group(1)]. *)
Fixpoint search_course_code (text : string) : option string :=
  match text with
  | EmptyString => None
  | String _ rest =>
      match course_code_at text with
      | Some n => Some (take n text)
      | None => search_course_code rest
      end
  end.

(** [re.search(r'(20\d{2})', text)], giving [group(1)]. *)
Fixpoint search_year (text : string) : option string :=
  match text with
  | EmptyString => None
  | String _ rest =>
      if startswith text "20" && digits 2 (drop 2 text)
      then Some (take 4 text)
      else search_year rest
  end.

End Re.

(* ------------------------------------------------------------------ *)
(** ** Python values: exceptions, Result mappings, JSON, parsed HTML *)

Inductive exn : Type := Exn (kind message : string).

(** [str(e)] *)
Definition str_exn (e : exn) : string := let 'Exn _ m := e in m.

Inductive Outcome (A : Type) : Type :=
| Ok (a : A)
| Raise (e : exn).
Arguments Ok {A} a.
Arguments Raise {A} e.

Definition is_raise {A} (o : Outcome A) : bool :=
  match o with Raise _ => true | Ok _ => false end.

(** The values stored in a Result mapping. *)
Inductive value : Type :=
| VStr (s : string)
| VNone
| VList (items : list string).

(** A Result is a [dict] with string keys, kept in insertion order. *)
Definition Result : Type := list (string * value).

Fixpoint dict_get (k : string) (d : Result) : option value :=
  match d with
  | [] => None
  | (k', v) :: d' => if String.eqb k' k then Some v else dict_get k d'
  end.

Definition status (d : Result) : option value := dict_get "status" d.

(** [if result:] on the return value of a strategy: [None] and the empty
    [dict] are false. *)
Definition truthy (o : option Result) : option Result :=
  match o with
  | Some (kv :: d) => Some (kv :: d)
  | _ => None
  end.

(** What [json.loads] produces. A number keeps its rendering by [str] and
    whether it is non-zero; an object keeps its items in insertion order. *)
Inductive JSON : Type :=
| JNull
| JBool (b : bool)
| JNum (rendering : string) (nonzero : bool)
| JStr (s : string)
| JArr (items : list JSON)
| JObj (items : list (string * JSON)).

Module Json.

Fixpoint lookup (k : string) (items : list (string * JSON)) : option JSON :=
  match items with
  | [] => None
  | (k', v) :: rest => if String.eqb k' k then Some v else lookup k rest
  end.

(** [type(v).__name__]. A number is an [int] or a [float]: the [str] of an
    [int] is made of digits and a sign, that of a [float] never is. *)
Definition type_name (v : JSON) : string :=
  match v with
  | JNull => "NoneType"
  | JBool _ => "bool"
  | JNum rendering _ =>
      if Re.all_chars (fun c => isdigit c || Ascii.eqb c "-"%char) rendering
      then "int" else "float"
  | JStr _ => "str"
  | JArr _ => "list"
  | JObj _ => "dict"
  end.

Definition AttributeError (v : JSON) : exn :=
  Exn "AttributeError" ("'" ++ type_name v ++ "' object has no attribute 'get'").
Definition NotIterable (v : JSON) : exn :=
  Exn "TypeError" ("'" ++ type_name v ++ "' object is not iterable").
Definition NotAContainer (v : JSON) : exn :=
  Exn "TypeError" ("argument of type '" ++ type_name v ++ "' is not iterable").
(** [v[k]] for a string [k] on a value that is not an object *)
Definition BadIndex (v : JSON) : exn :=
  match v with
  | JArr _ => Exn "TypeError" "list indices must be integers or slices, not str"
  | JStr _ => Exn "TypeError" "string indices must be integers, not 'str'"
  | _ => Exn "TypeError" ("'" ++ type_name v ++ "' object is not subscriptable")
  end.
Definition NotSubscriptable (v : JSON) : exn :=
  Exn "TypeError" ("'" ++ type_name v ++ "' object is not subscriptable").
(** [str(KeyError(k))] is the [repr] of the key. *)
Definition KeyError (k : string) : exn := Exn "KeyError" ("'" ++ k ++ "'").
Definition KeyError0 : exn := Exn "KeyError" "0".
Definition IndexError (kind : string) : exn :=
  Exn "IndexError" (kind ++ " index out of range").

(** [v.get(k, default)] *)
Definition get (v : JSON) (k : string) (default : JSON) : Outcome JSON :=
  match v with
  | JObj items => Ok (match lookup k items with Some x => x | None => default end)
  | _ => Raise (AttributeError v)
  end.

Fixpoint chars (s : string) : list JSON :=
  match s with
  | EmptyString => []
  | String c s' => JStr (String c EmptyString) :: chars s'
  end.

(** The items [for x in v] runs through. *)
Definition iter (v : JSON) : Outcome (list JSON) :=
  match v with
  | JArr items => Ok items
  | JObj items => Ok (map (fun kv => JStr (fst kv)) items)
  | JStr s => Ok (chars s)
  | _ => Raise (NotIterable v)
  end.

Definition is_str (k : string) (v : JSON) : bool :=
  match v with JStr s => String.eqb s k | _ => false end.

(** [k in v] for a string [k] *)
Definition contains (k : string) (v : JSON) : Outcome bool :=
  match v with
  | JObj items => Ok (match lookup k items with Some _ => true | None => false end)
  | JArr items => Ok (existsb (is_str k) items)
  | JStr s => Ok (PyStr.contains s k)
  | _ => Raise (NotAContainer v)
  end.

(** [v[k]] for a string [k] *)
Definition getitem (v : JSON) (k : string) : Outcome JSON :=
  match v with
  | JObj items =>
      match lookup k items with Some x => Ok x | None => Raise (KeyError k) end
  | _ => Raise (BadIndex v)
  end.

(** [v[0]] *)
Definition getitem0 (v : JSON) : Outcome JSON :=
  match v with
  | JArr (x :: _) => Ok x
  | JArr [] => Raise (IndexError "list")
  | JStr (String c _) => Ok (JStr (String c EmptyString))
  | JStr EmptyString => Raise (IndexError "string")
  | JObj _ => Raise KeyError0
  | _ => Raise (NotSubscriptable v)
  end.

(** [if v:] *)
Definition truthy (v : JSON) : bool :=
  match v with
  | JNull => false
  | JBool b => b
  | JNum _ nonzero => nonzero
  | JStr s => negb (is_empty s)
  | JArr items => match items with [] => false | _ => true end
  | JObj items => match items with [] => false | _ => true end
  end.

End Json.

(** An element of a parsed page: its name, its classes and its other
    attributes. A page is the list of its elements in document order. *)
Record Tag : Type := {
  tag_name : string;
  tag_class : list string;
  tag_attrs : list (string * string)
}.

Definition Soup : Type := list Tag.

Module Bs4.

Fixpoint attr (k : string) (attrs : list (string * string)) : option string :=
  match attrs with
  | [] => None
  | (k', v) :: rest => if String.eqb k' k then Some v else attr k rest
  end.

(** [soup.find(name, class_=cls)] *)
Definition find (soup : Soup) (name cls : string) : option Tag :=
  List.find (fun t => String.eqb (tag_name t) name
                      && existsb (String.eqb cls) (tag_class t)) soup.

(** [soup.find_all(name, href=True)] *)
Definition find_all_href (soup : Soup) (name : string) : list Tag :=
  filter (fun t => String.eqb (tag_name t) name
                   && match attr "href" (tag_attrs t) with
                      | Some _ => true | None => false end) soup.

(** [tag[k]] *)
Definition getitem (t : Tag) (k : string) : Outcome string :=
  match attr k (tag_attrs t) with
  | Some v => Ok v
  | None => Raise (Json.KeyError k)
  end.

(** [tag.get(k, default)] *)
Definition get (t : Tag) (k default : string) : string :=
  match attr k (tag_attrs t) with Some v => v | None => default end.

End Bs4.

(* ------------------------------------------------------------------ *)
(** ** The outside world *)

(** What the program does to the outside world, in the order it does it. *)
Inductive Event : Type :=
| EvMakedirs (path : string)      (* os.makedirs(path, exist_ok=True) *)
| EvGet (url : string)            (* requests.get(url, ...) *)
| EvWriteFile (path : string)     (* open(path, 'wb') and shutil.copyfileobj *)
| EvImport (module : string)      (* from module import ... *)
| EvSearch (query : string)       (* googlesearch.search(query, num_results=5) *)
| EvImageSave (path : string)     (* img.save(path) *)
| EvPrint (line : string).        (* print(...) *)

Definition Trace : Type := list Event.

(** A request to a server outside the machine. *)
Definition is_network (e : Event) : bool :=
  match e with
  | EvGet _ | EvSearch _ => true
  | _ => false
  end.

(** What [requests.get] returns: the body as text, and what [.json()]
    makes of it. *)
Record Response : Type := {
  text : string;
  json : Outcome JSON;
  content : string
}.

(** The answers of the outside world. Each may depend on the trace so far.
    [env_search] gives the URLs the generator yields and the exception, if
    any, that ends the iteration. [env_repr] is the rendering by [str] of a
    JSON array or object. *)
Record Env : Type := {
  env_makedirs : Trace -> string -> Outcome unit;
  env_get : Trace -> string -> Outcome Response;
  env_write_file : Trace -> string -> Outcome unit;
  env_import : Trace -> string -> Outcome unit;
  env_search : Trace -> string -> list string * option exn;
  env_image_save : Trace -> string -> Outcome unit;
  env_print : Trace -> string -> Outcome unit;
  env_parse_html : string -> Outcome Soup;
  env_image_open : string -> Outcome unit;
  env_repr : JSON -> string
}.

(** [f"{v}"] *)
Definition str_json (env : Env) (v : JSON) : string :=
  match v with
  | JStr s => s
  | JNull => "None"
  | JBool true => "True"
  | JBool false => "False"
  | JNum rendering _ => rendering
  | _ => env_repr env v
  end.

(* ------------------------------------------------------------------ *)
(** ** Computations that act on the world and may raise *)

Definition M (A : Type) : Type := Trace -> Outcome A * Trace.

Definition ret {A} (a : A) : M A := fun t => (Ok a, t).

Definition raise {A} (e : exn) : M A := fun t => (Raise e, t).

Definition bind {A B} (m : M A) (k : A -> M B) : M B :=
  fun t =>
    match m t with
    | (Ok a, t') => k a t'
    | (Raise e, t') => (Raise e, t')
    end.

(** [try: body except Exception as e: handler] *)
Definition try_except {A} (body : M A) (handler : exn -> M A) : M A :=
  fun t =>
    match body t with
    | (Ok a, t') => (Ok a, t')
    | (Raise e, t') => handler e t'
    end.

(** A computation that does not touch the world. *)
Definition lift {A} (o : Outcome A) : M A := fun t => (o, t).

(** One call to the world: the answer is computed from the trace before the
    call, and the call is appended to the trace. *)
Definition perform {A} (ev : Event) (answer : Trace -> A) : M A :=
  fun t => (Ok (answer t), (t ++ [ev])%list).

Definition call {A} (ev : Event) (answer : Trace -> Outcome A) : M A :=
  fun t => (answer t, (t ++ [ev])%list).

Declare Scope py_scope.
Delimit Scope py_scope with py.
Notation "x <- m ;; k" := (bind m (fun x => k))
  (at level 61, m at next level, right associativity) : py_scope.
Notation "m ;; k" := (bind m (fun _ => k))
  (at level 61, right associativity) : py_scope.
Open Scope py_scope.

Section Primitives.
Variable env : Env.

(** [print(line)]; it raises when the console refuses the line. *)
Definition print (line : string) : M unit :=
  call (EvPrint line) (fun t => env_print env t line).

Definition os_makedirs (path : string) : M unit :=
  call (EvMakedirs path) (fun t => env_makedirs env t path).

Definition requests_get (url : string) : M Response :=
  call (EvGet url) (fun t => env_get env t url).

(** [with open(path, 'wb') as f: shutil.copyfileobj(r.raw, f)] *)
Definition write_stream (path : string) : M unit :=
  call (EvWriteFile path) (fun t => env_write_file env t path).

Definition import_from (module : string) : M unit :=
  call (EvImport module) (fun t => env_import env t module).

Definition googlesearch_search (query : string) : M (list string * option exn) :=
  perform (EvSearch query) (fun t => env_search env t query).

Definition BeautifulSoup (html : string) : M Soup := lift (env_parse_html env html).

Definition Image_open (bytes : string) : M unit := lift (env_image_open env bytes).

Definition img_save (path : string) : M unit :=
  call (EvImageSave path) (fun t => env_image_save env t path).
End Primitives.

Definition DOWNLOAD_DIR : string := "downloads".
Definition MAX_CONCURRENT_DOWNLOADS : nat := 10.

(** [x or default] for an optional string *)
Definition or_str (x : option string) (default : string) : string :=
  match x with
  | Some s => if is_empty s then default else s
  | None => default
  end.

(** [if x:] for an optional string *)
Definition truthy_str (x : option string) : bool :=
  match x with
  | Some s => negb (is_empty s)
  | None => false
  end.

(** [r.get('status') == s] *)
Definition status_is (r : Result) (s : string) : bool :=
  match status r with
  | Some (VStr x) => String.eqb x s
  | _ => false
  end.

Definition opt_value (x : option string) : value :=
  match x with Some s => VStr s | None => VNone end.

(* ------------------------------------------------------------------ *)
(** ** Downloader.py *)

Module Downloader.
Section WithEnv.
Variable env : Env.

(** [requests.get] turns a URL that is not a string into one with [str]. *)
Definition _download_cover_image (book_name : string) : M (option string) :=
  try_except
    (let search_url := "https://www.googleapis.com/books/v1/volumes?q=" ++ book_name in
     resp <- requests_get env search_url ;;
     res <- lift (json resp) ;;
     items <- lift (Json.get res "items" (JArr [])) ;;
     if Json.truthy items then
       first <- lift (Json.getitem0 items) ;;
       info <- lift (Json.getitem first "volumeInfo") ;;
       links <- lift (Json.getitem info "imageLinks") ;;
       image_url <- lift (Json.getitem links "thumbnail") ;;
       img_res <- requests_get env (str_json env image_url) ;;
       Image_open env (content img_res) ;;
       let cover_path := path_join DOWNLOAD_DIR (book_name ++ "_cover.jpg") in
       img_save env cover_path ;;
       ret (Some cover_path)
     else ret None)
    (fun e => print env ("Cover image not found: " ++ str_exn e) ;; ret None).

Definition _download_pdf_and_cover (url title : string) : M Result :=
  try_except
    (let pdf_name := Re.sub_non_word title ++ ".pdf" in
     let file_path := path_join DOWNLOAD_DIR pdf_name in
     r <- requests_get env url ;;
     write_stream env file_path ;;
     cover_path <- _download_cover_image title ;;
     ret [("status", VStr "success");
          ("message", VStr ("Downloaded '" ++ title ++ "'"));
          ("file_path", VStr file_path);
          ("cover", opt_value cover_path)])
    (fun e => ret [("status", VStr "error"); ("message", VStr (str_exn e))]).

Definition _extract_pdfdrive_pdf (book_url : string) : M (option string) :=
  try_except
    (res <- requests_get env book_url ;;
     match Re.search_data_preview (text res) with
     | Some group1 => ret (Some group1)
     | None => ret None
     end)
    (fun e => print env ("Error getting PDF URL from PDFDrive: " ++ str_exn e) ;;
              ret None).

Definition _try_pdfdrive_search (book_name : string) : M (option Result) :=
  print env ("Searching PDFDrive for '" ++ book_name ++ "'...") ;;
  let search_url := "https://www.pdfdrive.com/search?q=" ++ replace " " "+" book_name in
  try_except
    (res <- requests_get env search_url ;;
     soup <- BeautifulSoup env (text res) ;;
     match Bs4.find soup "a" "ai-search" with
     | Some first_result =>
         href <- lift (Bs4.getitem first_result "href") ;;
         let book_url := "https://www.pdfdrive.com" ++ href in
         let title := Bs4.get first_result "title" book_name in
         pdf_url <- _extract_pdfdrive_pdf book_url ;;
         if truthy_str pdf_url then
           r <- _download_pdf_and_cover (or_str pdf_url EmptyString) title ;;
           ret (Some r)
         else ret None
     | None => ret None
     end)
    (fun e => print env ("PDFDrive error: " ++ str_exn e) ;; ret None).

(** The body of [for doc in docs:] *)
Fixpoint _try_archive_search_loop (book_name : string) (docs : list JSON)
  : M (option Result) :=
  match docs with
  | [] => ret None
  | doc :: rest =>
      has_id <- lift (Json.contains "identifier" doc) ;;
      if has_id : bool then
        ident <- lift (Json.getitem doc "identifier") ;;
        let item_url := "https://archive.org/download/" ++ str_json env ident
                        ++ "/" ++ str_json env ident ++ ".pdf" in
        r <- _download_pdf_and_cover item_url book_name ;;
        ret (Some r)
      else _try_archive_search_loop book_name rest
  end.

Definition _try_archive_search (book_name : string) : M (option Result) :=
  print env ("Searching Archive.org for '" ++ book_name ++ "'...") ;;
  let search_url := "https://archive.org/advancedsearch.php?q=title%3A("
                    ++ replace " " "+" book_name ++ ")&output=json" in
  try_except
    (res <- requests_get env search_url ;;
     data <- lift (json res) ;;
     response <- lift (Json.get data "response" (JObj [])) ;;
     docs <- lift (Json.get response "docs" (JArr [])) ;;
     items <- lift (Json.iter docs) ;;
     _try_archive_search_loop book_name items)
    (fun e => print env ("Archive.org error: " ++ str_exn e) ;; ret None).

(** The body of [for url in search(...):]; [stop] is the exception, if
    any, that the generator raises after its last URL. *)
Fixpoint _try_google_pdf_search_loop (book_name : string) (urls : list string)
    (stop : option exn) : M (option Result) :=
  match urls with
  | [] => match stop with Some e => raise e | None => ret None end
  | url :: rest =>
      if endswith url ".pdf" then
        r <- _download_pdf_and_cover url book_name ;;
        ret (Some r)
      else _try_google_pdf_search_loop book_name rest stop
  end.

Definition _try_google_pdf_search (book_name : string) : M (option Result) :=
  print env ("Trying Google PDF search for '" ++ book_name ++ "'...") ;;
  import_from env "googlesearch" ;;
  try_except
    (let query := book_name ++ " filetype:pdf" in
     found <- googlesearch_search env query ;;
     _try_google_pdf_search_loop book_name (fst found) (snd found))
    (fun e => print env ("Google search error: " ++ str_exn e) ;; ret None).

Definition _download_by_book_name (book_name : string) : M Result :=
  let clean_name := strip (Re.sub_pdf_suffix book_name) in
  pdfdrive_result <- _try_pdfdrive_search clean_name ;;
  match truthy pdfdrive_result with
  | Some r => ret r
  | None =>
      archive_result <- _try_archive_search clean_name ;;
      match truthy archive_result with
      | Some r => ret r
      | None =>
          google_result <- _try_google_pdf_search clean_name ;;
          match truthy google_result with
          | Some r => ret r
          | None =>
              ret [("status", VStr "error");
                   ("message", VStr ("Could not find PDF for '" ++ clean_name ++ "'"));
                   ("alternatives",
                    VList ["https://www.pdfdrive.com/search?q="
                             ++ replace " " "+" clean_name;
                           "https://archive.org/search.php?query="
                             ++ replace " " "+" clean_name])]
          end
      end
  end.

Definition _download_direct_url (url : string) : M Result :=
  if negb (endswith (lower url) ".pdf") then
    ret [("status", VStr "error");
         ("message", VStr "URL doesn't point to a PDF file")]
  else
    try_except
      (let filename := path_join DOWNLOAD_DIR (split_last "/" url) in
       response <- requests_get env url ;;
       write_stream env filename ;;
       ret [("status", VStr "success");
            ("message", VStr "Downloaded PDF from URL");
            ("file_path", VStr filename)])
      (fun e => ret [("status", VStr "error"); ("message", VStr (str_exn e))]).

Definition _extract_course_code (text : string) : option string :=
  Re.search_course_code text.

Definition _extract_year (text : string) : option string :=
  Re.search_year text.

(** The body of [for link in soup.find_all('a', href=True):] *)
Fixpoint _try_mzuni_opac_search_loop (links : list Tag) (download_links : list string)
  : M (list string) :=
  match links with
  | [] => ret download_links
  | link :: rest =>
      raw <- lift (Bs4.getitem link "href") ;;
      let href := lower raw in
      if endswith href ".pdf" || contains href "download" then
        let full_url := if startswith href "http" then href
                        else "https://opac.mzuni.ac.mw" ++ href in
        _try_mzuni_opac_search_loop rest (download_links ++ [full_url])%list
      else _try_mzuni_opac_search_loop rest download_links
  end.

Definition _try_mzuni_opac_search (query : string) (course_code year : option string)
  : M (option Result) :=
  try_except
    (let search_url := "https://opac.mzuni.ac.mw/cgi-bin/koha/opac-search.pl?q="
                       ++ replace " " "+" query in
     response <- requests_get env search_url ;;
     soup <- BeautifulSoup env (text response) ;;
     download_links <- _try_mzuni_opac_search_loop (Bs4.find_all_href soup "a") [] ;;
     match download_links with
     | pdf_url :: _ =>
         let filename :=
           if truthy_str course_code || truthy_str year
           then or_str course_code "paper" ++ "_" ++ or_str year "unknown" ++ ".pdf"
           else "past_paper.pdf" in
         let file_path := path_join DOWNLOAD_DIR filename in
         r <- requests_get env pdf_url ;;
         write_stream env file_path ;;
         ret (Some [("status", VStr "success");
                    ("message", VStr ("Downloaded past paper: " ++ query));
                    ("file_path", VStr file_path);
                    ("source", VStr "MZUNI Library")])
     | [] => ret None
     end)
    (fun e => print env ("MZUNI OPAC search error: " ++ str_exn e) ;; ret None).

Definition past_paper_info (identifier : string) : Result :=
  [("status", VStr "info");
   ("message", VStr "No direct download found. Try these resources:");
   ("resources",
    VList ["https://opac.mzuni.ac.mw/cgi-bin/koha/opac-search.pl?q="
             ++ replace " " "+" identifier;
           "https://www.academia.edu/";
           "https://www.researchgate.net/"]);
   ("tips",
    VList ["Try searching with exact course code and year (e.g. 'CS 101 2020')";
           "Some resources may require institutional login"])].

Definition _try_past_paper_download (identifier : string) : M Result :=
  print env ("Searching academic sources for '" ++ identifier ++ "'...") ;;
  try_except
    (let course_code := _extract_course_code identifier in
     let year := _extract_year identifier in
     mzuni_result <- _try_mzuni_opac_search identifier course_code year ;;
     match truthy mzuni_result with
     | Some r => if status_is r "success" then ret r
                 else ret (past_paper_info identifier)
     | None => ret (past_paper_info identifier)
     end)
    (fun e => ret [("status", VStr "error");
                   ("message", VStr ("Search error: " ++ str_exn e))]).

Definition download_pdf (identifier : string) : M Result :=
  os_makedirs env DOWNLOAD_DIR ;;
  let identifier := strip identifier in
  if startswith (lower identifier) "http" then
    _download_direct_url identifier
  else if contains (lower identifier) "past paper"
          || contains (lower identifier) "exam paper" then
    _try_past_paper_download identifier
  else
    _download_by_book_name identifier.

End WithEnv.

(** What the dispatcher appends for the future of [book]. *)
Definition collect (book : string) (outcome : Outcome Result) : Result :=
  match outcome with
  | Ok data => data
  | Raise e => [("status", VStr "error"); ("message", VStr (str_exn e));
                ("book", VStr book)]
  end.

(** [executor.submit(download_pdf, book)] for entry [i] of the list: what
    [future.result()] gives. [view i] is the outside world as that unit of
    work meets it. *)
Definition submit (view : nat -> Env) (i : nat) (book : string) : Outcome Result :=
  fst (download_pdf (view i) book []).

(** [completed] lists the futures, by the position of their entry in
    [book_list], in the order [as_completed] yields them. *)
Definition handle_multiple_downloads (view : nat -> Env) (completed : list nat)
    (book_list : list string) : list Result :=
  flat_map
    (fun i =>
       match nth_error book_list i with
       | Some book => [collect book (submit view i book)]
       | None => []
       end)
    completed.

End Downloader.

(* ------------------------------------------------------------------ *)
(** ** downloads/Pdf.py *)

Module Pdf.
Section WithEnv.
Variable env : Env.

(** [requests.get] turns a URL that is not a string into one with [str]. *)
Definition _download_cover_image (book_name : string) : M (option string) :=
  try_except
    (let search_url := "https://www.googleapis.com/books/v1/volumes?q=" ++ book_name in
     resp <- requests_get env search_url ;;
     res <- lift (json resp) ;;
     items <- lift (Json.get res "items" (JArr [])) ;;
     if Json.truthy items then
       first <- lift (Json.getitem0 items) ;;
       info <- lift (Json.getitem first "volumeInfo") ;;
       links <- lift (Json.getitem info "imageLinks") ;;
       image_url <- lift (Json.getitem links "thumbnail") ;;
       img_res <- requests_get env (str_json env image_url) ;;
       Image_open env (content img_res) ;;
       let cover_path := path_join DOWNLOAD_DIR (book_name ++ "_cover.jpg") in
       img_save env cover_path ;;
       ret (Some cover_path)
     else ret None)
    (fun e => print env ("Cover image not found: " ++ str_exn e) ;; ret None).

Definition _download_pdf_and_cover (url title : string) : M Result :=
  try_except
    (let pdf_name := Re.sub_non_word title ++ ".pdf" in
     let file_path := path_join DOWNLOAD_DIR pdf_name in
     r <- requests_get env url ;;
     write_stream env file_path ;;
     cover_path <- _download_cover_image title ;;
     ret [("status", VStr "success");
          ("message", VStr ("Downloaded '" ++ title ++ "'"));
          ("file_path", VStr file_path);
          ("cover", opt_value cover_path)])
    (fun e => ret [("status", VStr "error"); ("message", VStr (str_exn e))]).

Definition _extract_pdfdrive_pdf (book_url : string) : M (option string) :=
  try_except
    (res <- requests_get env book_url ;;
     match Re.search_data_preview (text res) with
     | Some group1 => ret (Some group1)
     | None => ret None
     end)
    (fun e => print env ("Error getting PDF URL from PDFDrive: " ++ str_exn e) ;;
              ret None).

Definition _try_pdfdrive_search (book_name : string) : M (option Result) :=
  print env ("Searching PDFDrive for '" ++ book_name ++ "'...") ;;
  let search_url := "https://www.pdfdrive.com/search?q=" ++ replace " " "+" book_name in
  try_except
    (res <- requests_get env search_url ;;
     soup <- BeautifulSoup env (text res) ;;
     match Bs4.find soup "a" "ai-search" with
     | Some first_result =>
         href <- lift (Bs4.getitem first_result "href") ;;
         let book_url := "https://www.pdfdrive.com" ++ href in
         let title := Bs4.get first_result "title" book_name in
         pdf_url <- _extract_pdfdrive_pdf book_url ;;
         if truthy_str pdf_url then
           r <- _download_pdf_and_cover (or_str pdf_url EmptyString) title ;;
           ret (Some r)
         else ret None
     | None => ret None
     end)
    (fun e => print env ("PDFDrive error: " ++ str_exn e) ;; ret None).

(** The body of [for doc in docs:] *)
Fixpoint _try_archive_search_loop (book_name : string) (docs : list JSON)
  : M (option Result) :=
  match docs with
  | [] => ret None
  | doc :: rest =>
      has_id <- lift (Json.contains "identifier" doc) ;;
      if has_id : bool then
        ident <- lift (Json.getitem doc "identifier") ;;
        let item_url := "https://archive.org/download/" ++ str_json env ident
                        ++ "/" ++ str_json env ident ++ ".pdf" in
        r <- _download_pdf_and_cover item_url book_name ;;
        ret (Some r)
      else _try_archive_search_loop book_name rest
  end.

Definition _try_archive_search (book_name : string) : M (option Result) :=
  print env ("Searching Archive.org for '" ++ book_name ++ "'...") ;;
  let search_url := "https://archive.org/advancedsearch.php?q=title%3A("
                    ++ replace " " "+" book_name ++ ")&output=json" in
  try_except
    (res <- requests_get env search_url ;;
     data <- lift (json res) ;;
     response <- lift (Json.get data "response" (JObj [])) ;;
     docs <- lift (Json.get response "docs" (JArr [])) ;;
     items <- lift (Json.iter docs) ;;
     _try_archive_search_loop book_name items)
    (fun e => print env ("Archive.org error: " ++ str_exn e) ;; ret None).

(** The body of [for url in search(...):]; [stop] is the exception, if
    any, that the generator raises after its last URL. *)
Fixpoint _try_google_pdf_search_loop (book_name : string) (urls : list string)
    (stop : option exn) : M (option Result) :=
  match urls with
  | [] => match stop with Some e => raise e | None => ret None end
  | url :: rest =>
      if endswith url ".pdf" then
        r <- _download_pdf_and_cover url book_name ;;
        ret (Some r)
      else _try_google_pdf_search_loop book_name rest stop
  end.

Definition _try_google_pdf_search (book_name : string) : M (option Result) :=
  print env ("Trying Google PDF search for '" ++ book_name ++ "'...") ;;
  import_from env "googlesearch" ;;
  try_except
    (let query := book_name ++ " filetype:pdf" in
     found <- googlesearch_search env query ;;
     _try_google_pdf_search_loop book_name (fst found) (snd found))
    (fun e => print env ("Google search error: " ++ str_exn e) ;; ret None).

Definition _download_by_book_name (book_name : string) : M Result :=
  let clean_name := strip (Re.sub_pdf_suffix book_name) in
  pdfdrive_result <- _try_pdfdrive_search clean_name ;;
  match truthy pdfdrive_result with
  | Some r => ret r
  | None =>
      archive_result <- _try_archive_search clean_name ;;
      match truthy archive_result with
      | Some r => ret r
      | None =>
          google_result <- _try_google_pdf_search clean_name ;;
          match truthy google_result with
          | Some r => ret r
          | None =>
              ret [("status", VStr "error");
                   ("message", VStr ("Could not find PDF for '" ++ clean_name ++ "'"));
                   ("alternatives",
                    VList ["https://www.pdfdrive.com/search?q="
                             ++ replace " " "+" clean_name;
                           "https://archive.org/search.php?query="
                             ++ replace " " "+" clean_name])]
          end
      end
  end.

Definition _download_direct_url (url : string) : M Result :=
  if negb (endswith (lower url) ".pdf") then
    ret [("status", VStr "error");
         ("message", VStr "URL doesn't point to a PDF file")]
  else
    try_except
      (let filename := path_join DOWNLOAD_DIR (split_last "/" url) in
       response <- requests_get env url ;;
       write_stream env filename ;;
       ret [("status", VStr "success");
            ("message", VStr "Downloaded PDF from URL");
            ("file_path", VStr filename)])
      (fun e => ret [("status", VStr "error"); ("message", VStr (str_exn e))]).

Definition _try_past_paper_download (identifier : string) : M Result :=
  print env ("Searching MZUNI library for '" ++ identifier ++ "'...") ;;
  try_except
    (let search_url := "http://opac.mzuni.ac.mw/cgi-bin/koha/opac-search.pl?q="
                       ++ replace " " "+" identifier in
     ret [("status", VStr "info");
          ("message", VStr ("Please search manually at " ++ search_url));
          ("url", VStr search_url)])
    (fun e => ret [("status", VStr "error");
                   ("message", VStr ("Could not search past papers: " ++ str_exn e))]).

Definition download_pdf (identifier : string) : M Result :=
  os_makedirs env DOWNLOAD_DIR ;;
  let identifier := strip identifier in
  if startswith (lower identifier) "http" then
    _download_direct_url identifier
  else if contains (lower identifier) "past paper" then
    _try_past_paper_download identifier
  else
    _download_by_book_name identifier.

End WithEnv.

Definition collect (book : string) (outcome : Outcome Result) : Result :=
  match outcome with
  | Ok data => data
  | Raise e => [("status", VStr "error"); ("message", VStr (str_exn e));
                ("book", VStr book)]
  end.

Definition submit (view : nat -> Env) (i : nat) (book : string) : Outcome Result :=
  fst (download_pdf (view i) book []).

Definition handle_multiple_downloads (view : nat -> Env) (completed : list nat)
    (book_list : list string) : list Result :=
  flat_map
    (fun i =>
       match nth_error book_list i with
       | Some book => [collect book (submit view i book)]
       | None => []
       end)
    completed.

End Pdf.

(* ------------------------------------------------------------------ *)
(** ** downloads/Example.py *)

Module Example.
Section WithEnv.
Variable env : Env.

(** [requests.get] turns a URL that is not a string into one with [str]. *)
Definition _download_cover_image (book_name : string) : M (option string) :=
  try_except
    (let search_url := "https://www.googleapis.com/books/v1/volumes?q=" ++ book_name in
     resp <- requests_get env search_url ;;
     res <- lift (json resp) ;;
     items <- lift (Json.get res "items" (JArr [])) ;;
     if Json.truthy items then
       first <- lift (Json.getitem0 items) ;;
       info <- lift (Json.getitem first "volumeInfo") ;;
       links <- lift (Json.getitem info "imageLinks") ;;
       image_url <- lift (Json.getitem links "thumbnail") ;;
       img_res <- requests_get env (str_json env image_url) ;;
       Image_open env (content img_res) ;;
       let cover_path := path_join DOWNLOAD_DIR (book_name ++ "_cover.jpg") in
       img_save env cover_path ;;
       ret (Some cover_path)
     else ret None)
    (fun e => print env ("Cover image not found: " ++ str_exn e) ;; ret None).

Definition _download_pdf_and_cover (url title : string) : M Result :=
  try_except
    (let pdf_name := Re.sub_non_word title ++ ".pdf" in
     let file_path := path_join DOWNLOAD_DIR pdf_name in
     r <- requests_get env url ;;
     write_stream env file_path ;;
     cover_path <- _download_cover_image title ;;
     ret [("status", VStr "success");
          ("message", VStr ("Downloaded '" ++ title ++ "'"));
          ("file_path", VStr file_path);
          ("cover", opt_value cover_path)])
    (fun e => ret [("status", VStr "error"); ("message", VStr (str_exn e))]).

Definition _extract_pdfdrive_pdf (book_url : string) : M (option string) :=
  try_except
    (res <- requests_get env book_url ;;
     match Re.search_data_preview (text res) with
     | Some group1 => ret (Some group1)
     | None => ret None
     end)
    (fun e => print env ("Error getting PDF URL from PDFDrive: " ++ str_exn e) ;;
              ret None).

Definition _try_pdfdrive_search (book_name : string) : M (option Result) :=
  print env ("Searching PDFDrive for '" ++ book_name ++ "'...") ;;
  let search_url := "https://www.pdfdrive.com/search?q=" ++ replace " " "+" book_name in
  try_except
    (res <- requests_get env search_url ;;
     soup <- BeautifulSoup env (text res) ;;
     match Bs4.find soup "a" "ai-search" with
     | Some first_result =>
         href <- lift (Bs4.getitem first_result "href") ;;
         let book_url := "https://www.pdfdrive.com" ++ href in
         let title := Bs4.get first_result "title" book_name in
         pdf_url <- _extract_pdfdrive_pdf book_url ;;
         if truthy_str pdf_url then
           r <- _download_pdf_and_cover (or_str pdf_url EmptyString) title ;;
           ret (Some r)
         else ret None
     | None => ret None
     end)
    (fun e => print env ("PDFDrive error: " ++ str_exn e) ;; ret None).

(** The body of [for doc in docs:] *)
Fixpoint _try_archive_search_loop (book_name : string) (docs : list JSON)
  : M (option Result) :=
  match docs with
  | [] => ret None
  | doc :: rest =>
      has_id <- lift (Json.contains "identifier" doc) ;;
      if has_id : bool then
        ident <- lift (Json.getitem doc "identifier") ;;
        let item_url := "https://archive.org/download/" ++ str_json env ident
                        ++ "/" ++ str_json env ident ++ ".pdf" in
        r <- _download_pdf_and_cover item_url book_name ;;
        ret (Some r)
      else _try_archive_search_loop book_name rest
  end.

Definition _try_archive_search (book_name : string) : M (option Result) :=
  print env ("Searching Archive.org for '" ++ book_name ++ "'...") ;;
  let search_url := "https://archive.org/advancedsearch.php?q=title%3A("
                    ++ replace " " "+" book_name ++ ")&output=json" in
  try_except
    (res <- requests_get env search_url ;;
     data <- lift (json res) ;;
     response <- lift (Json.get data "response" (JObj [])) ;;
     docs <- lift (Json.get response "docs" (JArr [])) ;;
     items <- lift (Json.iter docs) ;;
     _try_archive_search_loop book_name items)
    (fun e => print env ("Archive.org error: " ++ str_exn e) ;; ret None).

(** The body of [for url in search(...):]; [stop] is the exception, if
    any, that the generator raises after its last URL. *)
Fixpoint _try_google_pdf_search_loop (book_name : string) (urls : list string)
    (stop : option exn) : M (option Result) :=
  match urls with
  | [] => match stop with Some e => raise e | None => ret None end
  | url :: rest =>
      if endswith url ".pdf" then
        r <- _download_pdf_and_cover url book_name ;;
        ret (Some r)
      else _try_google_pdf_search_loop book_name rest stop
  end.

Definition _try_google_pdf_search (book_name : string) : M (option Result) :=
  print env ("Trying Google PDF search for '" ++ book_name ++ "'...") ;;
  import_from env "googlesearch" ;;
  try_except
    (let query := book_name ++ " filetype:pdf" in
     found <- googlesearch_search env query ;;
     _try_google_pdf_search_loop book_name (fst found) (snd found))
    (fun e => print env ("Google search error: " ++ str_exn e) ;; ret None).

Definition _download_by_book_name (book_name : string) : M Result :=
  let clean_name := strip (Re.sub_pdf_suffix book_name) in
  pdfdrive_result <- _try_pdfdrive_search clean_name ;;
  match truthy pdfdrive_result with
  | Some r => ret r
  | None =>
      archive_result <- _try_archive_search clean_name ;;
      match truthy archive_result with
      | Some r => ret r
      | None =>
          google_result <- _try_google_pdf_search clean_name ;;
          match truthy google_result with
          | Some r => ret r
          | None =>
              ret [("status", VStr "error");
                   ("message", VStr ("Could not find PDF for '" ++ clean_name ++ "'"));
                   ("alternatives",
                    VList ["https://www.pdfdrive.com/search?q="
                             ++ replace " " "+" clean_name;
                           "https://archive.org/search.php?query="
                             ++ replace " " "+" clean_name])]
          end
      end
  end.

Definition _download_direct_url (url : string) : M Result :=
  if negb (endswith (lower url) ".pdf") then
    ret [("status", VStr "error");
         ("message", VStr "URL doesn't point to a PDF file")]
  else
    try_except
      (let filename := path_join DOWNLOAD_DIR (split_last "/" url) in
       response <- requests_get env url ;;
       write_stream env filename ;;
       ret [("status", VStr "success");
            ("message", VStr "Downloaded PDF from URL");
            ("file_path", VStr filename)])
      (fun e => ret [("status", VStr "error"); ("message", VStr (str_exn e))]).

Definition download_pdf (identifier : string) : M Result :=
  os_makedirs env DOWNLOAD_DIR ;;
  let identifier := strip identifier in
  if startswith (lower identifier) "http" then
    _download_direct_url identifier
  else
    _download_by_book_name identifier.

End WithEnv.
End Example.

(* ------------------------------------------------------------------ *)
(** ** Some concrete worlds *)

Module World.

Definition ConnectionError : exn := Exn "ConnectionError" "Max retries exceeded".

Definition empty_page : Response :=
  {| text := "<html></html>"; json := Raise (Exn "JSONDecodeError" "Expecting value");
     content := "<html></html>" |}.

(** No server can be reached; the local machine works. *)
Definition offline : Env :=
  {| env_makedirs := fun _ _ => Ok tt;
     env_get := fun _ _ => Raise ConnectionError;
     env_write_file := fun _ _ => Ok tt;
     env_import := fun _ _ => Ok tt;
     env_search := fun _ _ => ([], Some ConnectionError);
     env_image_save := fun _ _ => Ok tt;
     env_print := fun _ _ => Ok tt;
     env_parse_html := fun _ => Ok [];
     env_image_open := fun _ => Ok tt;
     env_repr := fun _ => "[]" |}.

(** As [offline], on a machine where the [googlesearch] package is not
    installed. *)
Definition no_googlesearch : Env :=
  {| env_makedirs := fun _ _ => Ok tt;
     env_get := fun _ _ => Raise ConnectionError;
     env_write_file := fun _ _ => Ok tt;
     env_import := fun _ _ =>
       Raise (Exn "ModuleNotFoundError" "No module named 'googlesearch'");
     env_search := fun _ _ => ([], None);
     env_image_save := fun _ _ => Ok tt;
     env_print := fun _ _ => Ok tt;
     env_parse_html := fun _ => Ok [];
     env_image_open := fun _ => Ok tt;
     env_repr := fun _ => "[]" |}.

(** The working directory cannot be written to. *)
Definition read_only_dir : Env :=
  {| env_makedirs := fun _ path =>
       Raise (Exn "PermissionError" ("[Errno 13] Permission denied: '" ++ path ++ "'"));
     env_get := fun _ _ => Raise ConnectionError;
     env_write_file := fun _ _ => Raise (Exn "PermissionError" "[Errno 13] Permission denied");
     env_import := fun _ _ => Ok tt;
     env_search := fun _ _ => ([], None);
     env_image_save := fun _ _ => Raise (Exn "PermissionError" "[Errno 13] Permission denied");
     env_print := fun _ _ => Ok tt;
     env_parse_html := fun _ => Ok [];
     env_image_open := fun _ => Ok tt;
     env_repr := fun _ => "[]" |}.

(** Every server answers with a page without links and without results. *)
Definition nothing_found : Env :=
  {| env_makedirs := fun _ _ => Ok tt;
     env_get := fun _ _ => Ok empty_page;
     env_write_file := fun _ _ => Ok tt;
     env_import := fun _ _ => Ok tt;
     env_search := fun _ _ => ([], None);
     env_image_save := fun _ _ => Ok tt;
     env_print := fun _ _ => Ok tt;
     env_parse_html := fun _ => Ok [];
     env_image_open := fun _ => Ok tt;
     env_repr := fun _ => "[]" |}.

Definition result_link : Tag :=
  {| tag_name := "a"; tag_class := ["ai-search"];
     tag_attrs := [("href", "/book-e1.html"); ("title", "Book")] |}.

Definition book_page : Response :=
  {| text := "<button data-preview=" ++ Re.dquote ++ "/files/book.pdf" ++ Re.dquote ++ ">";
     json := Raise (Exn "JSONDecodeError" "Expecting value");
     content := EmptyString |}.

(** PDFDrive lists the book and its page names a preview file by a path
    without a scheme, which [requests.get] refuses. *)
Definition pdfdrive_relative_link : Env :=
  {| env_makedirs := fun _ _ => Ok tt;
     env_get := fun _ url =>
       if String.eqb url "https://www.pdfdrive.com/search?q=book" then Ok empty_page
       else if String.eqb url "https://www.pdfdrive.com/book-e1.html" then Ok book_page
       else Raise (Exn "MissingSchema" ("Invalid URL '" ++ url ++ "': No scheme supplied"));
     env_write_file := fun _ _ => Ok tt;
     env_import := fun _ _ => Ok tt;
     env_search := fun _ _ => ([], None);
     env_image_save := fun _ _ => Ok tt;
     env_print := fun _ _ => Ok tt;
     env_parse_html := fun _ => Ok [result_link];
     env_image_open := fun _ => Ok tt;
     env_repr := fun _ => "[]" |}.

(** PDFDrive lists the book and its page names a preview file that can be
    fetched; the cover lookup finds nothing. *)
Definition pdfdrive_has_book : Env :=
  {| env_makedirs := fun _ _ => Ok tt;
     env_get := fun _ url =>
       if String.eqb url "https://www.pdfdrive.com/book-e1.html"
       then Ok {| text := "<button data-preview=" ++ Re.dquote
                          ++ "https://cdn.example.com/book.pdf" ++ Re.dquote ++ ">";
                  json := Raise (Exn "JSONDecodeError" "Expecting value");
                  content := EmptyString |}
       else Ok empty_page;
     env_write_file := fun _ _ => Ok tt;
     env_import := fun _ _ => Ok tt;
     env_search := fun _ _ => ([], None);
     env_image_save := fun _ _ => Ok tt;
     env_print := fun _ _ => Ok tt;
     env_parse_html := fun _ => Ok [result_link];
     env_image_open := fun _ => Ok tt;
     env_repr := fun _ => "[]" |}.

Definition archive_listing : Response :=
  {| text := "{...}";
     json := Ok (JObj [("response",
                        JObj [("docs", JArr [JObj [("title", JStr "Atomic Habits")];
                                             JObj [("identifier", JStr "atomichabits")]])])]);
     content := "{...}" |}.

(** PDFDrive cannot be reached; Archive.org lists an item for the title. *)
Definition archive_has_book : Env :=
  {| env_makedirs := fun _ _ => Ok tt;
     env_get := fun _ url =>
       if startswith url "https://www.pdfdrive.com/" then Raise ConnectionError
       else if startswith url "https://archive.org/advancedsearch.php" then Ok archive_listing
       else Ok empty_page;
     env_write_file := fun _ _ => Ok tt;
     env_import := fun _ _ => Ok tt;
     env_search := fun _ _ => ([], None);
     env_image_save := fun _ _ => Ok tt;
     env_print := fun _ _ => Ok tt;
     env_parse_html := fun _ => Ok [];
     env_image_open := fun _ => Ok tt;
     env_repr := fun _ => "[]" |}.

End World.

(* ------------------------------------------------------------------ *)
(** ** More concrete worlds *)

Module Scene.

Definition answering (get : string -> Outcome Response) (soup : Soup)
    (hits : list string * option exn) (write : Outcome unit) : Env :=
  {| env_makedirs := fun _ _ => Ok tt;
     env_get := fun _ url => get url;
     env_write_file := fun _ _ => write;
     env_import := fun _ _ => Ok tt;
     env_search := fun _ _ => hits;
     env_image_save := fun _ _ => Ok tt;
     env_print := fun _ _ => Ok tt;
     env_parse_html := fun _ => Ok soup;
     env_image_open := fun _ => Ok tt;
     env_repr := fun _ => "[]" |}.

Definition listing_with_null : Response :=
  {| text := "{...}";
     json := Ok (JObj [("response",
                        JObj [("docs", JArr [JObj [("title", JStr "Atomic Habits")];
                                             JNull;
                                             JObj [("identifier", JStr "atomichabits")]])])]);
     content := "{...}" |}.

(** Archive.org lists a null entry before the item that has an identifier. *)
Definition archive_null_first : Env :=
  answering (fun _ => Ok listing_with_null) [] ([], None) (Ok tt).

(** Google yields an upper-case PDF, a page, two PDFs, and would then fail. *)
Definition google_hits : Env :=
  answering (fun _ => Ok World.empty_page) []
    (["https://a.example/Book.PDF"; "https://b.example/page.html";
      "https://c.example/book.pdf"; "https://d.example/other.pdf"],
     Some (Exn "HTTPError" "429 Too Many Requests"))
    (Ok tt).

(** Google yields only an upper-case PDF and then fails. *)
Definition google_upper_case_only : Env :=
  answering (fun _ => Ok World.empty_page) []
    (["https://a.example/Book.PDF"], Some (Exn "HTTPError" "429 Too Many Requests"))
    (Ok tt).

(** The catalogue page links a paper by a path with capital letters. *)
Definition opac_has_paper : Env :=
  answering (fun _ => Ok World.empty_page)
    [{| tag_name := "a"; tag_class := []; tag_attrs := [("href", "/cgi-bin/koha/opac-main.pl")] |};
     {| tag_name := "a"; tag_class := []; tag_attrs := [("name", "top")] |};
     {| tag_name := "a"; tag_class := []; tag_attrs := [("href", "/Files/BICT2303-2023.PDF")] |};
     {| tag_name := "a"; tag_class := []; tag_attrs := [("href", "http://example.org/Download?id=7")] |}]
    ([], None) (Ok tt).

(** Every page can be fetched; no file can be written. *)
Definition disk_full : Env :=
  answering (fun _ => Ok World.empty_page) [] ([], None)
    (Raise (Exn "OSError" "[Errno 28] No space left on device")).

Definition empty_catalogue : Response :=
  {| text := "{...}";
     json := Ok (JObj [("kind", JStr "books#volumes"); ("totalItems", JNum "0" false)]);
     content := "{...}" |}.

(** The book catalogue knows no title. *)
Definition no_cover_known : Env :=
  answering (fun _ => Ok empty_catalogue) [] ([], None) (Ok tt).

(** The book catalogue knows a cover for every title. *)
Definition catalogue_entry : Response :=
  {| text := "{...}";
     json := Ok (JObj [("items",
                        JArr [JObj [("volumeInfo",
                                     JObj [("imageLinks",
                                            JObj [("thumbnail",
                                                   JStr "https://books.example.com/thumb.jpg")])])]])]);
     content := "{...}" |}.

Definition cover_known : Env :=
  answering (fun url =>
               if startswith url "https://www.googleapis.com/books/v1/volumes?q="
               then Ok catalogue_entry else Ok World.empty_page)
            [] ([], None) (Ok tt).

Definition BrokenPipeError : exn := Exn "BrokenPipeError" "[Errno 32] Broken pipe".

(** No server in reach, and a console that takes no line. *)
Definition closed_console : Env :=
  {| env_makedirs := env_makedirs World.offline;
     env_get := env_get World.offline;
     env_write_file := env_write_file World.offline;
     env_import := env_import World.offline;
     env_search := env_search World.offline;
     env_image_save := env_image_save World.offline;
     env_print := fun _ _ => Raise BrokenPipeError;
     env_parse_html := env_parse_html World.offline;
     env_image_open := env_image_open World.offline;
     env_repr := env_repr World.offline |}.

(** No server in reach, and a console that takes one line and no more. *)
Definition console_closes_early : Env :=
  {| env_makedirs := env_makedirs World.offline;
     env_get := env_get World.offline;
     env_write_file := env_write_file World.offline;
     env_import := env_import World.offline;
     env_search := env_search World.offline;
     env_image_save := env_image_save World.offline;
     env_print := fun t _ =>
       if existsb (fun e => match e with EvPrint _ => true | _ => false end) t
       then Raise BrokenPipeError else Ok tt;
     env_parse_html := env_parse_html World.offline;
     env_image_open := env_image_open World.offline;
     env_repr := env_repr World.offline |}.

(** Every request is answered with an empty page, and the console is
    closed. *)
Definition written_then_console_closed : Env :=
  {| env_makedirs := env_makedirs World.nothing_found;
     env_get := env_get World.nothing_found;
     env_write_file := env_write_file World.nothing_found;
     env_import := env_import World.nothing_found;
     env_search := env_search World.nothing_found;
     env_image_save := env_image_save World.nothing_found;
     env_print := fun _ _ => Raise BrokenPipeError;
     env_parse_html := env_parse_html World.nothing_found;
     env_image_open := env_image_open World.nothing_found;
     env_repr := env_repr World.nothing_found |}.

End Scene.

(* ------------------------------------------------------------------ *)
(** ** The vocabulary of the statements *)

(** [post m Q]: from every trace, the outcome of [m] satisfies [Q]. *)
Definition post {A} (m : M A) (Q : Outcome A -> Prop) : Prop :=
  forall t, Q (fst (m t)).

(** [returns m R]: [m] never raises, and its value satisfies [R]. *)
Definition returns {A} (m : M A) (R : A -> Prop) : Prop :=
  post m (fun o => match o with Ok a => R a | Raise _ => False end).

(** The console takes every line. *)
Definition console_works (env : Env) : Prop :=
  forall t line, env_print env t line = Ok tt.

(** [returns_unless broken m R]: [m] raises only when [broken] holds, and a
    value it returns satisfies [R]. *)
Definition returns_unless {A} (broken : Prop) (m : M A) (R : A -> Prop) : Prop :=
  post m (fun o => match o with Ok a => R a | Raise _ => broken end).

(** [emits P m]: [m] only appends to the trace, and every event it appends
    satisfies [P]. *)
Definition emits {A} (P : Event -> bool) (m : M A) : Prop :=
  forall t, exists evs, snd (m t) = (t ++ evs)%list /\ forallb P evs = true.

(** The events of [t'] that come after its first [length t] events. *)
Definition since (t t' : Trace) : Trace := skipn (List.length t) t'.

Inductive Strategy : Type := PDFDrive | ArchiveOrg | Google.

(** Each lookup strategy starts by announcing itself on the console. *)
Definition announces (e : Event) : option Strategy :=
  match e with
  | EvPrint line =>
      if startswith line "Searching PDFDrive for '" then Some PDFDrive
      else if startswith line "Searching Archive.org for '" then Some ArchiveOrg
      else if startswith line "Trying Google PDF search for '" then Some Google
      else None
  | _ => None
  end.

(** The strategies started during [evs], in the order they were started. *)
Definition attempts (evs : Trace) : list Strategy :=
  flat_map (fun e => match announces e with Some s => [s] | None => [] end) evs.

Definition quiet (e : Event) : bool :=
  match announces e with Some _ => false | None => true end.

Definition success_or_error (r : Result) : Prop :=
  status r = Some (VStr "success") \/ status r = Some (VStr "error").

(** Nothing, or a Result whose status is "success" or "error". *)
Definition none_or_download (o : option Result) : Prop :=
  o = None \/ exists r, o = Some r /\ success_or_error r.




Definition known_status (r : Result) : Prop :=
  status r = Some (VStr "success")
  \/ status r = Some (VStr "error")
  \/ status r = Some (VStr "info").

Definition not_a_pdf_url : Result :=
  [("status", VStr "error"); ("message", VStr "URL doesn't point to a PDF file")].

(** The Result the dispatcher appends for entry [i], [book]. *)
Definition unit_result (view : nat -> Env) (i : nat) (book : string) : Result :=
  Downloader.collect book (Downloader.submit view i book).

(** [traced m Q]: [m] only appends to the trace, and its outcome and the
    events it appends satisfy [Q]. *)
Definition traced {A} (m : M A) (Q : Outcome A -> Trace -> Prop) : Prop :=
  forall t, exists evs, snd (m t) = (t ++ evs)%list /\ Q (fst (m t)) evs.

(** The number of PDF files written, or begun, during [evs]. *)
Definition pdf_writes (evs : Trace) : nat :=
  List.length (filter (fun e => match e with EvWriteFile _ => true | _ => false end) evs).

(** [counted m Q]: as [traced], for properties that see the appended events
    only through the number of PDF writes among them. *)
Definition counted {A} (m : M A) (Q : Outcome A -> nat -> Prop) : Prop :=
  traced m (fun o evs => Q o (pdf_writes evs)).

Definition not_newline (c : ascii) : bool := negb (Ascii.eqb c (ascii_of_N 10)).

(** A document of the Archive.org listing in which ['identifier' in doc] is
    false. *)
Definition lacks_identifier (doc : JSON) : bool :=
  match Json.contains "identifier" doc with
  | Ok false => true
  | _ => false
  end.

(** The listing as the Archive.org strategy reads it from the answer. *)
Definition archive_docs (res : Response) : Outcome (list JSON) :=
  match json res with
  | Ok data =>
      match Json.get data "response" (JObj []) with
      | Ok response =>
          match Json.get response "docs" (JArr []) with
          | Ok docs => Json.iter docs
          | Raise e => Raise e
          end
      | Raise e => Raise e
      end
  | Raise e => Raise e
  end.

(** A search hit the Google strategy passes over. *)
Definition not_pdf_url (url : string) : bool := negb (endswith url ".pdf").

(** What the catalogue search makes of one [href]: nothing, or the address
    it will ask for. *)
Definition opac_download_link (raw : string) : option string :=
  let href := lower raw in
  if endswith href ".pdf" || contains href "download"
  then Some (if startswith href "http" then href
             else "https://opac.mzuni.ac.mw" ++ href)
  else None.

Definition opac_download_links (links : list Tag) : list string :=
  flat_map (fun link => match Bs4.attr "href" (tag_attrs link) with
                        | Some raw => match opac_download_link raw with
                                      | Some url => [url]
                                      | None => []
                                      end
                        | None => []
                        end) links.

(** The outcome of one download attempt and the PDF writes it made. *)
Definition one_download (o : Outcome Result) (n : nat) : Prop :=
  exists r, o = Ok r /\ success_or_error r /\ dict_get "alternatives" r = None
            /\ n <= 1 /\ (status r = Some (VStr "success") -> n = 1).

(** The outcome of a lookup strategy and the PDF writes it made: a strategy
    that raises has written nothing. *)
Definition strategy_writes (o : Outcome (option Result)) (n : nat) : Prop :=
  match o with
  | Ok None => n = 0
  | Ok (Some r) => one_download (Ok r) n
  | Raise _ => n = 0
  end.

(** What the book-name chain promises about the PDF files it writes. *)
Definition chain_writes (o : Outcome Result) (n : nat) : Prop :=
  n <= 1
  /\ forall r, o = Ok r ->
       (status r = Some (VStr "success") -> n = 1)
       /\ (dict_get "alternatives" r <> None -> n = 0).

(* ------------------------------------------------------------------ *)
(** ** The string functions on the inputs of the source *)

Example lower_mixed : lower "HTTPS://Example.COM/Book.PDF" = "https://example.com/book.pdf".
Proof. reflexivity. Qed.

Example strip_both : strip "  past paper BICT2303 2023  " = "past paper BICT2303 2023".
Proof. reflexivity. Qed.

Example endswith_pdf : endswith "https://example.com/book.pdf" ".pdf" = true.
Proof. reflexivity. Qed.

Example split_last_url : split_last "/" "https://example.com/book.pdf" = "book.pdf".
Proof. reflexivity. Qed.

Example sub_pdf_mixed_case : Re.sub_pdf_suffix "Atomic Habits.PDF" = "Atomic Habits".
Proof. reflexivity. Qed.

Example sub_pdf_before_newline :
  Re.sub_pdf_suffix ("notes.pdf" ++ newline) = "notes" ++ newline.
Proof. reflexivity. Qed.

Example data_preview_found :
  Re.search_data_preview
    ("<div data-preview=" ++ Re.dquote ++ "/files/a.pdf" ++ Re.dquote ++ ">")
  = Some "/files/a.pdf".
Proof. reflexivity. Qed.

Example course_code_found : Re.search_course_code "past paper BICT2303 2023" = Some "BICT230".
Proof. reflexivity. Qed.

Example year_found : Re.search_year "past paper BICT2303 2023" = Some "2023".
Proof. reflexivity. Qed.

(* ------------------------------------------------------------------ *)
(** ** Reasoning about computations *)

Lemma post_any {A} (m : M A) (Q : Outcome A -> Prop) :
  (forall o, Q o) -> post m Q.
Proof. intros H t. apply H. Qed.

Lemma post_ret {A} (a : A) (Q : Outcome A -> Prop) : Q (Ok a) -> post (ret a) Q.
Proof. intros H t. exact H. Qed.

Lemma post_raise {A} (e : exn) (Q : Outcome A -> Prop) :
  Q (Raise e) -> post (raise e) Q.
Proof. intros H t. exact H. Qed.

Lemma post_bind {A B} (m : M A) (k : A -> M B) (Q : Outcome B -> Prop) :
  post m (fun o => match o with
                   | Ok a => post (k a) Q
                   | Raise e => Q (Raise e)
                   end) ->
  post (bind m k) Q.
Proof.
  intros H t. unfold bind. specialize (H t).
  destruct (m t) as [[a | e] t']; simpl in *; [apply H | exact H].
Qed.

Lemma post_try {A} (body : M A) (handler : exn -> M A) (Q : Outcome A -> Prop) :
  post body (fun o => match o with
                      | Ok a => Q (Ok a)
                      | Raise e => post (handler e) Q
                      end) ->
  post (try_except body handler) Q.
Proof.
  intros H t. unfold try_except. specialize (H t).
  destruct (body t) as [[a | e] t']; simpl in *; [exact H | apply H].
Qed.

Lemma post_weaken {A} (m : M A) (Q Q' : Outcome A -> Prop) :
  post m Q -> (forall o, Q o -> Q' o) -> post m Q'.
Proof. intros H HQ t. apply HQ, H. Qed.

(** A callee known to return, followed by the rest of the caller. *)
Lemma post_bind_returns {A B} (m : M A) (R : A -> Prop) (k : A -> M B)
    (Q : Outcome B -> Prop) :
  returns m R -> (forall a, R a -> post (k a) Q) -> post (bind m k) Q.
Proof.
  intros Hm Hk. apply post_bind. eapply post_weaken; [exact Hm |].
  intros [a | e]; simpl; [apply Hk | tauto].
Qed.

Lemma returns_run {A} (m : M A) (R : A -> Prop) :
  returns m R -> forall t, exists a t', m t = (Ok a, t') /\ R a.
Proof.
  intros H t. specialize (H t). destruct (m t) as [[a | e] t']; simpl in H.
  - now exists a, t'.
  - contradiction.
Qed.


Lemma returns_unless_weaken {A} (broken broken' : Prop) (m : M A) (R R' : A -> Prop) :
  returns_unless broken m R -> (broken -> broken') -> (forall a, R a -> R' a) ->
  returns_unless broken' m R'.
Proof.
  intros H Hb HR. eapply post_weaken; [exact H |]. intros [a | e]; auto.
Qed.

(** A callee that raises only when [broken], followed by the rest of the
    caller. *)
Lemma post_bind_unless {A B} (broken : Prop) (m : M A) (R : A -> Prop) (k : A -> M B)
    (Q : Outcome B -> Prop) :
  returns_unless broken m R -> (forall a, R a -> post (k a) Q) ->
  (broken -> forall e, Q (Raise e)) -> post (bind m k) Q.
Proof.
  intros Hm Hk Hb. apply post_bind. eapply post_weaken; [exact Hm |].
  intros [a | e]; simpl; [apply Hk | intros H; now apply Hb].
Qed.

Lemma console_refuses (env : Env) (t : Trace) (line : string) (e : exn) :
  env_print env t line = Raise e -> ~ console_works env.
Proof. intros H C. rewrite C in H. discriminate. Qed.

(** [print] returns, or raises because the console refused the line. *)
Lemma post_print (env : Env) (line : string) (Q : Outcome unit -> Prop) :
  Q (Ok tt) -> (forall e, ~ console_works env -> Q (Raise e)) ->
  post (print env line) Q.
Proof.
  intros HOk HRaise t. unfold print, call. cbn [fst].
  destruct (env_print env t line) as [[] | e] eqn:E; [exact HOk |].
  apply HRaise. exact (console_refuses env t line e E).
Qed.

Lemma post_call {A} (ev : Event) (answer : Trace -> Outcome A) (Q : Outcome A -> Prop) :
  (forall t a, answer t = Ok a -> Q (Ok a)) ->
  (forall t e, answer t = Raise e -> Q (Raise e)) ->
  post (call ev answer) Q.
Proof.
  intros HOk HRaise t. unfold call. cbn [fst].
  destruct (answer t) eqn:E; [eapply HOk | eapply HRaise]; exact E.
Qed.

Lemma post_perform {A} (ev : Event) (answer : Trace -> A) (Q : Outcome A -> Prop) :
  (forall a, Q (Ok a)) -> post (perform ev answer) Q.
Proof. intros H t. apply H. Qed.

(** One step of a proof of [post]: peel the outermost construct of the
    computation, splitting on whatever it branches on. *)
Ltac post_step :=
  match goal with
  | |- returns _ _ => unfold returns
  | |- returns_unless _ _ _ => unfold returns_unless
  | |- post (bind (print _ _) _) _ => apply post_bind, post_print; [| intros ? ?]
  | |- post (bind (lift ?o) _) _ =>
      apply post_bind; intro; simpl; destruct o; simpl
  | |- post (try_except _ _) _ => apply post_try
  | |- post (ret _) _ => apply post_ret
  | |- post (raise _) _ => apply post_raise
  | |- post (match ?x with _ => _ end) _ => destruct x eqn:?
  | |- post (let _ := _ in _) _ => cbv zeta
  | |- post (bind (requests_get _ _) _) _ => apply post_bind, post_any; intros [? | ?]
  | |- post (bind (write_stream _ _) _) _ => apply post_bind, post_any; intros [[] | ?]
  | |- post (bind (img_save _ _) _) _ => apply post_bind, post_any; intros [[] | ?]
  | |- post (bind (import_from _ _) _) _ => apply post_bind, post_any; intros [[] | ?]
  | |- post (bind (os_makedirs _ _) _) _ => apply post_bind, post_any; intros [[] | ?]
  | |- post (bind (googlesearch_search _ _) _) _ =>
      apply post_bind, post_perform; intros [? ?]
  | |- post (bind (BeautifulSoup _ _) _) _ => apply post_bind, post_any; intros [? | ?]
  | |- post (bind (Image_open _ _) _) _ => apply post_bind, post_any; intros [[] | ?]
  end.

Ltac post_auto := repeat (post_step; simpl; try tauto; auto).

(** Run a computation as far as the answers of the world are known. *)
Ltac run_world :=
  cbv beta iota zeta
      delta [bind try_except call perform print lift ret raise fst snd
             requests_get write_stream os_makedirs import_from googlesearch_search
             BeautifulSoup Image_open img_save].

(* ------------------------------------------------------------------ *)
(** ** Results of the helpers of Downloader.py *)

(** Every helper that prints raises when the console refuses the line, and
    the Google strategy raises when its import does. [broken] stands for
    what the caller makes of such a failure: nothing, for a caller that only
    looks at the values returned, and a contradiction, for a caller that
    knows the console and the import to work. *)
Section DownloaderFacts.
Variable env : Env.
Variable broken : Prop.
Hypothesis console_broken : ~ console_works env -> broken.
Hypothesis import_broken :
  forall t e, env_import env t "googlesearch" = Raise e -> broken.

Lemma cover_image_returns (book_name : string) :
  returns_unless broken (Downloader._download_cover_image env book_name) (fun _ => True).
Proof. unfold Downloader._download_cover_image. post_auto. Qed.

(** The handler of [_download_pdf_and_cover] prints nothing, and catches
    what the cover lookup raises. *)
Lemma download_pdf_and_cover_returns (url title : string) :
  returns (Downloader._download_pdf_and_cover env url title) success_or_error.
Proof.
  unfold Downloader._download_pdf_and_cover, success_or_error. post_auto.
  apply post_bind, post_any. intros [cover_path | e]; post_auto.
Qed.

Lemma extract_pdfdrive_pdf_returns (book_url : string) :
  returns_unless broken (Downloader._extract_pdfdrive_pdf env book_url) (fun _ => True).
Proof. unfold Downloader._extract_pdfdrive_pdf. post_auto. Qed.

Lemma download_then_some (url title : string) (Q : Outcome (option Result) -> Prop) :
  (forall o, none_or_download o -> Q (Ok o)) ->
  post (r <- Downloader._download_pdf_and_cover env url title ;; ret (Some r)) Q.
Proof.
  intros HQ. eapply post_bind_returns; [apply download_pdf_and_cover_returns |].
  intros r Hr. apply post_ret, HQ. right. now exists r.
Qed.

Lemma pdfdrive_search_returns (book_name : string) :
  returns_unless broken (Downloader._try_pdfdrive_search env book_name) none_or_download.
Proof.
  unfold Downloader._try_pdfdrive_search. post_auto; try (now left).
  eapply post_bind_unless; [apply extract_pdfdrive_pdf_returns | |].
  - intros pdf_url _. post_auto; try (now left).
    apply download_then_some. auto.
  - intros Hb e. post_auto. now left.
Qed.

Lemma archive_loop_post (book_name : string) (docs : list JSON)
    (Q : Outcome (option Result) -> Prop) :
  (forall o, none_or_download o -> Q (Ok o)) -> (forall e, Q (Raise e)) ->
  post (Downloader._try_archive_search_loop env book_name docs) Q.
Proof.
  intros HOk HRaise. induction docs as [| doc rest IH]; simpl.
  - apply post_ret, HOk. now left.
  - post_auto. now apply download_then_some.
Qed.

Lemma archive_search_returns (book_name : string) :
  returns_unless broken (Downloader._try_archive_search env book_name) none_or_download.
Proof.
  unfold Downloader._try_archive_search. post_auto; try (now left).
  apply archive_loop_post; [auto | intros; post_auto; now left].
Qed.

Lemma google_loop_post (book_name : string) (urls : list string) (stop : option exn)
    (Q : Outcome (option Result) -> Prop) :
  (forall o, none_or_download o -> Q (Ok o)) -> (forall e, Q (Raise e)) ->
  post (Downloader._try_google_pdf_search_loop env book_name urls stop) Q.
Proof.
  intros HOk HRaise. induction urls as [| url rest IH]; simpl.
  - post_auto. apply HOk. now left.
  - post_auto. now apply download_then_some.
Qed.

(** The part of the Google strategy that sits inside [try]. *)
Lemma google_search_guarded_returns (book_name : string) :
  returns_unless broken
    (try_except
       (found <- googlesearch_search env (book_name ++ " filetype:pdf") ;;
        Downloader._try_google_pdf_search_loop env book_name (fst found) (snd found))
       (fun e => print env ("Google search error: " ++ str_exn e) ;; ret None))
    none_or_download.
Proof.
  post_auto. apply google_loop_post; [auto | intros; post_auto; now left].
Qed.

Lemma google_search_returns (book_name : string) :
  returns_unless broken (Downloader._try_google_pdf_search env book_name) none_or_download.
Proof.
  unfold Downloader._try_google_pdf_search, returns_unless.
  apply post_bind, post_print; [| auto].
  apply post_bind, post_call; [intros t [] _ | intros t e H; eauto].
  apply google_search_guarded_returns.
Qed.

End DownloaderFacts.

(* ------------------------------------------------------------------ *)
(** ** The direct-URL path *)

(** C3. A URL whose lower-cased form does not end in ".pdf" is refused by
    [_download_direct_url], in Downloader.py and in Pdf.py alike, with the
    error Result "URL doesn't point to a PDF file"; the trace is returned as
    it was received, so no request, and no other call, was made. *)
Theorem direct_url_not_pdf_no_network :
  forall (env : Env) (url : string) (t : Trace),
    endswith (lower url) ".pdf" = false ->
    Downloader._download_direct_url env url t = (Ok not_a_pdf_url, t)
    /\ Pdf._download_direct_url env url t = (Ok not_a_pdf_url, t)
    /\ filter is_network (snd (Downloader._download_direct_url env url t))
       = filter is_network t.
Proof.
  intros env url t H.
  unfold Downloader._download_direct_url, Pdf._download_direct_url.
  rewrite H. simpl. repeat split; reflexivity.
Qed.

Lemma direct_url_not_pdf_witness :
  Downloader._download_direct_url World.nothing_found "https://example.com/book.html" []
    = (Ok not_a_pdf_url, [])
  /\ Pdf._download_direct_url World.nothing_found "https://example.com/book.html" []
    = (Ok not_a_pdf_url, [])
  /\ filter is_network
       (snd (Downloader._download_direct_url World.nothing_found
               "https://example.com/book.html" []))
     = filter is_network [].
Proof.
  apply (direct_url_not_pdf_no_network World.nothing_found
           "https://example.com/book.html" []).
  reflexivity.
Defined.

(** C9. An identifier whose trimmed, lower-cased form starts with "http" is
    handed to [_download_direct_url], whatever else it contains. When it does
    not end in ".pdf", the only thing [download_pdf] does to the world is to
    create the download directory: once that is done the Result is the error
    "URL doesn't point to a PDF file", and no lookup strategy has run. *)
Theorem download_pdf_http_prefix_is_direct_url :
  forall (env : Env) (identifier : string) (t : Trace),
    startswith (lower (strip identifier)) "http" = true ->
    Downloader.download_pdf env identifier t
    = (os_makedirs env DOWNLOAD_DIR ;;
       Downloader._download_direct_url env (strip identifier)) t
    /\ (endswith (lower (strip identifier)) ".pdf" = false ->
        snd (Downloader.download_pdf env identifier t)
        = (t ++ [EvMakedirs DOWNLOAD_DIR])%list
        /\ fst (Downloader.download_pdf env identifier t)
           = match env_makedirs env t DOWNLOAD_DIR with
             | Ok _ => Ok not_a_pdf_url
             | Raise e => Raise e
             end).
Proof.
  intros env identifier t Hhttp.
  unfold Downloader.download_pdf. cbv zeta. rewrite Hhttp. split; [reflexivity |].
  intros Hpdf. unfold bind, os_makedirs, call, Downloader._download_direct_url.
  rewrite Hpdf. simpl.
  destruct (env_makedirs env t DOWNLOAD_DIR); split; reflexivity.
Qed.

Lemma download_pdf_http_prefix_witness :
  Downloader.download_pdf World.nothing_found "httpd tutorial" []
  = (Ok not_a_pdf_url, [EvMakedirs "downloads"]).
Proof.
  destruct (download_pdf_http_prefix_is_direct_url World.nothing_found
              "httpd tutorial" [] eq_refl) as [_ H].
  destruct (H eq_refl) as [Htrace Hresult].
  rewrite (surjective_pairing (Downloader.download_pdf _ _ _)).
  rewrite Htrace, Hresult. reflexivity.
Defined.

(* ------------------------------------------------------------------ *)
(** ** The book-name chain *)

(** An identifier that is neither a URL nor a past-paper query goes, once
    trimmed, to the book-name chain. *)
Lemma download_pdf_book_name_route (env : Env) (identifier : string) (t : Trace) :
  startswith (lower (strip identifier)) "http" = false ->
  contains (lower (strip identifier)) "past paper" = false ->
  contains (lower (strip identifier)) "exam paper" = false ->
  Downloader.download_pdf env identifier t
  = (os_makedirs env DOWNLOAD_DIR ;;
     Downloader._download_by_book_name env (strip identifier)) t.
Proof.
  intros H1 H2 H3. unfold Downloader.download_pdf. cbv zeta.
  now rewrite H1, H2, H3.
Qed.

(** C7. When the PDFDrive, Archive.org and Google lookups, run one after the
    other on the cleaned name, all come back with nothing, the chain returns
    an error Result whose "alternatives" are the PDFDrive and Archive.org
    search pages for the cleaned name with '+' for every space. *)
Theorem all_lookups_empty_gives_alternatives :
  forall (env : Env) (book_name : string) (t t1 t2 t3 : Trace),
    let clean_name := strip (Re.sub_pdf_suffix book_name) in
    Downloader._try_pdfdrive_search env clean_name t = (Ok None, t1) ->
    Downloader._try_archive_search env clean_name t1 = (Ok None, t2) ->
    Downloader._try_google_pdf_search env clean_name t2 = (Ok None, t3) ->
    exists r,
      Downloader._download_by_book_name env book_name t = (Ok r, t3)
      /\ status r = Some (VStr "error")
      /\ dict_get "message" r
         = Some (VStr ("Could not find PDF for '" ++ clean_name ++ "'"))
      /\ dict_get "alternatives" r
         = Some (VList ["https://www.pdfdrive.com/search?q="
                          ++ replace " " "+" clean_name;
                        "https://archive.org/search.php?query="
                          ++ replace " " "+" clean_name]).
Proof.
  intros env book_name t t1 t2 t3 clean_name H1 H2 H3.
  eexists. unfold Downloader._download_by_book_name, bind. fold clean_name.
  rewrite H1. simpl. rewrite H2. simpl. rewrite H3. simpl.
  repeat split; reflexivity.
Qed.

Lemma all_lookups_empty_witness :
  exists r,
    Downloader._download_by_book_name World.offline "Atomic Habits.pdf" []
    = (Ok r,
       [EvPrint "Searching PDFDrive for 'Atomic Habits'...";
        EvGet "https://www.pdfdrive.com/search?q=Atomic+Habits";
        EvPrint "PDFDrive error: Max retries exceeded";
        EvPrint "Searching Archive.org for 'Atomic Habits'...";
        EvGet "https://archive.org/advancedsearch.php?q=title%3A(Atomic+Habits)&output=json";
        EvPrint "Archive.org error: Max retries exceeded";
        EvPrint "Trying Google PDF search for 'Atomic Habits'...";
        EvImport "googlesearch";
        EvSearch "Atomic Habits filetype:pdf";
        EvPrint "Google search error: Max retries exceeded"])
    /\ status r = Some (VStr "error")
    /\ dict_get "message" r = Some (VStr "Could not find PDF for 'Atomic Habits'")
    /\ dict_get "alternatives" r
       = Some (VList ["https://www.pdfdrive.com/search?q=Atomic+Habits";
                      "https://archive.org/search.php?query=Atomic+Habits"]).
Proof.
  apply (all_lookups_empty_gives_alternatives World.offline "Atomic Habits.pdf" []
           [EvPrint "Searching PDFDrive for 'Atomic Habits'...";
            EvGet "https://www.pdfdrive.com/search?q=Atomic+Habits";
            EvPrint "PDFDrive error: Max retries exceeded"]
           [EvPrint "Searching PDFDrive for 'Atomic Habits'...";
            EvGet "https://www.pdfdrive.com/search?q=Atomic+Habits";
            EvPrint "PDFDrive error: Max retries exceeded";
            EvPrint "Searching Archive.org for 'Atomic Habits'...";
            EvGet "https://archive.org/advancedsearch.php?q=title%3A(Atomic+Habits)&output=json";
            EvPrint "Archive.org error: Max retries exceeded"]);
    reflexivity.
Defined.

(** C10. The book-name chain and its three lookup strategies are the same
    function in Downloader.py, Pdf.py and Example.py: in every world, on
    every name and from every trace they give the same outcome and leave the
    same trace. *)
Theorem book_name_chain_same_in_all_files :
  forall (env : Env) (book_name : string) (t : Trace),
    (Downloader._download_by_book_name env book_name t
       = Pdf._download_by_book_name env book_name t
     /\ Pdf._download_by_book_name env book_name t
       = Example._download_by_book_name env book_name t)
    /\ (Downloader._try_pdfdrive_search env book_name t
          = Pdf._try_pdfdrive_search env book_name t
        /\ Pdf._try_pdfdrive_search env book_name t
          = Example._try_pdfdrive_search env book_name t)
    /\ (Downloader._try_archive_search env book_name t
          = Pdf._try_archive_search env book_name t
        /\ Pdf._try_archive_search env book_name t
          = Example._try_archive_search env book_name t)
    /\ (Downloader._try_google_pdf_search env book_name t
          = Pdf._try_google_pdf_search env book_name t
        /\ Pdf._try_google_pdf_search env book_name t
          = Example._try_google_pdf_search env book_name t).
Proof. intros env book_name t. repeat split; reflexivity. Qed.

(* ------------------------------------------------------------------ *)
(** ** The batch dispatcher *)

Lemma flat_map_agree {A B} (f g : A -> list B) (l : list A) :
  (forall a, In a l -> f a = g a) -> flat_map f l = flat_map g l.
Proof.
  intros H. rewrite !flat_map_concat_map. f_equal. now apply map_ext_in.
Qed.

Section Dispatcher.
Variable view : nat -> Env.

Lemma collect_in_order (book_list : list string) (k : nat) :
  flat_map
    (fun i => match nth_error book_list (i - k) with
              | Some book => [unit_result view i book]
              | None => []
              end)
    (seq k (List.length book_list))
  = map (fun ib => unit_result view (fst ib) (snd ib))
        (combine (seq k (List.length book_list)) book_list).
Proof.
  revert k. induction book_list as [| book rest IH]; intros k; [reflexivity |].
  cbn [List.length seq flat_map combine map fst snd].
  rewrite Nat.sub_diag. cbn [nth_error app]. f_equal.
  rewrite <- (IH (S k)). apply flat_map_agree. intros i Hi.
  apply in_seq in Hi.
  replace (i - k) with (S (i - S k)) by lia. reflexivity.
Qed.

(** When every future completes once, the dispatcher returns one Result
    per entry of the list: the Results of the units, in completion order. *)
Lemma handle_multiple_downloads_one_per_entry
    (completed : list nat) (book_list : list string) :
  Permutation completed (seq 0 (List.length book_list)) ->
  Permutation
    (Downloader.handle_multiple_downloads view completed book_list)
    (map (fun ib => unit_result view (fst ib) (snd ib))
         (combine (seq 0 (List.length book_list)) book_list))
  /\ List.length (Downloader.handle_multiple_downloads view completed book_list)
     = List.length book_list.
Proof.
  intros Hperm.
  assert (H : Permutation
                (Downloader.handle_multiple_downloads view completed book_list)
                (map (fun ib => unit_result view (fst ib) (snd ib))
                     (combine (seq 0 (List.length book_list)) book_list))).
  { rewrite <- collect_in_order. unfold Downloader.handle_multiple_downloads.
    rewrite (flat_map_agree _
               (fun i => match nth_error book_list i with
                         | Some book => [unit_result view i book]
                         | None => []
                         end) (seq 0 (List.length book_list))).
    - apply Permutation_flat_map, Hperm.
    - intros i _. now rewrite Nat.sub_0_r. }
  split; [exact H |].
  rewrite (Permutation_length H), length_map, length_combine, length_seq.
  apply Nat.min_id.
Qed.

(** A unit whose exception escapes is reported under its identifier. *)
Lemma collect_raise_is_tagged (book : string) (e : exn) :
  dict_get "book" (Downloader.collect book (Raise e)) = Some (VStr book)
  /\ status (Downloader.collect book (Raise e)) = Some (VStr "error").
Proof. split; reflexivity. Qed.

End Dispatcher.

(** C1, where the code departs from it. Two different URLs that do not name
    a PDF are dispatched together. Both units return normally, the
    dispatcher appends what they return unchanged, and the two Results are
    equal and carry no "book" entry: whichever future completes first, the
    output is the same list, and nothing in it says which Result belongs to
    which identifier. *)
Theorem batch_results_of_normal_returns_are_untagged :
  let book_list := ["https://example.com/a.html"; "https://example.org/b.html"] in
  let view := fun _ : nat => World.nothing_found in
  Downloader.handle_multiple_downloads view [0; 1] book_list
    = [not_a_pdf_url; not_a_pdf_url]
  /\ Downloader.handle_multiple_downloads view [1; 0] book_list
    = [not_a_pdf_url; not_a_pdf_url]
  /\ dict_get "book" not_a_pdf_url = None
  /\ dict_get "book" (Downloader.collect "https://example.com/a.html"
                        (Raise World.ConnectionError))
     = Some (VStr "https://example.com/a.html").
Proof. repeat split; reflexivity. Qed.

(** C6, where the code departs from it. On a machine without the
    [googlesearch] package, and with no server in reach, [download_pdf]
    raises for a plain book title: the import statement of the Google
    strategy stands before its [try]. In a directory that cannot be written
    to it raises for every identifier: [os.makedirs] stands outside any
    [try]. *)
Theorem download_pdf_raises_when_import_fails :
  Downloader.download_pdf World.no_googlesearch "Atomic Habits" []
  = (Raise (Exn "ModuleNotFoundError" "No module named 'googlesearch'"),
     [EvMakedirs "downloads";
      EvPrint "Searching PDFDrive for 'Atomic Habits'...";
      EvGet "https://www.pdfdrive.com/search?q=Atomic+Habits";
      EvPrint "PDFDrive error: Max retries exceeded";
      EvPrint "Searching Archive.org for 'Atomic Habits'...";
      EvGet "https://archive.org/advancedsearch.php?q=title%3A(Atomic+Habits)&output=json";
      EvPrint "Archive.org error: Max retries exceeded";
      EvPrint "Trying Google PDF search for 'Atomic Habits'...";
      EvImport "googlesearch"])
  /\ Downloader.download_pdf World.read_only_dir "Atomic Habits" []
     = (Raise (Exn "PermissionError" "[Errno 13] Permission denied: 'downloads'"),
        [EvMakedirs "downloads"]).
Proof. split; reflexivity. Qed.

(* ------------------------------------------------------------------ *)
(** ** Past papers *)

Section PastPaperFacts.
Variable env : Env.
Variable broken : Prop.
Hypothesis console_broken : ~ console_works env -> broken.

Lemma mzuni_loop_post (links : list Tag) (acc : list string)
    (Q : Outcome (list string) -> Prop) :
  (forall l, Q (Ok l)) -> (forall e, Q (Raise e)) ->
  post (Downloader._try_mzuni_opac_search_loop links acc) Q.
Proof.
  intros HOk HRaise. revert acc.
  induction links as [| link rest IH]; intros acc; simpl; post_auto.
Qed.

Lemma mzuni_opac_search_returns (query : string) (course_code year : option string) :
  returns_unless broken
    (Downloader._try_mzuni_opac_search env query course_code year)
    (fun o => o = None
              \/ exists r, o = Some r /\ status r = Some (VStr "success")).
Proof.
  unfold Downloader._try_mzuni_opac_search. post_auto.
  apply post_bind, mzuni_loop_post; [| intros; post_auto].
  intros links. post_auto. right. eexists. split; reflexivity.
Qed.

(** A line the catalogue search could not print ends in the handler of
    [_try_past_paper_download], as a "Search error". *)
Lemma past_paper_download_returns (identifier : string) :
  returns_unless broken
    (Downloader._try_past_paper_download env identifier)
    (fun r => status r = Some (VStr "success")
              \/ r = Downloader.past_paper_info identifier
              \/ (broken /\ status r = Some (VStr "error"))).
Proof.
  unfold Downloader._try_past_paper_download. post_auto.
  eapply post_bind_unless; [apply mzuni_opac_search_returns | |].
  - intros o [-> | [r [-> Hr]]]; simpl.
    + post_auto.
    + destruct r as [| kv d]; simpl; [post_auto |].
      unfold status_is. rewrite Hr. simpl. post_auto.
  - intros Hb e. post_auto.
Qed.

End PastPaperFacts.
(** C4. An identifier that [download_pdf] classifies as a past-paper query
    (no "http" at its start, "past paper" or "exam paper" inside) always gets
    a Result once the download directory exists and the console takes the
    lines printed, and that Result never has status "error". When the
    catalogue lookup comes back with nothing, the Result has status "info"
    and carries the three resource URLs and the two tips. *)
Theorem past_paper_without_link_is_info :
  forall (env : Env) (identifier : string) (t : Trace),
    let query := strip identifier in
    startswith (lower query) "http" = false ->
    contains (lower query) "past paper" || contains (lower query) "exam paper" = true ->
    env_makedirs env t DOWNLOAD_DIR = Ok tt ->
    console_works env ->
    exists r t',
      Downloader.download_pdf env identifier t = (Ok r, t')
      /\ status r <> Some (VStr "error")
      /\ (fst (Downloader._try_mzuni_opac_search env query
                 (Downloader._extract_course_code query)
                 (Downloader._extract_year query)
                 ((t ++ [EvMakedirs DOWNLOAD_DIR])
                    ++ [EvPrint ("Searching academic sources for '" ++ query ++ "'...")])%list)
          = Ok None ->
          status r = Some (VStr "info")
          /\ dict_get "resources" r
             = Some (VList ["https://opac.mzuni.ac.mw/cgi-bin/koha/opac-search.pl?q="
                              ++ replace " " "+" query;
                            "https://www.academia.edu/";
                            "https://www.researchgate.net/"])
          /\ dict_get "tips" r
             = Some (VList ["Try searching with exact course code and year (e.g. 'CS 101 2020')";
                            "Some resources may require institutional login"])).
Proof.
  intros env identifier t query Hhttp Hpast Hdir Hconsole.
  unfold Downloader.download_pdf. cbv zeta. fold query. rewrite Hhttp, Hpast.
  unfold bind at 1. unfold os_makedirs, call. rewrite Hdir.
  destruct (returns_run _ _
              (past_paper_download_returns env False (fun N => N Hconsole) query)
              (t ++ [EvMakedirs DOWNLOAD_DIR])%list) as [r [t' [Hrun Hr]]].
  exists r, t'. split; [exact Hrun |]. split.
  - destruct Hr as [Hr | [-> | [[] _]]]; [rewrite Hr |]; discriminate.
  - intros Hnone. revert Hrun.
    unfold Downloader._try_past_paper_download. run_world.
    rewrite (Hconsole (t ++ [EvMakedirs DOWNLOAD_DIR])%list).
    destruct (Downloader._try_mzuni_opac_search env query _ _ _) as [o t''].
    simpl in Hnone. subst o. simpl. intros [= <- _]. repeat split; reflexivity.
Qed.

Lemma past_paper_without_link_witness :
  exists r t',
    Downloader.download_pdf World.nothing_found "exam paper COMM1101 2024" [] = (Ok r, t')
    /\ status r <> Some (VStr "error")
    /\ (fst (Downloader._try_mzuni_opac_search World.nothing_found
               "exam paper COMM1101 2024" (Some "COMM110") (Some "2024")
               [EvMakedirs "downloads";
                EvPrint "Searching academic sources for 'exam paper COMM1101 2024'..."])
        = Ok None ->
        status r = Some (VStr "info")
        /\ dict_get "resources" r
           = Some (VList ["https://opac.mzuni.ac.mw/cgi-bin/koha/opac-search.pl?q=exam+paper+COMM1101+2024";
                          "https://www.academia.edu/";
                          "https://www.researchgate.net/"])
        /\ dict_get "tips" r
           = Some (VList ["Try searching with exact course code and year (e.g. 'CS 101 2020')";
                          "Some resources may require institutional login"])).
Proof.
  exact (past_paper_without_link_is_info World.nothing_found
           "exam paper COMM1101 2024" [] eq_refl eq_refl eq_refl
           (fun _ _ => eq_refl)).
Defined.

(* ------------------------------------------------------------------ *)
(** ** What a computation adds to the trace *)

Lemma since_app (t evs : Trace) : since t (t ++ evs)%list = evs.
Proof.
  unfold since. induction t as [| e t IH]; [reflexivity | exact IH].
Qed.

Lemma attempts_app (e1 e2 : Trace) :
  attempts (e1 ++ e2)%list = (attempts e1 ++ attempts e2)%list.
Proof. apply flat_map_app. Qed.

Lemma attempts_quiet (evs : Trace) : forallb quiet evs = true -> attempts evs = [].
Proof.
  induction evs as [| e evs IH]; [reflexivity |]. simpl.
  intros H. apply andb_prop in H as [He Hevs]. unfold quiet in He.
  destruct (announces e); [discriminate | now apply IH].
Qed.

Lemma emits_ret {A} P (a : A) : emits P (ret a).
Proof. intros t. exists []. split; [symmetry; apply app_nil_r | reflexivity]. Qed.

Lemma emits_raise {A} P (e : exn) : emits P (@raise A e).
Proof. intros t. exists []. split; [symmetry; apply app_nil_r | reflexivity]. Qed.

Lemma emits_lift {A} P (o : Outcome A) : emits P (lift o).
Proof. intros t. exists []. split; [symmetry; apply app_nil_r | reflexivity]. Qed.

Lemma emits_call {A} (P : Event -> bool) (ev : Event) (answer : Trace -> Outcome A) :
  P ev = true -> emits P (call ev answer).
Proof. intros H t. exists [ev]. simpl. now rewrite H. Qed.

Lemma emits_perform {A} (P : Event -> bool) (ev : Event) (answer : Trace -> A) :
  P ev = true -> emits P (perform ev answer).
Proof. intros H t. exists [ev]. simpl. now rewrite H. Qed.

Lemma emits_bind {A B} P (m : M A) (k : A -> M B) :
  emits P m -> (forall a, emits P (k a)) -> emits P (bind m k).
Proof.
  intros Hm Hk t. destruct (Hm t) as [e1 [H1 P1]]. unfold bind.
  destruct (m t) as [[a | e] t']; simpl in H1; subst t'.
  - destruct (Hk a (t ++ e1)%list) as [e2 [H2 P2]]. exists (e1 ++ e2)%list.
    rewrite H2, app_assoc, forallb_app, P1, P2. now split.
  - now exists e1.
Qed.

Lemma emits_try {A} P (body : M A) (handler : exn -> M A) :
  emits P body -> (forall e, emits P (handler e)) -> emits P (try_except body handler).
Proof.
  intros Hm Hk t. destruct (Hm t) as [e1 [H1 P1]]. unfold try_except.
  destruct (body t) as [[a | e] t']; simpl in H1; subst t'.
  - now exists e1.
  - destruct (Hk e (t ++ e1)%list) as [e2 [H2 P2]]. exists (e1 ++ e2)%list.
    rewrite H2, app_assoc, forallb_app, P1, P2. now split.
Qed.


(** A strategy: one announcement, then a body that announces nothing. The
    announcement is in the trace also when the console refuses it. *)
Lemma announced_once {A} (env : Env) (line : string) (s : Strategy) (body : M A) :
  announces (EvPrint line) = Some s -> emits quiet body ->
  forall t, exists evs,
    snd ((print env line ;; body) t) = (t ++ evs)%list /\ attempts evs = [s].
Proof.
  intros Hline Hbody t. unfold bind, print, call.
  assert (Hone : attempts [EvPrint line] = [s])
    by (unfold attempts; cbn [flat_map]; now rewrite Hline).
  destruct (env_print env t line) as [[] | e].
  - destruct (Hbody (t ++ [EvPrint line])%list) as [evs [H Hq]].
    exists (EvPrint line :: evs). rewrite H, <- app_assoc. split; [reflexivity |].
    change (EvPrint line :: evs) with ([EvPrint line] ++ evs)%list.
    now rewrite attempts_app, (attempts_quiet evs Hq), Hone.
  - exists [EvPrint line]. split; [reflexivity | exact Hone].
Qed.

Ltac emits_step :=
  match goal with
  | |- emits _ (bind _ _) => apply emits_bind; [| intros]
  | |- emits _ (try_except _ _) => apply emits_try; [| intros]
  | |- emits _ (ret _) => apply emits_ret
  | |- emits _ (raise _) => apply emits_raise
  | |- emits _ (lift _) => apply emits_lift
  | |- emits _ (print _ _) => apply emits_call; reflexivity
  | |- emits _ (requests_get _ _) => apply emits_call; reflexivity
  | |- emits _ (write_stream _ _) => apply emits_call; reflexivity
  | |- emits _ (img_save _ _) => apply emits_call; reflexivity
  | |- emits _ (import_from _ _) => apply emits_call; reflexivity
  | |- emits _ (os_makedirs _ _) => apply emits_call; reflexivity
  | |- emits _ (googlesearch_search _ _) => apply emits_perform; reflexivity
  | |- emits _ (BeautifulSoup _ _) => apply emits_lift
  | |- emits _ (Image_open _ _) => apply emits_lift
  | |- emits _ (match ?x with _ => _ end) => destruct x
  | |- emits _ (let _ := _ in _) => cbv zeta
  end.

Ltac emits_auto := repeat emits_step.

Section DownloaderTraces.
Variable env : Env.

Lemma cover_image_quiet (book_name : string) :
  emits quiet (Downloader._download_cover_image env book_name).
Proof. unfold Downloader._download_cover_image. emits_auto. Qed.

Lemma download_pdf_and_cover_quiet (url title : string) :
  emits quiet (Downloader._download_pdf_and_cover env url title).
Proof.
  unfold Downloader._download_pdf_and_cover. emits_auto.
  apply cover_image_quiet.
Qed.

Lemma extract_pdfdrive_pdf_quiet (book_url : string) :
  emits quiet (Downloader._extract_pdfdrive_pdf env book_url).
Proof. unfold Downloader._extract_pdfdrive_pdf. emits_auto. Qed.

Lemma archive_loop_quiet (book_name : string) (docs : list JSON) :
  emits quiet (Downloader._try_archive_search_loop env book_name docs).
Proof.
  induction docs as [| doc rest IH]; simpl; emits_auto;
    solve [apply download_pdf_and_cover_quiet | exact IH].
Qed.

Lemma google_loop_quiet (book_name : string) (urls : list string) (stop : option exn) :
  emits quiet (Downloader._try_google_pdf_search_loop env book_name urls stop).
Proof.
  induction urls as [| url rest IH]; simpl; emits_auto;
    solve [apply download_pdf_and_cover_quiet | exact IH].
Qed.

Lemma pdfdrive_search_trace (book_name : string) (t : Trace) :
  exists evs,
    snd (Downloader._try_pdfdrive_search env book_name t) = (t ++ evs)%list
    /\ attempts evs = [PDFDrive].
Proof.
  unfold Downloader._try_pdfdrive_search.
  apply announced_once; [reflexivity |]. emits_auto;
    solve [apply extract_pdfdrive_pdf_quiet | apply download_pdf_and_cover_quiet].
Qed.

Lemma archive_search_trace (book_name : string) (t : Trace) :
  exists evs,
    snd (Downloader._try_archive_search env book_name t) = (t ++ evs)%list
    /\ attempts evs = [ArchiveOrg].
Proof.
  unfold Downloader._try_archive_search.
  apply announced_once; [reflexivity |]. emits_auto. apply archive_loop_quiet.
Qed.

Lemma google_search_trace (book_name : string) (t : Trace) :
  exists evs,
    snd (Downloader._try_google_pdf_search env book_name t) = (t ++ evs)%list
    /\ attempts evs = [Google].
Proof.
  unfold Downloader._try_google_pdf_search.
  apply announced_once; [reflexivity |]. emits_auto. apply google_loop_quiet.
Qed.

End DownloaderTraces.

Lemma truthy_download (r : Result) : success_or_error r -> truthy (Some r) = Some r.
Proof. intros [H | H]; destruct r; (discriminate || reflexivity). Qed.


Lemma google_some_is_download (env : Env) (book_name : string) (t : Trace) (r : Result) :
  fst (Downloader._try_google_pdf_search env book_name t) = Ok (Some r) ->
  success_or_error r.
Proof.
  intros H.
  pose proof (google_search_returns env True (fun _ => I) (fun _ _ _ => I) book_name t)
    as P.
  cbv beta in P. rewrite H in P.
  destruct P as [P | [r' [[= <-] P]]]; [discriminate | exact P].
Qed.

(** C2. The book-name chain runs the PDFDrive lookup first, from the trace
    it was given; the Archive.org lookup only from the trace PDFDrive left
    behind, and only when PDFDrive came back with nothing; the Google lookup
    only from the trace Archive.org left behind, and only when that came
    back with nothing too. The first Result that is not null is the Result
    of the chain, the trace of the chain ends where that strategy ended, and
    the strategies announced in between are exactly the ones up to it. *)
Theorem chain_tries_strategies_in_order :
  forall (env : Env) (book_name : string) (t : Trace),
    let clean_name := strip (Re.sub_pdf_suffix book_name) in
    let first := Downloader._try_pdfdrive_search env clean_name t in
    let second := Downloader._try_archive_search env clean_name (snd first) in
    let third := Downloader._try_google_pdf_search env clean_name (snd second) in
    let chain := Downloader._download_by_book_name env book_name t in
    (forall r, fst first = Ok (Some r) ->
       chain = (Ok r, snd first)
       /\ attempts (since t (snd chain)) = [PDFDrive])
    /\ (fst first = Ok None -> forall r, fst second = Ok (Some r) ->
        chain = (Ok r, snd second)
        /\ attempts (since t (snd chain)) = [PDFDrive; ArchiveOrg])
    /\ (fst first = Ok None -> fst second = Ok None ->
        snd chain = snd third
        /\ attempts (since t (snd chain)) = [PDFDrive; ArchiveOrg; Google]
        /\ forall r, fst third = Ok (Some r) -> fst chain = Ok r).
Proof.
  intros env book_name t clean_name first second third chain.
  destruct (pdfdrive_search_trace env clean_name t) as [e1 [T1 A1]].
  destruct (archive_search_trace env clean_name (snd first)) as [e2 [T2 A2]].
  destruct (google_search_trace env clean_name (snd second)) as [e3 [T3 A3]].
  fold first in T1. fold second in T2. fold third in T3.
  pose proof (pdfdrive_search_returns env True (fun _ => I) clean_name t) as R1.
  pose proof (archive_search_returns env True (fun _ => I) clean_name (snd first)) as R2.
  cbv beta in R1, R2.
  pose proof (google_some_is_download env clean_name (snd second)) as R3.
  fold first in R1. fold second in R2. fold third in R3.
  assert (Hchain : chain
            = match first with
              | (Ok o1, t1) =>
                  match truthy o1 with
                  | Some r => (Ok r, t1)
                  | None =>
                      match second with
                      | (Ok o2, t2) =>
                          match truthy o2 with
                          | Some r => (Ok r, t2)
                          | None =>
                              match third with
                              | (Ok o3, t3) =>
                                  match truthy o3 with
                                  | Some r => (Ok r, t3)
                                  | None =>
                                      (fst (Downloader._download_by_book_name env book_name t), t3)
                                  end
                              | (Raise e, t3) => (Raise e, t3)
                              end
                          end
                      | (Raise e, t2) => (Raise e, t2)
                      end
                  end
              | (Raise e, t1) => (Raise e, t1)
              end).
  { subst chain first second third.
    unfold Downloader._download_by_book_name, bind. fold clean_name.
    destruct (Downloader._try_pdfdrive_search env clean_name t) as [[o1 | ?] t1];
      [| reflexivity].
    destruct (truthy o1); [reflexivity |]. simpl snd.
    destruct (Downloader._try_archive_search env clean_name t1) as [[o2 | ?] t2];
      [| reflexivity].
    destruct (truthy o2); [reflexivity |]. simpl snd.
    destruct (Downloader._try_google_pdf_search env clean_name t2) as [[o3 | ?] t3];
      [| reflexivity].
    destruct (truthy o3); reflexivity. }
  clearbody chain first second third.
  destruct first as [o1 t1], second as [o2 t2], third as [o3 t3].
  simpl in *. subst t1 t2 t3.
  assert (some_truthy : forall o r, none_or_download o -> o = Some r -> truthy o = Some r).
  { intros o r [-> | [r' [-> Hr]]] [= <-]. now apply truthy_download. }
  repeat split.
  - subst chain o1. cbn beta iota. now rewrite (some_truthy _ r R1 eq_refl).
  - subst chain o1. cbn beta iota. rewrite (some_truthy _ r R1 eq_refl).
    cbn [snd]. now rewrite since_app.
  - subst chain o1 o2. cbn beta iota; change (truthy None) with (@None Result); cbn beta iota.
    now rewrite (some_truthy _ r R2 eq_refl).
  - subst chain o1 o2. cbn beta iota; change (truthy None) with (@None Result); cbn beta iota.
    rewrite (some_truthy _ r R2 eq_refl). cbn [snd].
    now rewrite <- app_assoc, since_app, attempts_app, A1, A2.
  - subst chain o1 o2. cbn beta iota; change (truthy None) with (@None Result); cbn beta iota.
    destruct o3 as [o3 | e]; [destruct (truthy o3) |]; reflexivity.
  - subst chain o1 o2. cbn beta iota; change (truthy None) with (@None Result); cbn beta iota.
    destruct o3 as [o3 | e]; [destruct (truthy o3) |]; cbn [snd];
      now rewrite <- !app_assoc, since_app, !attempts_app, A1, A2, A3.
  - intros r H3. subst chain o1 o2 o3. cbn beta iota; change (truthy None) with (@None Result); cbn beta iota.
    assert (Hr : none_or_download (Some r)) by (right; exists r; auto).
    now rewrite (some_truthy _ r Hr eq_refl).
Qed.

Lemma chain_tries_strategies_in_order_witness :
  (Downloader._download_by_book_name World.pdfdrive_has_book "book" []
   = (Ok [("status", VStr "success"); ("message", VStr "Downloaded 'Book'");
          ("file_path", VStr "downloads/Book.pdf"); ("cover", VNone)],
      snd (Downloader._try_pdfdrive_search World.pdfdrive_has_book "book" []))
   /\ attempts (since [] (snd (Downloader._download_by_book_name
                                 World.pdfdrive_has_book "book" [])))
      = [PDFDrive])
  /\ (Downloader._download_by_book_name World.archive_has_book "Atomic Habits" []
      = (Ok [("status", VStr "success"); ("message", VStr "Downloaded 'Atomic Habits'");
             ("file_path", VStr "downloads/Atomic Habits.pdf"); ("cover", VNone)],
         snd (Downloader._try_archive_search World.archive_has_book "Atomic Habits"
                (snd (Downloader._try_pdfdrive_search World.archive_has_book
                        "Atomic Habits" []))))
      /\ attempts (since [] (snd (Downloader._download_by_book_name
                                    World.archive_has_book "Atomic Habits" [])))
         = [PDFDrive; ArchiveOrg])
  /\ attempts (since [] (snd (Downloader._download_by_book_name
                                World.offline "Atomic Habits" [])))
     = [PDFDrive; ArchiveOrg; Google].
Proof.
  split; [| split].
  - exact (proj1 (chain_tries_strategies_in_order World.pdfdrive_has_book "book" [])
             _ eq_refl).
  - exact (proj1 (proj2 (chain_tries_strategies_in_order World.archive_has_book
                           "Atomic Habits" []))
             eq_refl _ eq_refl).
  - exact (proj1 (proj2 (proj2 (proj2 (chain_tries_strategies_in_order World.offline
                                         "Atomic Habits" []))
                           eq_refl eq_refl))).
Defined.
(* ------------------------------------------------------------------ *)
(** ** What the strategies hand back *)











Section HandedBack.
Variable env : Env.






End HandedBack.




(** A download attempt that is handed back: Archive.org lists the book. *)
Example archive_hands_back_its_download :
  exists r,
    fst (Downloader._try_archive_search World.archive_has_book "Atomic Habits" [])
    = Ok (Some r)
    /\ Downloader._download_pdf_and_cover World.archive_has_book
         "https://archive.org/download/atomichabits/atomichabits.pdf" "Atomic Habits"
         [EvPrint "Searching Archive.org for 'Atomic Habits'...";
          EvGet "https://archive.org/advancedsearch.php?q=title%3A(Atomic+Habits)&output=json"]
       = (Ok r, snd (Downloader._try_archive_search World.archive_has_book
                       "Atomic Habits" [])).
Proof. eexists. split; reflexivity. Qed.

(* ------------------------------------------------------------------ *)
(** ** The entry point *)

Lemma truthy_inv (o : option Result) (r : Result) :
  none_or_download o -> truthy o = Some r -> success_or_error r.
Proof.
  intros [-> | [r' [-> Hr]]]; [discriminate |].
  rewrite (truthy_download r' Hr). now intros [= <-].
Qed.

Section EntryPoint.
Variable env : Env.
Variable broken : Prop.
Hypothesis console_broken : ~ console_works env -> broken.
Hypothesis import_broken :
  forall t e, env_import env t "googlesearch" = Raise e -> broken.
Hypothesis makedirs_broken :
  forall t e, env_makedirs env t DOWNLOAD_DIR = Raise e -> broken.

Lemma direct_url_returns (url : string) :
  returns (Downloader._download_direct_url env url) success_or_error.
Proof.
  unfold Downloader._download_direct_url, success_or_error. post_auto.
Qed.

Lemma book_name_returns (book_name : string) :
  returns_unless broken (Downloader._download_by_book_name env book_name)
                 success_or_error.
Proof.
  unfold Downloader._download_by_book_name. cbv zeta.
  eapply post_bind_unless;
    [exact (pdfdrive_search_returns env broken console_broken _) | | trivial].
  intros o1 H1.
  destruct (truthy o1) eqn:E1; [apply post_ret; eauto using truthy_inv |].
  eapply post_bind_unless;
    [exact (archive_search_returns env broken console_broken _) | | trivial].
  intros o2 H2.
  destruct (truthy o2) eqn:E2; [apply post_ret; eauto using truthy_inv |].
  eapply post_bind_unless;
    [exact (google_search_returns env broken console_broken import_broken _) |
    | trivial].
  intros o3 H3.
  destruct (truthy o3) eqn:E3; apply post_ret; [eauto using truthy_inv |].
  now right.
Qed.

Lemma past_paper_known_status (identifier : string) :
  returns_unless broken (Downloader._try_past_paper_download env identifier)
                 known_status.
Proof.
  eapply returns_unless_weaken;
    [exact (past_paper_download_returns env broken console_broken identifier)
    | trivial |].
  unfold known_status. intros r [H | [-> | [_ H]]]; auto.
Qed.

Lemma success_or_error_known (r : Result) : success_or_error r -> known_status r.
Proof. unfold known_status, success_or_error. tauto. Qed.

(** [download_pdf] raises only what [os.makedirs], [print] and the import
    of [googlesearch] raise. *)
Lemma download_pdf_returns (identifier : string) :
  returns_unless broken (Downloader.download_pdf env identifier) known_status.
Proof.
  unfold Downloader.download_pdf, returns_unless. cbv zeta.
  apply post_bind, post_call; [intros t [] _ | intros t e H; eauto].
  destruct (startswith _ _); [| destruct (_ || _)].
  - eapply returns_unless_weaken; [apply direct_url_returns | tauto |].
    apply success_or_error_known.
  - apply past_paper_known_status.
  - eapply returns_unless_weaken; [apply book_name_returns | trivial |].
    apply success_or_error_known.
Qed.

Lemma pdf_past_paper_returns (identifier : string) :
  returns_unless broken (Pdf._try_past_paper_download env identifier)
                 (fun r => status r = Some (VStr "info")).
Proof. unfold Pdf._try_past_paper_download. post_auto. Qed.

Lemma pdf_download_pdf_returns (identifier : string) :
  returns_unless broken (Pdf.download_pdf env identifier) known_status.
Proof.
  unfold Pdf.download_pdf, returns_unless. cbv zeta.
  apply post_bind, post_call; [intros t [] _ | intros t e H; eauto].
  destruct (startswith _ _); [| destruct (contains _ _)].
  - eapply returns_unless_weaken; [exact (direct_url_returns _) | tauto |].
    apply success_or_error_known.
  - eapply returns_unless_weaken; [apply pdf_past_paper_returns | trivial |].
    unfold known_status. tauto.
  - eapply returns_unless_weaken; [exact (book_name_returns _) | trivial |].
    apply success_or_error_known.
Qed.

Lemma example_download_pdf_returns (identifier : string) :
  returns_unless broken (Example.download_pdf env identifier) known_status.
Proof.
  unfold Example.download_pdf, returns_unless. cbv zeta.
  apply post_bind, post_call; [intros t [] _ | intros t e H; eauto].
  destruct (startswith _ _).
  - eapply returns_unless_weaken; [exact (direct_url_returns _) | tauto |].
    apply success_or_error_known.
  - eapply returns_unless_weaken; [exact (book_name_returns _) | trivial |].
    apply success_or_error_known.
Qed.

End EntryPoint.

(** Whenever [download_pdf] returns, the status is one of the three. *)
Lemma download_pdf_status (env : Env) (identifier : string) :
  returns_unless True (Downloader.download_pdf env identifier) known_status.
Proof. apply download_pdf_returns; trivial. Qed.

(** [download_pdf] returns a Result whenever creating the directory,
    importing [googlesearch] and printing all work. *)
Lemma download_pdf_returns_when_setup_works (env : Env) (identifier : string) :
  (forall t path, env_makedirs env t path = Ok tt) ->
  (forall t module, env_import env t module = Ok tt) ->
  console_works env ->
  returns (Downloader.download_pdf env identifier) known_status.
Proof.
  intros Hdir Himport Hconsole. apply (download_pdf_returns env False).
  - intros N. exact (N Hconsole).
  - intros t e H. rewrite Himport in H. discriminate H.
  - intros t e H. rewrite Hdir in H. discriminate H.
Qed.

(* ------------------------------------------------------------------ *)
(** ** The examples of the specification *)

Example direct_url_pdf_is_saved :
  Downloader.download_pdf World.nothing_found "https://example.com/book.pdf" []
  = (Ok [("status", VStr "success"); ("message", VStr "Downloaded PDF from URL");
         ("file_path", VStr "downloads/book.pdf")],
     [EvMakedirs "downloads"; EvGet "https://example.com/book.pdf";
      EvWriteFile "downloads/book.pdf"]).
Proof. reflexivity. Qed.

Example direct_url_html_is_refused :
  fst (Downloader.download_pdf World.nothing_found "https://example.com/book.html" [])
  = Ok not_a_pdf_url.
Proof. reflexivity. Qed.

Example batch_of_three_all_failing :
  map status
    (Downloader.handle_multiple_downloads (fun _ => World.offline) [2; 0; 1] ["a"; "b"; "c"])
  = [Some (VStr "error"); Some (VStr "error"); Some (VStr "error")].
Proof. reflexivity. Qed.

Example batch_reports_escaped_exception :
  Downloader.handle_multiple_downloads (fun _ => World.no_googlesearch) [0] ["a"]
  = [[("status", VStr "error"); ("message", VStr "No module named 'googlesearch'");
      ("book", VStr "a")]].
Proof. reflexivity. Qed.


Example closed_console_stops_the_chain :
  Downloader.download_pdf Scene.closed_console "Atomic Habits" []
  = (Raise Scene.BrokenPipeError,
     [EvMakedirs "downloads"; EvPrint "Searching PDFDrive for 'Atomic Habits'..."]).
Proof. reflexivity. Qed.

Example lost_console_is_a_search_error :
  Downloader.download_pdf Scene.console_closes_early "past paper BICT2303 2023" []
  = (Ok [("status", VStr "error"); ("message", VStr "Search error: [Errno 32] Broken pipe")],
     [EvMakedirs "downloads";
      EvPrint "Searching academic sources for 'past paper BICT2303 2023'...";
      EvGet "https://opac.mzuni.ac.mw/cgi-bin/koha/opac-search.pl?q=past+paper+BICT2303+2023";
      EvPrint "MZUNI OPAC search error: Max retries exceeded"]).
Proof. reflexivity. Qed.

(* ------------------------------------------------------------------ *)
(** ** Facts about the string functions *)

Lemma append_nil_r (s : string) : s ++ EmptyString = s.
Proof. induction s as [| c s IH]; simpl; [reflexivity | now rewrite IH]. Qed.

Lemma append_assoc (a b c : string) : (a ++ b) ++ c = a ++ (b ++ c).
Proof. induction a as [| x a IH]; simpl; [reflexivity | now rewrite IH]. Qed.

Lemma length_append (a b : string) :
  String.length (a ++ b) = String.length a + String.length b.
Proof. induction a as [| x a IH]; simpl; [reflexivity | now rewrite IH]. Qed.

Lemma rev_onto_spec (s acc : string) : rev_onto s acc = PyStr.rev s ++ acc.
Proof.
  unfold PyStr.rev. revert acc. induction s as [| c s IH]; intros acc; simpl.
  - reflexivity.
  - rewrite (IH (String c acc)), (IH (String c EmptyString)), append_assoc.
    reflexivity.
Qed.

Lemma rev_cons (c : ascii) (s : string) :
  PyStr.rev (String c s) = PyStr.rev s ++ String c EmptyString.
Proof. unfold PyStr.rev at 1. simpl. apply rev_onto_spec. Qed.

Lemma rev_append (a b : string) : PyStr.rev (a ++ b) = PyStr.rev b ++ PyStr.rev a.
Proof.
  induction a as [| c a IH]; simpl.
  - now rewrite append_nil_r.
  - now rewrite !rev_cons, IH, append_assoc.
Qed.

Lemma rev_involutive (s : string) : PyStr.rev (PyStr.rev s) = s.
Proof.
  induction s as [| c s IH]; [reflexivity |].
  now rewrite rev_cons, rev_append, IH.
Qed.

Lemma length_rev (s : string) : String.length (PyStr.rev s) = String.length s.
Proof.
  induction s as [| c s IH]; [reflexivity |].
  rewrite rev_cons, length_append, IH. simpl. lia.
Qed.

Lemma startswith_spec (s p : string) :
  startswith s p = true <-> exists r, s = p ++ r.
Proof.
  revert s. induction p as [| a p IH]; intros s; simpl.
  - split; [intros _; now exists s | reflexivity].
  - destruct s as [| b s]; [split; [discriminate | intros [r [=]]] |].
    rewrite andb_true_iff, Ascii.eqb_eq, IH. split.
    + intros [-> [r ->]]. now exists r.
    + intros [r [= -> ->]]. split; [reflexivity | now exists r].
Qed.

Lemma endswith_spec (s suffix : string) :
  endswith s suffix = true <-> exists p, s = p ++ suffix.
Proof.
  unfold endswith. rewrite startswith_spec. split.
  - intros [r H]. exists (PyStr.rev r).
    now rewrite <- (rev_involutive s), H, rev_append, rev_involutive.
  - intros [p ->]. exists (PyStr.rev p). apply rev_append.
Qed.

Lemma contains_spec (s sub : string) :
  contains s sub = true <-> exists a b, s = a ++ sub ++ b.
Proof.
  induction s as [| c s IH]; simpl.
  - rewrite orb_false_r, startswith_spec. split.
    + intros [r H]. now exists EmptyString, r.
    + intros [a [b H]]. destruct a; [now exists b |]. discriminate.
  - rewrite orb_true_iff, IH.
    change (match sub with
            | EmptyString => true
            | String a p' => Ascii.eqb a c && startswith s p'
            end) with (startswith (String c s) sub).
    rewrite startswith_spec. split.
    + intros [[r H] | [a [b H]]].
      * now exists EmptyString, r.
      * exists (String c a), b. simpl. now rewrite H.
    + intros [[| x a] [b H]].
      * left. now exists b.
      * right. injection H as _ H. now exists a, b.
Qed.

Lemma lower_append (a b : string) : lower (a ++ b) = lower a ++ lower b.
Proof. induction a as [| c a IH]; simpl; [reflexivity | now rewrite IH]. Qed.

Lemma length_lower (s : string) : String.length (lower s) = String.length s.
Proof. induction s as [| c s IH]; simpl; [reflexivity | now rewrite IH]. Qed.

Lemma substring_all (s : string) : substring 0 (String.length s) s = s.
Proof. induction s as [| c s IH]; simpl; [reflexivity | now rewrite IH]. Qed.

Lemma substring_prefix (a b : string) : substring 0 (String.length a) (a ++ b) = a.
Proof.
  induction a as [| c a IH]; simpl; [now destruct b | now rewrite IH].
Qed.

Lemma drop_last_append (a b : string) : drop_last (String.length b) (a ++ b) = a.
Proof.
  unfold drop_last. rewrite length_append.
  replace (String.length a + String.length b - String.length b)
    with (String.length a) by lia.
  apply substring_prefix.
Qed.

Lemma filter_chars_all (p : ascii -> bool) (s : string) :
  Re.all_chars p (Re.filter_chars p s) = true.
Proof.
  induction s as [| c s IH]; simpl; [reflexivity |].
  destruct (p c) eqn:E; simpl; [now rewrite E |]; exact IH.
Qed.

Lemma all_chars_weaken (p q : ascii -> bool) (s : string) :
  (forall c, p c = true -> q c = true) ->
  Re.all_chars p s = true -> Re.all_chars q s = true.
Proof.
  intros Hpq. induction s as [| c s IH]; simpl; [reflexivity |].
  rewrite !andb_true_iff. intros [Hc Hs]. split; [now apply Hpq | now apply IH].
Qed.

Lemma path_join_download_dir (name : string) :
  startswith name "/" = false -> path_join DOWNLOAD_DIR name = "downloads/" ++ name.
Proof. intros H. unfold path_join. now rewrite H. Qed.

Lemma sub_non_word_no_slash (title : string) :
  Re.all_chars (fun c => negb (Ascii.eqb c "/")) (Re.sub_non_word title) = true.
Proof.
  unfold Re.sub_non_word.
  eapply all_chars_weaken; [| apply filter_chars_all].
  intros c Hc. destruct (Ascii.eqb_spec c "/"%char) as [-> | _]; [| reflexivity].
  discriminate Hc.
Qed.

Lemma sanitized_name_is_relative (title : string) :
  startswith (Re.sub_non_word title ++ ".pdf") "/" = false.
Proof.
  pose proof (sub_non_word_no_slash title) as H.
  destruct (Re.sub_non_word title) as [| c s]; [reflexivity |].
  cbn [Re.all_chars] in H. apply andb_prop in H as [H _].
  cbn [append startswith]. rewrite Ascii.eqb_sym.
  destruct (Ascii.eqb c "/"); [discriminate H | reflexivity].
Qed.

Lemma no_slash_is_relative (s : string) :
  Re.all_chars (fun c => negb (Ascii.eqb c "/")) s = true -> startswith s "/" = false.
Proof.
  destruct s as [| c s]; [reflexivity |]. cbn [Re.all_chars].
  intros H. apply andb_prop in H as [H _].
  cbn [startswith]. rewrite Ascii.eqb_sym.
  destruct (Ascii.eqb c "/"); [discriminate H | reflexivity].
Qed.

Lemma all_chars_append (p : ascii -> bool) (a b : string) :
  Re.all_chars p (a ++ b) = Re.all_chars p a && Re.all_chars p b.
Proof.
  induction a as [| c a IH]; simpl; [reflexivity |].
  now rewrite IH, andb_assoc.
Qed.

Lemma cover_path_cases (book_name : string) :
  path_join DOWNLOAD_DIR (book_name ++ "_cover.jpg")
  = if startswith book_name "/" then book_name ++ "_cover.jpg"
    else "downloads/" ++ book_name ++ "_cover.jpg".
Proof.
  unfold path_join.
  assert (H : startswith (book_name ++ "_cover.jpg") "/" = startswith book_name "/")
    by (destruct book_name; reflexivity).
  rewrite H. now destruct (startswith book_name "/").
Qed.

Ltac emits_open :=
  repeat first
    [ emits_step
    | match goal with
      | |- emits _ (write_stream _ _) => apply emits_call
      | |- emits _ (img_save _ _) => apply emits_call
      | |- emits _ (requests_get _ _) => apply emits_call
      | |- emits _ (print _ _) => apply emits_call
      end ].

(* ------------------------------------------------------------------ *)
(** ** The files that are written *)

(** X1. The PDF a lookup strategy downloads is written directly inside the
    download directory, whatever the title: its name is the title with every
    character other than word characters, white space and '-' removed, so it
    holds no '/'. [_download_pdf_and_cover] touches two files and no more:
    that PDF, and the cover image, which is saved under the title as it
    stands and so need not lie inside the download directory. Besides that
    it only sends requests and prints. It never raises, and a success Result
    names the path of the PDF. *)
Theorem downloaded_pdf_stays_in_download_dir :
  forall (env : Env) (url title : string),
    let path := "downloads/" ++ Re.sub_non_word title ++ ".pdf" in
    let cover := if startswith title "/" then title ++ "_cover.jpg"
                 else "downloads/" ++ title ++ "_cover.jpg" in
    Re.all_chars (fun c => negb (Ascii.eqb c "/")) (Re.sub_non_word title) = true
    /\ emits (fun e => match e with
                       | EvWriteFile p => String.eqb p path
                       | EvImageSave p => String.eqb p cover
                       | EvGet _ | EvPrint _ => true
                       | _ => false
                       end)
             (Downloader._download_pdf_and_cover env url title)
    /\ returns (Downloader._download_pdf_and_cover env url title)
               (fun r => status r = Some (VStr "error")
                         \/ (status r = Some (VStr "success")
                             /\ dict_get "file_path" r = Some (VStr path))).
Proof.
  intros env url title path cover. split; [apply sub_non_word_no_slash |].
  unfold Downloader._download_pdf_and_cover.
  rewrite (path_join_download_dir _ (sanitized_name_is_relative title)).
  fold path. split.
  - emits_open; try reflexivity.
    + apply String.eqb_refl.
    + unfold Downloader._download_cover_image. rewrite cover_path_cases. fold cover.
      emits_open; try reflexivity. apply String.eqb_refl.
  - post_auto. apply post_bind, post_any. intros [cover_path | e]; post_auto.
Qed.

Example sanitised_pdf_and_raw_cover :
  snd (Downloader._download_pdf_and_cover Scene.cover_known
         "https://example.com/a.pdf" "../../etc/cron.d/x" [])
  = [EvGet "https://example.com/a.pdf";
     EvWriteFile "downloads/etccrondx.pdf";
     EvGet "https://www.googleapis.com/books/v1/volumes?q=../../etc/cron.d/x";
     EvGet "https://books.example.com/thumb.jpg";
     EvImageSave "downloads/../../etc/cron.d/x_cover.jpg"].
Proof. reflexivity. Qed.

(** X2. The cover lookup never writes a PDF, and it raises only when the
    console refuses the line its handler prints. The one image it may save
    is named after the title as it stands, nothing being removed from it:
    "<title>_cover.jpg" itself when the title begins with '/', and
    "downloads/<title>_cover.jpg" otherwise. Such a path lies directly
    inside the download directory when the title holds no '/'; a title
    with "../" in it leads out of the directory. What the lookup returns
    is [None] or that path. *)
Theorem cover_is_named_after_raw_title :
  forall (env : Env) (book_name : string),
    let path := if startswith book_name "/" then book_name ++ "_cover.jpg"
                else "downloads/" ++ book_name ++ "_cover.jpg" in
    path = path_join DOWNLOAD_DIR (book_name ++ "_cover.jpg")
    /\ (console_works env ->
        returns (Downloader._download_cover_image env book_name)
                (fun o => o = None \/ o = Some path))
    /\ emits (fun e => match e with
                       | EvImageSave p => String.eqb p path
                       | EvGet _ | EvPrint _ => true
                       | _ => false
                       end)
             (Downloader._download_cover_image env book_name)
    /\ (Re.all_chars (fun c => negb (Ascii.eqb c "/")) book_name = true ->
        path = "downloads/" ++ (book_name ++ "_cover.jpg")
        /\ Re.all_chars (fun c => negb (Ascii.eqb c "/")) (book_name ++ "_cover.jpg")
           = true).
Proof.
  intros env book_name path.
  assert (Hpath : path = path_join DOWNLOAD_DIR (book_name ++ "_cover.jpg"))
    by (symmetry; apply cover_path_cases).
  split; [exact Hpath |].
  assert (Hunless : returns_unless (~ console_works env)
                      (Downloader._download_cover_image env book_name)
                      (fun o => o = None \/ o = Some path)).
  { unfold Downloader._download_cover_image. rewrite <- Hpath. post_auto. }
  split; [| split].
  - intros Hconsole. eapply returns_unless_weaken; [exact Hunless | | trivial].
    intros N. exact (N Hconsole).
  - unfold Downloader._download_cover_image. rewrite <- Hpath.
    emits_open; try reflexivity. apply String.eqb_refl.
  - intros Hname. subst path. rewrite (no_slash_is_relative _ Hname).
    split; [reflexivity |]. now rewrite all_chars_append, Hname.
Qed.

Lemma cover_is_named_after_raw_title_witness :
  returns (Downloader._download_cover_image Scene.cover_known "Atomic Habits")
          (fun o => o = None \/ o = Some "downloads/Atomic Habits_cover.jpg")
  /\ "downloads/Atomic Habits_cover.jpg"
     = "downloads/" ++ ("Atomic Habits" ++ "_cover.jpg")
  /\ Re.all_chars (fun c => negb (Ascii.eqb c "/")) ("Atomic Habits" ++ "_cover.jpg")
     = true.
Proof.
  destruct (cover_is_named_after_raw_title Scene.cover_known "Atomic Habits")
    as [_ [Hreturns [_ Hinside]]].
  split; [exact (Hreturns (fun _ _ => eq_refl)) | exact (Hinside eq_refl)].
Defined.

(** With a working console the cover lookup returns, [None] or the path
    of the image. *)
Lemma cover_is_cover_path (env : Env) (book_name : string) :
  console_works env ->
  forall t, exists cover t',
    Downloader._download_cover_image env book_name t = (Ok cover, t')
    /\ (cover = None
        \/ cover = Some (path_join DOWNLOAD_DIR (book_name ++ "_cover.jpg"))).
Proof.
  intros Hconsole. apply returns_run. unfold Downloader._download_cover_image.
  post_auto.
Qed.

Example cover_of_absolute_title_leaves_download_dir :
  path_join DOWNLOAD_DIR ("/tmp/x" ++ "_cover.jpg") = "/tmp/x_cover.jpg".
Proof. reflexivity. Qed.

Example cover_of_dotted_title_leaves_download_dir :
  Downloader._download_cover_image Scene.cover_known "../../etc/cron.d/x" []
  = (Ok (Some "downloads/../../etc/cron.d/x_cover.jpg"),
     [EvGet "https://www.googleapis.com/books/v1/volumes?q=../../etc/cron.d/x";
      EvGet "https://books.example.com/thumb.jpg";
      EvImageSave "downloads/../../etc/cron.d/x_cover.jpg"]).
Proof. reflexivity. Qed.

Lemma all_chars_rev (p : ascii -> bool) (s : string) :
  Re.all_chars p (PyStr.rev s) = Re.all_chars p s.
Proof.
  induction s as [| c s IH]; [reflexivity |].
  rewrite rev_cons, all_chars_append, IH. simpl.
  now rewrite andb_true_r, andb_comm.
Qed.

(** [split_last] cuts the string after its last separator. *)
Lemma last_segment_from_spec (sep : ascii) (s cur : string) :
  Re.all_chars (fun c => negb (Ascii.eqb c sep)) cur = true ->
  exists pre,
    PyStr.rev cur ++ s = pre ++ last_segment_from sep s cur
    /\ Re.all_chars (fun c => negb (Ascii.eqb c sep)) (last_segment_from sep s cur) = true
    /\ (pre = EmptyString \/ exists pre', pre = pre' ++ String sep EmptyString).
Proof.
  revert cur. induction s as [| c s IH]; intros cur Hcur; simpl.
  - exists EmptyString. rewrite append_nil_r, all_chars_rev. auto.
  - destruct (Ascii.eqb_spec c sep) as [-> | Hne].
    + destruct (IH EmptyString eq_refl) as [pre [Heq [Hseg Hpre]]].
      simpl in Heq. exists (PyStr.rev cur ++ String sep EmptyString ++ pre).
      split; [| split; [exact Hseg |]].
      * rewrite !append_assoc. cbn [append]. now rewrite <- Heq.
      * right. destruct Hpre as [-> | [pre' ->]].
        -- exists (PyStr.rev cur). now rewrite append_nil_r.
        -- exists (PyStr.rev cur ++ String sep EmptyString ++ pre').
           now rewrite !append_assoc.
    + destruct (IH (String c cur)) as [pre [Heq [Hseg Hpre]]].
      { simpl. rewrite Hcur, andb_true_r.
        destruct (Ascii.eqb_spec c sep); [contradiction | reflexivity]. }
      exists pre. rewrite rev_cons, append_assoc in Heq. auto.
Qed.

Lemma split_last_spec (sep : ascii) (s : string) :
  exists pre,
    s = pre ++ split_last sep s
    /\ Re.all_chars (fun c => negb (Ascii.eqb c sep)) (split_last sep s) = true
    /\ (pre = EmptyString \/ exists pre', pre = pre' ++ String sep EmptyString).
Proof. exact (last_segment_from_spec sep s EmptyString eq_refl). Qed.

Lemma last_segment_is_relative (url : string) :
  startswith (split_last "/" url) "/" = false.
Proof.
  destruct (split_last_spec "/" url) as [_ [_ [H _]]].
  destruct (split_last "/" url) as [| c s]; [reflexivity |].
  cbn [Re.all_chars] in H. apply andb_prop in H as [H _].
  cbn [startswith]. rewrite Ascii.eqb_sym.
  destruct (Ascii.eqb c "/"); [discriminate H | reflexivity].
Qed.

(** When the lower-cased URL ends in ".pdf", so does its last segment: the
    suffix holds no '/', so it cannot reach past the last separator. *)
Lemma pdf_suffix_is_in_last_segment (url : string) :
  endswith (lower url) ".pdf" = true ->
  endswith (lower (split_last "/" url)) ".pdf" = true.
Proof.
  destruct (split_last_spec "/" url) as [pre [Hurl [_ Hpre]]].
  set (seg := split_last "/" url) in *. clearbody seg. subst url.
  destruct Hpre as [-> | [pre' ->]]; [trivial |].
  unfold endswith. rewrite !lower_append, !rev_append. simpl lower.
  change (PyStr.rev (String (lower_char "/") EmptyString)) with "/".
  change (PyStr.rev ".pdf") with "fdp.".
  destruct (PyStr.rev (lower seg)) as [| a [| b [| c [| d u]]]]; simpl;
    rewrite ?andb_false_r; try discriminate; trivial.
Qed.

(** X3. The file a direct URL is saved to is named after the part of the
    URL behind its last '/': that part holds no '/', so the file lies
    directly inside the download directory, and for a URL that is accepted
    its name ends in ".pdf" in some letter case. A run of
    [_download_direct_url] is one of four: the URL is refused and nothing is
    done; the one request for the URL as given raises, and the Result is the
    error; the request is answered and the one write of that file raises,
    and the Result is the error; both work, and the Result is the success
    that names the file. It never raises. *)
Theorem direct_url_file_is_last_segment :
  forall (env : Env) (url : string) (t : Trace),
    let name := split_last "/" url in
    let path := "downloads/" ++ name in
    (exists pre, url = pre ++ name)
    /\ Re.all_chars (fun c => negb (Ascii.eqb c "/")) name = true
    /\ (endswith (lower url) ".pdf" = true -> endswith (lower name) ".pdf" = true)
    /\ Downloader._download_direct_url env url t
       = if endswith (lower url) ".pdf" then
           match env_get env t url with
           | Raise e =>
               (Ok [("status", VStr "error"); ("message", VStr (str_exn e))],
                (t ++ [EvGet url])%list)
           | Ok _ =>
               match env_write_file env (t ++ [EvGet url])%list path with
               | Raise e =>
                   (Ok [("status", VStr "error"); ("message", VStr (str_exn e))],
                    (t ++ [EvGet url; EvWriteFile path])%list)
               | Ok _ =>
                   (Ok [("status", VStr "success");
                        ("message", VStr "Downloaded PDF from URL");
                        ("file_path", VStr path)],
                    (t ++ [EvGet url; EvWriteFile path])%list)
               end
           end
         else (Ok not_a_pdf_url, t).
Proof.
  intros env url t name path.
  destruct (split_last_spec "/" url) as [pre [Hurl [Hname _]]]. fold name in Hurl, Hname.
  split; [now exists pre |]. split; [exact Hname |].
  split; [apply pdf_suffix_is_in_last_segment |].
  unfold Downloader._download_direct_url.
  rewrite (path_join_download_dir _ (last_segment_is_relative url)). fold name path.
  destruct (endswith (lower url) ".pdf"); cbn [negb]; [| reflexivity].
  run_world. destruct (env_get env t url) as [res | e]; [| reflexivity].
  destruct (env_write_file env _ path) as [[] | e]; now rewrite <- app_assoc.
Qed.

Lemma direct_url_file_is_last_segment_witness :
  endswith (lower "Final.Pdf") ".pdf" = true
  /\ Downloader._download_direct_url World.nothing_found
       "HTTPS://Example.com/a/b/Report.PDF?x=1/Final.Pdf" []
     = (Ok [("status", VStr "success"); ("message", VStr "Downloaded PDF from URL");
            ("file_path", VStr "downloads/Final.Pdf")],
        [EvGet "HTTPS://Example.com/a/b/Report.PDF?x=1/Final.Pdf";
         EvWriteFile "downloads/Final.Pdf"]).
Proof.
  destruct (direct_url_file_is_last_segment World.nothing_found
              "HTTPS://Example.com/a/b/Report.PDF?x=1/Final.Pdf" [])
    as [_ [_ [Hsuffix Hrun]]].
  split; [exact (Hsuffix eq_refl) | exact Hrun].
Defined.

Example direct_url_keeps_only_the_last_segment :
  Downloader._download_direct_url World.nothing_found
    "HTTPS://Example.com/a/b/Report.PDF?x=1/Final.Pdf" []
  = (Ok [("status", VStr "success"); ("message", VStr "Downloaded PDF from URL");
         ("file_path", VStr "downloads/Final.Pdf")],
     [EvGet "HTTPS://Example.com/a/b/Report.PDF?x=1/Final.Pdf";
      EvWriteFile "downloads/Final.Pdf"]).
Proof. reflexivity. Qed.

Lemma sub_pdf_suffix_drops_extension (name ext : string) :
  lower ext = ".pdf" -> Re.sub_pdf_suffix (name ++ ext) = name.
Proof.
  intros Hext. unfold Re.sub_pdf_suffix.
  assert (Hends : endswith (lower (name ++ ext)) ".pdf" = true).
  { apply endswith_spec. exists (lower name). now rewrite lower_append, Hext. }
  rewrite Hends.
  assert (Hlen : String.length ext = 4)
    by (rewrite <- length_lower, Hext; reflexivity).
  rewrite <- Hlen. apply drop_last_append.
Qed.

(** X4. A ".pdf" at the end of a book name, in any letter case, is cut off
    before the search: the chain run on "<name><ext>" is the chain run on
    "<name>", provided "<name>" has no such ending of its own. Only one
    ending is cut. *)
Theorem book_name_pdf_extension_is_ignored :
  forall (env : Env) (name ext : string) (t : Trace),
    lower ext = ".pdf" ->
    Re.sub_pdf_suffix name = name ->
    Re.sub_pdf_suffix (name ++ ext) = name
    /\ Re.sub_pdf_suffix ((name ++ ext) ++ ext) = name ++ ext
    /\ Downloader._download_by_book_name env (name ++ ext) t
       = Downloader._download_by_book_name env name t.
Proof.
  intros env name ext t Hext Hname.
  pose proof (sub_pdf_suffix_drops_extension name ext Hext) as H1.
  split; [exact H1 |]. split; [now apply sub_pdf_suffix_drops_extension |].
  unfold Downloader._download_by_book_name. now rewrite H1, Hname.
Qed.

Lemma book_name_pdf_extension_witness :
  Re.sub_pdf_suffix "Atomic Habits.PDF" = "Atomic Habits"
  /\ Re.sub_pdf_suffix "Atomic Habits.PDF.PDF" = "Atomic Habits.PDF"
  /\ Downloader._download_by_book_name World.offline "Atomic Habits.PDF" []
     = Downloader._download_by_book_name World.offline "Atomic Habits" [].
Proof.
  exact (book_name_pdf_extension_is_ignored World.offline "Atomic Habits" ".PDF" []
           eq_refl eq_refl).
Defined.

Lemma substring_skip (a b : string) :
  substring (String.length a) (String.length (a ++ b) - String.length a) (a ++ b) = b.
Proof.
  induction a as [| c a IH]; simpl.
  - rewrite Nat.sub_0_r. apply substring_all.
  - exact IH.
Qed.

Lemma drop_append (a b : string) : Re.drop (String.length a) (a ++ b) = b.
Proof. apply substring_skip. Qed.

Lemma lazy_pdf_spec (s acc g : string) :
  Re.lazy_pdf s acc = Some g ->
  exists p rest,
    p <> EmptyString
    /\ Re.all_chars not_newline p = true
    /\ s = p ++ ".pdf" ++ Re.dquote ++ rest
    /\ g = PyStr.rev acc ++ p ++ ".pdf".
Proof.
  revert acc. induction s as [| c s IH]; intros acc; cbn [Re.lazy_pdf];
    [discriminate |].
  destruct (Ascii.eqb c (ascii_of_N 10)) eqn:Hc; [discriminate |].
  destruct (startswith s (".pdf" ++ Re.dquote)) eqn:Hs.
  - intros [= <-]. apply startswith_spec in Hs as [rest ->].
    exists (String c EmptyString), rest. repeat split; try discriminate.
    + unfold not_newline. cbn [Re.all_chars]. now rewrite Hc.
    + now rewrite rev_cons, append_assoc.
  - intros H. destruct (IH _ H) as [p [rest [Hp [Hnl [-> ->]]]]].
    exists (String c p), rest. repeat split; try discriminate.
    + unfold not_newline in *. cbn [Re.all_chars]. now rewrite Hc, Hnl.
    + now rewrite rev_cons, !append_assoc.
Qed.

Lemma search_data_preview_spec (text g : string) :
  Re.search_data_preview text = Some g ->
  exists before p rest,
    text = before ++ "data-preview=" ++ Re.dquote ++ p ++ ".pdf" ++ Re.dquote ++ rest
    /\ g = p ++ ".pdf"
    /\ p <> EmptyString
    /\ Re.all_chars not_newline p = true.
Proof.
  induction text as [| c text IH]; [discriminate |].
  cbn [Re.search_data_preview].
  destruct (startswith (String c text) ("data-preview=" ++ Re.dquote)) eqn:Hstart.
  - apply startswith_spec in Hstart as [r Hr]. rewrite Hr.
    change 14 with (String.length ("data-preview=" ++ Re.dquote)).
    rewrite drop_append.
    destruct (Re.lazy_pdf r EmptyString) as [g' |] eqn:Hlazy.
    + intros [= <-]. apply lazy_pdf_spec in Hlazy as [p [rest [Hp [Hnl [-> ->]]]]].
      exists EmptyString, p, rest. now repeat split.
    + rewrite <- Hr. intros H. destruct (IH H) as [b [p [rest [-> H']]]].
      exists (String c b), p, rest. split; [reflexivity | exact H'].
  - intros H. destruct (IH H) as [b [p [rest [-> H']]]].
    exists (String c b), p, rest. split; [reflexivity | exact H'].
Qed.

(** X5. [_extract_pdfdrive_pdf] asks for the book page and for nothing
    else. When the request is answered, it returns what the pattern finds in
    the text of that very page: nothing, or a non-empty text followed by
    ".pdf" that stands in the page between [data-preview=], an opening
    quote and a closing quote, with no line break in it; so a link it
    returns is never empty. When the request raises, it prints the
    exception and returns [None], unless the console refuses the line: then
    it raises what the console raised. *)
Theorem extracted_preview_link_ends_in_pdf :
  forall (env : Env) (book_url : string) (t : Trace),
    (forall res,
        env_get env t book_url = Ok res ->
        Downloader._extract_pdfdrive_pdf env book_url t
        = (Ok (Re.search_data_preview (text res)), (t ++ [EvGet book_url])%list)
        /\ forall g,
             Re.search_data_preview (text res) = Some g ->
             truthy_str (Some g) = true
             /\ exists before p rest,
                  text res = before ++ "data-preview=" ++ Re.dquote ++ p ++ ".pdf"
                             ++ Re.dquote ++ rest
                  /\ g = p ++ ".pdf" /\ p <> EmptyString
                  /\ Re.all_chars not_newline p = true)
    /\ (forall e,
          env_get env t book_url = Raise e ->
          let line := "Error getting PDF URL from PDFDrive: " ++ str_exn e in
          Downloader._extract_pdfdrive_pdf env book_url t
          = (match env_print env (t ++ [EvGet book_url])%list line with
             | Ok _ => Ok None
             | Raise refused => Raise refused
             end,
             (t ++ [EvGet book_url; EvPrint line])%list)).
Proof.
  intros env book_url t. split.
  - intros res Hget. split.
    + unfold Downloader._extract_pdfdrive_pdf. run_world. rewrite Hget.
      now destruct (Re.search_data_preview (text res)).
    + intros g Hg.
      destruct (search_data_preview_spec _ _ Hg) as [before [p [rest [Hpage [-> [Hp Hnl]]]]]].
      split; [now destruct p |]. now exists before, p, rest.
  - intros e Hget line. subst line.
    unfold Downloader._extract_pdfdrive_pdf. run_world. rewrite Hget.
    destruct (env_print env _ _) as [[] | refused]; now rewrite <- app_assoc.
Qed.

Lemma extracted_preview_link_witness :
  Downloader._extract_pdfdrive_pdf World.pdfdrive_relative_link
    "https://www.pdfdrive.com/book-e1.html" []
  = (Ok (Some "/files/book.pdf"), [EvGet "https://www.pdfdrive.com/book-e1.html"])
  /\ Downloader._extract_pdfdrive_pdf World.offline
       "https://www.pdfdrive.com/book-e1.html" []
     = (Ok None,
        [EvGet "https://www.pdfdrive.com/book-e1.html";
         EvPrint "Error getting PDF URL from PDFDrive: Max retries exceeded"]).
Proof.
  split.
  - exact (proj1 (proj1 (extracted_preview_link_ends_in_pdf World.pdfdrive_relative_link
                           "https://www.pdfdrive.com/book-e1.html" [])
                    World.book_page eq_refl)).
  - exact (proj2 (extracted_preview_link_ends_in_pdf World.offline
                    "https://www.pdfdrive.com/book-e1.html" [])
             World.ConnectionError eq_refl).
Defined.

Lemma take_drop (n : nat) (s : string) : Re.take n s ++ Re.drop n s = s.
Proof.
  unfold Re.take, Re.drop. revert n. induction s as [| c s IH]; intros n.
  - now destruct n.
  - destruct n as [| n]; simpl.
    + now rewrite substring_all.
    + now rewrite IH.
Qed.

Lemma take_append (a b : string) : Re.take (String.length a) (a ++ b) = a.
Proof. apply substring_prefix. Qed.

Lemma digits_spec (n : nat) (s : string) :
  Re.digits n s = true ->
  exists ds rest, s = ds ++ rest /\ String.length ds = n
                  /\ Re.all_chars isdigit ds = true.
Proof.
  unfold Re.digits. rewrite andb_true_iff, Nat.eqb_eq. intros [Hlen Hall].
  exists (Re.take n s), (Re.drop n s). now rewrite take_drop.
Qed.

Lemma search_year_spec (text y : string) :
  Re.search_year text = Some y ->
  exists before ds rest,
    text = before ++ "20" ++ ds ++ rest /\ y = "20" ++ ds
    /\ String.length ds = 2 /\ Re.all_chars isdigit ds = true.
Proof.
  induction text as [| c text IH]; [discriminate |].
  cbn [Re.search_year].
  destruct (startswith (String c text) "20" && Re.digits 2 (Re.drop 2 (String c text)))
    eqn:Hhere.
  - intros [= <-]. apply andb_prop in Hhere as [Hstart Hdigits].
    apply startswith_spec in Hstart as [r Hr]. rewrite Hr in *.
    change 2 with (String.length "20") in Hdigits at 2. rewrite drop_append in Hdigits.
    apply digits_spec in Hdigits as [ds [rest [-> [Hlen Hall]]]].
    exists EmptyString, ds, rest. repeat split; try assumption.
    change 4 with (String.length "20" + 2). rewrite <- Hlen, <- length_append.
    rewrite <- append_assoc. apply take_append.
  - intros H. destruct (IH H) as [b [ds [rest [-> H']]]].
    exists (String c b), ds, rest. split; [reflexivity | exact H'].
Qed.

Lemma space_digits3_spec (s : string) (n : nat) :
  Re.space_digits3 s = Some n ->
  exists ws ds rest,
    s = ws ++ ds ++ rest /\ n = String.length ws + 3
    /\ String.length ws <= 1 /\ Re.all_chars isspace ws = true
    /\ String.length ds = 3 /\ Re.all_chars isdigit ds = true.
Proof.
  unfold Re.space_digits3.
  assert (Hplain : (if Re.digits 3 s then Some 3 else None) = Some n ->
                   exists ws ds rest,
                     s = ws ++ ds ++ rest /\ n = String.length ws + 3
                     /\ String.length ws <= 1 /\ Re.all_chars isspace ws = true
                     /\ String.length ds = 3 /\ Re.all_chars isdigit ds = true).
  { destruct (Re.digits 3 s) eqn:Hd; [| discriminate]. intros [= <-].
    apply digits_spec in Hd as [ds [rest [-> [Hlen Hall]]]].
    exists EmptyString, ds, rest. repeat split; auto. }
  destruct s as [| c s]; [exact Hplain |].
  destruct (isspace c && Re.digits 3 s) eqn:Hsp; [| exact Hplain].
  intros [= <-]. apply andb_prop in Hsp as [Hc Hd].
  apply digits_spec in Hd as [ds [rest [-> [Hlen Hall]]]].
  exists (String c EmptyString), ds, rest. repeat split; auto.
  cbn [Re.all_chars]. now rewrite Hc.
Qed.

Lemma letters_then_spec (k : nat) (s : string) (n : nat) :
  Re.letters_then k s = Some n ->
  exists ls ws ds rest,
    s = ls ++ ws ++ ds ++ rest /\ n = String.length (ls ++ ws ++ ds)
    /\ String.length ls = k /\ Re.all_chars isalpha_ascii ls = true
    /\ String.length ws <= 1 /\ Re.all_chars isspace ws = true
    /\ String.length ds = 3 /\ Re.all_chars isdigit ds = true.
Proof.
  unfold Re.letters_then.
  destruct (Nat.eqb (String.length (Re.take k s)) k && _) eqn:Hl; [| discriminate].
  apply andb_prop in Hl as [Hlen Hall]. apply Nat.eqb_eq in Hlen.
  destruct (Re.space_digits3 (Re.drop k s)) as [m |] eqn:Hm; [| discriminate].
  intros [= <-].
  apply space_digits3_spec in Hm as [ws [ds [rest [Hs [-> [Hw [Hws [Hd Hds]]]]]]]].
  exists (Re.take k s), ws, ds, rest.
  rewrite <- Hs, take_drop, !length_append, Hlen, Hd. repeat split; auto; lia.
Qed.

Lemma course_code_at_spec (s : string) (n : nat) :
  Re.course_code_at s = Some n ->
  exists ls ws ds rest,
    s = ls ++ ws ++ ds ++ rest /\ n = String.length (ls ++ ws ++ ds)
    /\ 2 <= String.length ls <= 4 /\ Re.all_chars isalpha_ascii ls = true
    /\ String.length ws <= 1 /\ Re.all_chars isspace ws = true
    /\ String.length ds = 3 /\ Re.all_chars isdigit ds = true.
Proof.
  unfold Re.course_code_at. intros H.
  assert (Hk : exists k, 2 <= k <= 4 /\ Re.letters_then k s = Some n).
  { destruct (Re.letters_then 4 s) eqn:H4; [exists 4; split; [lia | congruence] |].
    destruct (Re.letters_then 3 s) eqn:H3; [exists 3; split; [lia | congruence] |].
    exists 2. split; [lia | exact H]. }
  destruct Hk as [k [Hk Hl]].
  apply letters_then_spec in Hl
    as [ls [ws [ds [rest [Hs [Hn [Hlen H']]]]]]].
  exists ls, ws, ds, rest. rewrite Hlen. auto.
Qed.

Lemma search_course_code_spec (text code : string) :
  Re.search_course_code text = Some code ->
  exists before ls ws ds rest,
    text = before ++ code ++ rest /\ code = ls ++ ws ++ ds
    /\ 2 <= String.length ls <= 4 /\ Re.all_chars isalpha_ascii ls = true
    /\ String.length ws <= 1 /\ Re.all_chars isspace ws = true
    /\ String.length ds = 3 /\ Re.all_chars isdigit ds = true.
Proof.
  induction text as [| c text IH]; [discriminate |].
  cbn [Re.search_course_code].
  destruct (Re.course_code_at (String c text)) as [n |] eqn:Hat.
  - intros [= <-].
    apply course_code_at_spec in Hat as [ls [ws [ds [rest [Hs [-> H']]]]]].
    exists EmptyString, ls, ws, ds, rest. rewrite Hs.
    replace (ls ++ ws ++ ds ++ rest) with ((ls ++ ws ++ ds) ++ rest)
      by now rewrite !append_assoc.
    rewrite take_append. auto.
  - intros H. destruct (IH H) as [b [ls [ws [ds [rest [-> H']]]]]].
    exists (String c b), ls, ws, ds, rest. split; [reflexivity | exact H'].
Qed.

(** X6. The course code taken from a past-paper query is a piece of the
    query made of two to four ASCII letters, at most one white-space
    character and exactly three digits, so a code with four digits is cut
    after the third. The year taken from it is a piece of the query made of
    "20" and two digits. *)
Theorem extracted_code_and_year_shape :
  forall (query : string),
    (forall code,
        Downloader._extract_course_code query = Some code ->
        exists before ls ws ds rest,
          query = before ++ code ++ rest /\ code = ls ++ ws ++ ds
          /\ 2 <= String.length ls <= 4 /\ Re.all_chars isalpha_ascii ls = true
          /\ String.length ws <= 1 /\ Re.all_chars isspace ws = true
          /\ String.length ds = 3 /\ Re.all_chars isdigit ds = true)
    /\ (forall year,
           Downloader._extract_year query = Some year ->
           exists before ds rest,
             query = before ++ "20" ++ ds ++ rest /\ year = "20" ++ ds
             /\ String.length ds = 2 /\ Re.all_chars isdigit ds = true).
Proof.
  intros query. split.
  - intros code. apply search_course_code_spec.
  - intros year. apply search_year_spec.
Qed.

Lemma mzuni_loop_silent (P : Event -> bool) (links : list Tag) (acc : list string) :
  emits P (Downloader._try_mzuni_opac_search_loop links acc).
Proof.
  revert acc. induction links as [| link rest IH]; intros acc; simpl.
  - apply emits_ret.
  - apply emits_bind; [apply emits_lift |]. intros raw.
    destruct (_ || _); apply IH.
Qed.

Lemma course_code_no_slash (query code : string) :
  Re.search_course_code query = Some code ->
  Re.all_chars (fun c => negb (Ascii.eqb c "/")) code = true.
Proof.
  intros H. apply search_course_code_spec in H
    as [_ [ls [ws [ds [_ [_ [-> [_ [Hls [_ [Hws [_ Hds]]]]]]]]]]]].
  rewrite !all_chars_append, !andb_true_iff. repeat split.
  - revert Hls. apply all_chars_weaken. intros c Hc.
    destruct (Ascii.eqb_spec c "/"%char) as [-> | _]; [discriminate Hc | reflexivity].
  - revert Hws. apply all_chars_weaken. intros c Hc.
    destruct (Ascii.eqb_spec c "/"%char) as [-> | _]; [discriminate Hc | reflexivity].
  - revert Hds. apply all_chars_weaken. intros c Hc.
    destruct (Ascii.eqb_spec c "/"%char) as [-> | _]; [discriminate Hc | reflexivity].
Qed.

Lemma year_no_slash (query year : string) :
  Re.search_year query = Some year ->
  Re.all_chars (fun c => negb (Ascii.eqb c "/")) year = true.
Proof.
  intros H. apply search_year_spec in H as [_ [ds [_ [_ [-> [_ Hds]]]]]].
  rewrite all_chars_append, andb_true_iff. split; [reflexivity |].
  revert Hds. apply all_chars_weaken. intros c Hc.
  destruct (Ascii.eqb_spec c "/"%char) as [-> | _]; [discriminate Hc | reflexivity].
Qed.

Lemma past_paper_file_name_no_slash (query : string) :
  let course_code := Downloader._extract_course_code query in
  let year := Downloader._extract_year query in
  Re.all_chars (fun c => negb (Ascii.eqb c "/"))
    (if truthy_str course_code || truthy_str year
     then or_str course_code "paper" ++ "_" ++ or_str year "unknown" ++ ".pdf"
     else "past_paper.pdf") = true.
Proof.
  intros course_code year.
  destruct (truthy_str course_code || truthy_str year); [| reflexivity].
  rewrite !all_chars_append, !andb_true_iff. repeat split.
  - destruct course_code as [code |] eqn:Hcode; [| reflexivity].
    unfold or_str. destruct (is_empty code); [reflexivity |].
    exact (course_code_no_slash query code Hcode).
  - destruct year as [y |] eqn:Hyear; [| reflexivity].
    unfold or_str. destruct (is_empty y); [reflexivity |].
    exact (year_no_slash query y Hyear).
Qed.

(** X7. A past paper is saved directly inside the download directory: the
    file name is "<code or paper>_<year or unknown>.pdf" when the query
    holds a course code or a year and "past_paper.pdf" otherwise, and it
    holds no '/'. Besides writing that file, [_try_past_paper_download]
    only sends requests and prints: it saves no image, imports nothing,
    does not search Google and announces none of the three lookup
    strategies. When the console takes the lines printed it does not raise,
    and returns the "info" Result or a "success" Result that names this file
    and the source "MZUNI Library". *)
Theorem past_paper_file_is_named_from_query :
  forall (env : Env) (query : string),
    let course_code := Downloader._extract_course_code query in
    let year := Downloader._extract_year query in
    let name := if truthy_str course_code || truthy_str year
                then or_str course_code "paper" ++ "_" ++ or_str year "unknown" ++ ".pdf"
                else "past_paper.pdf" in
    let path := "downloads/" ++ name in
    Re.all_chars (fun c => negb (Ascii.eqb c "/")) name = true
    /\ emits (fun e => match e with
                       | EvWriteFile p => String.eqb p path
                       | EvGet _ => true
                       | EvPrint _ => quiet e
                       | _ => false
                       end)
             (Downloader._try_past_paper_download env query)
    /\ (console_works env ->
        returns (Downloader._try_past_paper_download env query)
                (fun r => r = Downloader.past_paper_info query
                          \/ (status r = Some (VStr "success")
                              /\ dict_get "file_path" r = Some (VStr path)
                              /\ dict_get "source" r = Some (VStr "MZUNI Library")))).
Proof.
  intros env query course_code year name path.
  pose proof (past_paper_file_name_no_slash query) as Hname. cbv zeta in Hname.
  split; [exact Hname |].
  subst path name course_code year.
  unfold Downloader._try_past_paper_download, Downloader._try_mzuni_opac_search.
  cbv zeta.
  rewrite (path_join_download_dir _ (no_slash_is_relative _ Hname)). clear Hname. split.
  - apply emits_bind; [apply emits_call; reflexivity | intros _].
    apply emits_try; [| intros; apply emits_ret].
    apply emits_bind; [| intros o; destruct (truthy o) as [r |];
                         [destruct (status_is r "success") |]; apply emits_ret].
    apply emits_try; [| intros; emits_open; reflexivity].
    apply emits_bind; [apply emits_call; reflexivity | intros response].
    apply emits_bind; [apply emits_lift | intros soup].
    apply emits_bind; [apply mzuni_loop_silent | intros links].
    destruct links; emits_open; try reflexivity. apply String.eqb_refl.
  - intros Hconsole. unfold returns.
    apply post_bind, post_print; [| intros e N; exact (N Hconsole)].
    apply post_try, post_bind.
    apply post_try, post_bind, post_any. intros [response | e]; [| post_auto].
    apply post_bind, post_any. intros [soup | e]; [| post_auto].
    apply post_bind, mzuni_loop_post; [| intros; post_auto].
    intros [| pdf_url links]; post_auto.
Qed.

Lemma past_paper_file_is_named_from_query_witness :
  returns (Downloader._try_past_paper_download Scene.opac_has_paper
             "past paper BICT2303 2023")
          (fun r => r = Downloader.past_paper_info "past paper BICT2303 2023"
                    \/ (status r = Some (VStr "success")
                        /\ dict_get "file_path" r
                           = Some (VStr "downloads/BICT230_2023.pdf")
                        /\ dict_get "source" r = Some (VStr "MZUNI Library"))).
Proof.
  exact (proj2 (proj2 (past_paper_file_is_named_from_query Scene.opac_has_paper
                         "past paper BICT2303 2023"))
           (fun _ _ => eq_refl)).
Defined.

(* ------------------------------------------------------------------ *)
(** ** The lookup strategies, step by step *)

(** Run a computation in a world whose console is known to work. *)
Ltac run_console H :=
  unfold console_works in H;
  repeat (progress (run_world; rewrite ?H)).

(** X8. When the PDFDrive result page has no link of class "ai-search", or
    its first such link has no "href", the PDFDrive strategy returns [None]
    and the search request is the only request it has made: the book page is
    never asked for and nothing is downloaded. The console is taken to
    accept the lines printed. *)
Theorem pdfdrive_without_result_link_is_none :
  forall (env : Env) (book_name : string) (t : Trace) (res : Response) (soup : Soup),
    let search_url := "https://www.pdfdrive.com/search?q=" ++ replace " " "+" book_name in
    console_works env ->
    env_get env (t ++ [EvPrint ("Searching PDFDrive for '" ++ book_name ++ "'...")])%list
            search_url = Ok res ->
    env_parse_html env (text res) = Ok soup ->
    (Bs4.find soup "a" "ai-search" = None
     \/ exists link, Bs4.find soup "a" "ai-search" = Some link
                     /\ Bs4.attr "href" (tag_attrs link) = None) ->
    fst (Downloader._try_pdfdrive_search env book_name t) = Ok None
    /\ filter is_network
         (since t (snd (Downloader._try_pdfdrive_search env book_name t)))
       = [EvGet search_url].
Proof.
  intros env book_name t res soup search_url Hconsole Hget Hparse Hlink.
  subst search_url. unfold Downloader._try_pdfdrive_search.
  run_console Hconsole. rewrite Hget. run_world. rewrite Hparse. run_world.
  destruct Hlink as [-> | [link [-> Hhref]]].
  - run_world. split; [reflexivity |].
    now rewrite <- app_assoc, since_app.
  - unfold Bs4.getitem. rewrite Hhref. run_console Hconsole. split; [reflexivity |].
    now rewrite <- !app_assoc, since_app.
Qed.

Lemma pdfdrive_without_result_link_witness :
  fst (Downloader._try_pdfdrive_search World.nothing_found "Atomic Habits" []) = Ok None
  /\ filter is_network
       (since [] (snd (Downloader._try_pdfdrive_search World.nothing_found
                         "Atomic Habits" [])))
     = [EvGet "https://www.pdfdrive.com/search?q=Atomic+Habits"].
Proof.
  exact (pdfdrive_without_result_link_is_none World.nothing_found "Atomic Habits" []
           World.empty_page [] (fun _ _ => eq_refl) eq_refl eq_refl (or_introl eq_refl)).
Defined.

Lemma archive_loop_skips (env : Env) (book_name : string) (skipped rest : list JSON) :
  forallb lacks_identifier skipped = true ->
  Downloader._try_archive_search_loop env book_name (skipped ++ rest)
  = Downloader._try_archive_search_loop env book_name rest.
Proof.
  induction skipped as [| doc skipped IH]; [reflexivity |].
  cbn [forallb]. rewrite andb_true_iff. intros [Hdoc Hskipped].
  cbn [app Downloader._try_archive_search_loop]. unfold lacks_identifier in Hdoc.
  destruct (Json.contains "identifier" doc) as [[|] | e]; try discriminate.
  run_world. now apply IH.
Qed.

Lemma archive_search_runs_loop (env : Env) (book_name : string) (t : Trace)
    (res : Response) (docs : list JSON) :
  let t1 := (t ++ [EvPrint ("Searching Archive.org for '" ++ book_name ++ "'...")])%list in
  let search_url := "https://archive.org/advancedsearch.php?q=title%3A("
                    ++ replace " " "+" book_name ++ ")&output=json" in
  console_works env ->
  env_get env t1 search_url = Ok res ->
  archive_docs res = Ok docs ->
  Downloader._try_archive_search env book_name t
  = try_except (Downloader._try_archive_search_loop env book_name docs)
      (fun e => print env ("Archive.org error: " ++ str_exn e) ;; ret None)
      (t1 ++ [EvGet search_url])%list.
Proof.
  intros t1 search_url Hconsole Hget Hdocs. subst t1 search_url.
  unfold archive_docs in Hdocs. unfold Downloader._try_archive_search.
  unfold console_works in Hconsole.
  run_world. rewrite Hconsole. run_world. rewrite Hget. run_world.
  destruct (json res) as [data | e]; [| discriminate]. run_world.
  destruct (Json.get data "response" (JObj [])) as [response | e]; [| discriminate].
  run_world.
  destruct (Json.get response "docs" (JArr [])) as [docs' | e]; [| discriminate].
  run_world. now rewrite Hdocs.
Qed.

(** X9. In the Archive.org listing the first document that has an
    "identifier" decides: documents before it without one are passed over,
    documents after it are never looked at, and the strategy returns the
    Result of downloading
    "https://archive.org/download/<identifier>/<identifier>.pdf" under the
    searched name. The console is taken to accept the lines printed. *)
Theorem archive_first_identifier_is_downloaded :
  forall (env : Env) (book_name : string) (t : Trace) (res : Response)
         (skipped later : list JSON) (fields : list (string * JSON)) (ident : string),
    let t1 := (t ++ [EvPrint ("Searching Archive.org for '" ++ book_name ++ "'...")])%list in
    let search_url := "https://archive.org/advancedsearch.php?q=title%3A("
                      ++ replace " " "+" book_name ++ ")&output=json" in
    let item_url := "https://archive.org/download/" ++ ident ++ "/" ++ ident ++ ".pdf" in
    console_works env ->
    env_get env t1 search_url = Ok res ->
    archive_docs res = Ok (skipped ++ JObj fields :: later)%list ->
    forallb lacks_identifier skipped = true ->
    Json.lookup "identifier" fields = Some (JStr ident) ->
    exists r t',
      Downloader._download_pdf_and_cover env item_url book_name
        (t1 ++ [EvGet search_url])%list = (Ok r, t')
      /\ Downloader._try_archive_search env book_name t = (Ok (Some r), t').
Proof.
  intros env book_name t res skipped later fields ident t1 search_url item_url
         Hconsole Hget Hdocs Hskipped Hident.
  rewrite (archive_search_runs_loop env book_name t res _ Hconsole Hget Hdocs).
  fold t1 search_url. rewrite (archive_loop_skips _ _ _ _ Hskipped).
  cbn [Downloader._try_archive_search_loop Json.contains Json.getitem].
  rewrite Hident. run_world. change (str_json env (JStr ident)) with ident.
  fold item_url.
  destruct (returns_run _ _ (download_pdf_and_cover_returns env item_url book_name)
              (t1 ++ [EvGet search_url])%list) as [r [t' [Hrun _]]].
  exists r, t'. split; [exact Hrun |].
  run_world. now rewrite Hrun.
Qed.

Lemma archive_first_identifier_witness :
  exists r t',
    Downloader._download_pdf_and_cover World.archive_has_book
      "https://archive.org/download/atomichabits/atomichabits.pdf" "Atomic Habits"
      [EvPrint "Searching Archive.org for 'Atomic Habits'...";
       EvGet "https://archive.org/advancedsearch.php?q=title%3A(Atomic+Habits)&output=json"]
    = (Ok r, t')
    /\ Downloader._try_archive_search World.archive_has_book "Atomic Habits" []
       = (Ok (Some r), t').
Proof.
  exact (archive_first_identifier_is_downloaded World.archive_has_book "Atomic Habits" []
           World.archive_listing [JObj [("title", JStr "Atomic Habits")]] []
           [("identifier", JStr "atomichabits")] "atomichabits"
           (fun _ _ => eq_refl) eq_refl eq_refl eq_refl eq_refl).
Defined.

(** X10. A document of the Archive.org listing that is neither an object,
    an array nor a string (null, a number, a truth value) ends the search:
    the membership test on it raises a TypeError. When it comes before any
    document with an "identifier", the strategy prints that error, with the
    name of the type of the document, and returns [None] without downloading
    anything, whatever documents follow it. The console is taken to accept
    the lines printed. *)
Theorem archive_malformed_document_ends_search :
  forall (env : Env) (book_name : string) (t : Trace) (res : Response)
         (skipped later : list JSON) (bad : JSON),
    let t1 := (t ++ [EvPrint ("Searching Archive.org for '" ++ book_name ++ "'...")])%list in
    let search_url := "https://archive.org/advancedsearch.php?q=title%3A("
                      ++ replace " " "+" book_name ++ ")&output=json" in
    console_works env ->
    env_get env t1 search_url = Ok res ->
    archive_docs res = Ok (skipped ++ bad :: later)%list ->
    forallb lacks_identifier skipped = true ->
    is_raise (Json.contains "identifier" bad) = true ->
    Downloader._try_archive_search env book_name t
    = (Ok None,
       (t1 ++ [EvGet search_url;
               EvPrint ("Archive.org error: argument of type '" ++ Json.type_name bad
                        ++ "' is not iterable")])%list)
    /\ In (Json.type_name bad) ["NoneType"; "bool"; "int"; "float"].
Proof.
  intros env book_name t res skipped later bad t1 search_url
         Hconsole Hget Hdocs Hskipped Hbad.
  rewrite (archive_search_runs_loop env book_name t res _ Hconsole Hget Hdocs).
  fold t1 search_url. rewrite (archive_loop_skips _ _ _ _ Hskipped).
  cbn [Downloader._try_archive_search_loop]. unfold console_works in Hconsole.
  destruct bad as [| b | rendering nonzero | s | items | items];
    cbn [Json.contains is_raise] in Hbad; try discriminate Hbad;
    cbn [Json.contains]; run_world; rewrite Hconsole, <- app_assoc;
    (split; [reflexivity |]); cbn [Json.type_name In]; auto.
  destruct (Re.all_chars _ rendering); auto.
Qed.

Lemma archive_malformed_document_witness :
  Downloader._try_archive_search Scene.archive_null_first "Atomic Habits" []
  = (Ok None,
     [EvPrint "Searching Archive.org for 'Atomic Habits'...";
      EvGet "https://archive.org/advancedsearch.php?q=title%3A(Atomic+Habits)&output=json";
      EvPrint "Archive.org error: argument of type 'NoneType' is not iterable"]).
Proof.
  exact (proj1 (archive_malformed_document_ends_search Scene.archive_null_first
                  "Atomic Habits" []
                  Scene.listing_with_null [JObj [("title", JStr "Atomic Habits")]]
                  [JObj [("identifier", JStr "atomichabits")]] JNull
                  (fun _ _ => eq_refl) eq_refl eq_refl eq_refl eq_refl)).
Defined.

Lemma google_loop_skips (env : Env) (book_name : string) (skipped rest : list string)
    (stop : option exn) :
  forallb not_pdf_url skipped = true ->
  Downloader._try_google_pdf_search_loop env book_name (skipped ++ rest) stop
  = Downloader._try_google_pdf_search_loop env book_name rest stop.
Proof.
  induction skipped as [| url skipped IH]; [reflexivity |].
  cbn [forallb]. rewrite andb_true_iff. unfold not_pdf_url at 1.
  rewrite negb_true_iff. intros [Hurl Hskipped].
  cbn [app Downloader._try_google_pdf_search_loop]. rewrite Hurl. now apply IH.
Qed.

Lemma google_search_runs_loop (env : Env) (book_name : string) (t : Trace)
    (urls : list string) (stop : option exn) :
  let t1 := (t ++ [EvPrint ("Trying Google PDF search for '" ++ book_name ++ "'...")])%list in
  let t2 := (t1 ++ [EvImport "googlesearch"])%list in
  let query := book_name ++ " filetype:pdf" in
  console_works env ->
  env_import env t1 "googlesearch" = Ok tt ->
  env_search env t2 query = (urls, stop) ->
  Downloader._try_google_pdf_search env book_name t
  = try_except (Downloader._try_google_pdf_search_loop env book_name urls stop)
      (fun e => print env ("Google search error: " ++ str_exn e) ;; ret None)
      (t2 ++ [EvSearch query])%list.
Proof.
  intros t1 t2 query Hconsole Himport Hsearch. subst t1 t2 query.
  unfold Downloader._try_google_pdf_search. unfold console_works in Hconsole.
  run_world. rewrite Hconsole. run_world. rewrite Himport. run_world.
  now rewrite Hsearch.
Qed.

(** X11. Of the hits Google yields, the first whose URL ends in ".pdf" in
    lower case is the one downloaded, under the searched name; hits before
    it are passed over, and neither the hits after it nor an exception the
    search would raise later are ever seen. The console is taken to accept
    the lines printed. *)
Theorem google_first_pdf_hit_is_downloaded :
  forall (env : Env) (book_name : string) (t : Trace)
         (skipped later : list string) (url : string) (stop : option exn),
    let t1 := (t ++ [EvPrint ("Trying Google PDF search for '" ++ book_name ++ "'...")])%list in
    let t2 := (t1 ++ [EvImport "googlesearch"])%list in
    let query := book_name ++ " filetype:pdf" in
    console_works env ->
    env_import env t1 "googlesearch" = Ok tt ->
    env_search env t2 query = ((skipped ++ url :: later)%list, stop) ->
    forallb not_pdf_url skipped = true ->
    endswith url ".pdf" = true ->
    exists r t',
      Downloader._download_pdf_and_cover env url book_name (t2 ++ [EvSearch query])%list
      = (Ok r, t')
      /\ Downloader._try_google_pdf_search env book_name t = (Ok (Some r), t').
Proof.
  intros env book_name t skipped later url stop t1 t2 query
         Hconsole Himport Hsearch Hskipped Hurl.
  rewrite (google_search_runs_loop env book_name t _ _ Hconsole Himport Hsearch).
  fold t1 t2 query. rewrite (google_loop_skips _ _ _ _ _ Hskipped).
  cbn [Downloader._try_google_pdf_search_loop]. rewrite Hurl.
  destruct (returns_run _ _ (download_pdf_and_cover_returns env url book_name)
              (t2 ++ [EvSearch query])%list) as [r [t' [Hrun _]]].
  exists r, t'. split; [exact Hrun |].
  run_world. now rewrite Hrun.
Qed.

Lemma google_first_pdf_hit_witness :
  exists r t',
    Downloader._download_pdf_and_cover Scene.google_hits "https://c.example/book.pdf"
      "Atomic Habits"
      [EvPrint "Trying Google PDF search for 'Atomic Habits'...";
       EvImport "googlesearch"; EvSearch "Atomic Habits filetype:pdf"]
    = (Ok r, t')
    /\ Downloader._try_google_pdf_search Scene.google_hits "Atomic Habits" []
       = (Ok (Some r), t').
Proof.
  exact (google_first_pdf_hit_is_downloaded Scene.google_hits "Atomic Habits" []
           ["https://a.example/Book.PDF"; "https://b.example/page.html"]
           ["https://d.example/other.pdf"] "https://c.example/book.pdf"
           (Some (Exn "HTTPError" "429 Too Many Requests"))
           (fun _ _ => eq_refl) eq_refl eq_refl eq_refl eq_refl).
Defined.

(** X12. When none of the hits Google yields ends in ".pdf" in lower case
    (a hit ending in ".PDF" does not count), the Google strategy returns
    [None] and has asked the world for nothing after the search; an
    exception that ends the search is printed and changes nothing else. The
    console is taken to accept the lines printed. *)
Theorem google_without_pdf_hit_is_none :
  forall (env : Env) (book_name : string) (t : Trace)
         (urls : list string) (stop : option exn),
    let t1 := (t ++ [EvPrint ("Trying Google PDF search for '" ++ book_name ++ "'...")])%list in
    let t2 := (t1 ++ [EvImport "googlesearch"])%list in
    let query := book_name ++ " filetype:pdf" in
    console_works env ->
    env_import env t1 "googlesearch" = Ok tt ->
    env_search env t2 query = (urls, stop) ->
    forallb not_pdf_url urls = true ->
    Downloader._try_google_pdf_search env book_name t
    = (Ok None,
       (t2 ++ EvSearch query
           :: match stop with
              | Some e => [EvPrint ("Google search error: " ++ str_exn e)]
              | None => []
              end)%list).
Proof.
  intros env book_name t urls stop t1 t2 query Hconsole Himport Hsearch Hurls.
  rewrite (google_search_runs_loop env book_name t _ _ Hconsole Himport Hsearch).
  fold t1 t2 query.
  rewrite <- (app_nil_r urls), (google_loop_skips _ _ _ _ _ Hurls).
  cbn [Downloader._try_google_pdf_search_loop]. unfold console_works in Hconsole.
  destruct stop as [e |]; run_world; [| reflexivity].
  now rewrite Hconsole, <- app_assoc.
Qed.

Lemma google_without_pdf_hit_witness :
  Downloader._try_google_pdf_search Scene.google_upper_case_only "Atomic Habits" []
  = (Ok None,
     [EvPrint "Trying Google PDF search for 'Atomic Habits'...";
      EvImport "googlesearch"; EvSearch "Atomic Habits filetype:pdf";
      EvPrint "Google search error: 429 Too Many Requests"]).
Proof.
  exact (google_without_pdf_hit_is_none Scene.google_upper_case_only "Atomic Habits" []
           ["https://a.example/Book.PDF"]
           (Some (Exn "HTTPError" "429 Too Many Requests"))
           (fun _ _ => eq_refl) eq_refl eq_refl eq_refl).
Defined.

Lemma find_all_href_has_href (soup : Soup) (name : string) :
  Forall (fun link => Bs4.attr "href" (tag_attrs link) <> None)
         (Bs4.find_all_href soup name).
Proof.
  unfold Bs4.find_all_href. apply Forall_forall. intros link Hin.
  apply filter_In in Hin as [_ H]. apply andb_prop in H as [_ H].
  now destruct (Bs4.attr "href" (tag_attrs link)).
Qed.

Lemma mzuni_loop_collects (links : list Tag) (acc : list string) (t : Trace) :
  Forall (fun link => Bs4.attr "href" (tag_attrs link) <> None) links ->
  Downloader._try_mzuni_opac_search_loop links acc t
  = (Ok (acc ++ opac_download_links links)%list, t).
Proof.
  intros H. revert acc. induction H as [| link links Hlink _ IH]; intros acc.
  - cbn. now rewrite app_nil_r.
  - cbn [Downloader._try_mzuni_opac_search_loop opac_download_links flat_map].
    unfold Bs4.getitem. destruct (Bs4.attr "href" (tag_attrs link)) as [raw |];
      [| contradiction].
    run_world. unfold opac_download_link. cbv zeta.
    destruct (endswith (lower raw) ".pdf" || contains (lower raw) "download").
    + rewrite IH. unfold opac_download_links. now rewrite <- app_assoc.
    + apply IH.
Qed.

(** X13. When no link of the catalogue page ends in ".pdf" or contains
    "download" (compared in lower case), the catalogue search returns
    [None]; the search request is the only thing it has asked of the world
    and nothing is written. *)
Theorem opac_page_without_download_link_is_none :
  forall (env : Env) (query : string) (course_code year : option string)
         (t : Trace) (res : Response) (soup : Soup),
    let search_url := "https://opac.mzuni.ac.mw/cgi-bin/koha/opac-search.pl?q="
                      ++ replace " " "+" query in
    env_get env t search_url = Ok res ->
    env_parse_html env (text res) = Ok soup ->
    opac_download_links (Bs4.find_all_href soup "a") = [] ->
    Downloader._try_mzuni_opac_search env query course_code year t
    = (Ok None, (t ++ [EvGet search_url])%list).
Proof.
  intros env query course_code year t res soup search_url Hget Hparse Hlinks.
  subst search_url. unfold Downloader._try_mzuni_opac_search.
  run_world. rewrite Hget. run_world. rewrite Hparse. run_world.
  rewrite (mzuni_loop_collects _ _ _ (find_all_href_has_href soup "a")).
  cbn [app]. now rewrite Hlinks.
Qed.


Lemma opac_page_without_download_link_witness :
  Downloader._try_mzuni_opac_search World.nothing_found "past paper BICT2303 2023"
    (Some "BICT230") (Some "2023") []
  = (Ok None,
     [EvGet "https://opac.mzuni.ac.mw/cgi-bin/koha/opac-search.pl?q=past+paper+BICT2303+2023"]).
Proof.
  exact (opac_page_without_download_link_is_none World.nothing_found
           "past paper BICT2303 2023" (Some "BICT230") (Some "2023") []
           World.empty_page [] eq_refl eq_refl eq_refl).
Defined.


(** X14. When the catalogue page has download links, the first one in
    document order is the one asked for, and it is asked for in lower case:
    as it stands when it starts with "http", behind
    "https://opac.mzuni.ac.mw" otherwise. The search returns a "success"
    Result exactly when that request and the write of the file both work,
    and [None] otherwise. The console is taken to accept the lines
    printed. *)
Theorem opac_first_download_link_is_requested :
  forall (env : Env) (query : string) (course_code year : option string)
         (t : Trace) (res : Response) (soup : Soup) (pdf_url : string)
         (others : list string),
    let search_url := "https://opac.mzuni.ac.mw/cgi-bin/koha/opac-search.pl?q="
                      ++ replace " " "+" query in
    let t1 := (t ++ [EvGet search_url])%list in
    let file_path :=
      path_join DOWNLOAD_DIR
        (if truthy_str course_code || truthy_str year
         then or_str course_code "paper" ++ "_" ++ or_str year "unknown" ++ ".pdf"
         else "past_paper.pdf") in
    console_works env ->
    env_get env t search_url = Ok res ->
    env_parse_html env (text res) = Ok soup ->
    opac_download_links (Bs4.find_all_href soup "a") = pdf_url :: others ->
    exists evs,
      snd (Downloader._try_mzuni_opac_search env query course_code year t)
      = (t1 ++ EvGet pdf_url :: evs)%list
      /\ (fst (Downloader._try_mzuni_opac_search env query course_code year t) <> Ok None
          <-> (is_raise (env_get env t1 pdf_url) = false
               /\ is_raise (env_write_file env (t1 ++ [EvGet pdf_url])%list file_path)
                  = false)).
Proof.
  intros env query course_code year t res soup pdf_url others search_url t1 file_path
         Hconsole Hget Hparse Hlinks.
  subst search_url t1 file_path. unfold Downloader._try_mzuni_opac_search.
  unfold console_works in Hconsole.
  run_world. rewrite Hget. run_world. rewrite Hparse. run_world.
  rewrite (mzuni_loop_collects _ _ _ (find_all_href_has_href soup "a")).
  cbn [app]. rewrite Hlinks. run_world.
  destruct (env_get env _ pdf_url) as [r | e]; run_world.
  - destruct (env_write_file env _ _) as [[] | e]; run_world.
    + exists [EvWriteFile
                (path_join DOWNLOAD_DIR
                   (if truthy_str course_code || truthy_str year
                    then or_str course_code "paper" ++ "_"
                         ++ or_str year "unknown" ++ ".pdf"
                    else "past_paper.pdf"))].
      rewrite <- !app_assoc. split; [reflexivity |].
      split; [auto | discriminate].
    + rewrite Hconsole. eexists. rewrite <- !app_assoc. split; [reflexivity |].
      split; [intros H; now contradiction H | intros [_ [=]]].
  - rewrite Hconsole. eexists. rewrite <- !app_assoc. split; [reflexivity |].
    split; [intros H; now contradiction H | intros [[=] _]].
Qed.

Lemma opac_first_download_link_witness :
  exists evs,
    snd (Downloader._try_mzuni_opac_search Scene.opac_has_paper
           "past paper BICT2303 2023" (Some "BICT230") (Some "2023") [])
    = ([EvGet "https://opac.mzuni.ac.mw/cgi-bin/koha/opac-search.pl?q=past+paper+BICT2303+2023"]
         ++ EvGet "https://opac.mzuni.ac.mw/files/bict2303-2023.pdf" :: evs)%list
    /\ (fst (Downloader._try_mzuni_opac_search Scene.opac_has_paper
               "past paper BICT2303 2023" (Some "BICT230") (Some "2023") [])
        <> Ok None
        <-> (is_raise
               (env_get Scene.opac_has_paper
                  [EvGet "https://opac.mzuni.ac.mw/cgi-bin/koha/opac-search.pl?q=past+paper+BICT2303+2023"]
                  "https://opac.mzuni.ac.mw/files/bict2303-2023.pdf") = false
             /\ is_raise
                  (env_write_file Scene.opac_has_paper
                     [EvGet "https://opac.mzuni.ac.mw/cgi-bin/koha/opac-search.pl?q=past+paper+BICT2303+2023";
                      EvGet "https://opac.mzuni.ac.mw/files/bict2303-2023.pdf"]
                     "downloads/BICT230_2023.pdf") = false)).
Proof.
  exact (opac_first_download_link_is_requested Scene.opac_has_paper
           "past paper BICT2303 2023" (Some "BICT230") (Some "2023") []
           World.empty_page
           [{| tag_name := "a"; tag_class := [];
               tag_attrs := [("href", "/cgi-bin/koha/opac-main.pl")] |};
            {| tag_name := "a"; tag_class := []; tag_attrs := [("name", "top")] |};
            {| tag_name := "a"; tag_class := [];
               tag_attrs := [("href", "/Files/BICT2303-2023.PDF")] |};
            {| tag_name := "a"; tag_class := [];
               tag_attrs := [("href", "http://example.org/Download?id=7")] |}]
           "https://opac.mzuni.ac.mw/files/bict2303-2023.pdf"
           ["http://example.org/download?id=7"]
           (fun _ _ => eq_refl) eq_refl eq_refl eq_refl).
Defined.

(* ------------------------------------------------------------------ *)
(** ** The entry points of the three files *)

Lemma collect_known_status (book : string) (o : Outcome Result) :
  match o with Ok r => known_status r | Raise _ => True end ->
  known_status (Downloader.collect book o).
Proof.
  destruct o as [r | e]; [trivial |]. intros _. right. left. reflexivity.
Qed.

(** X15. Every Result the batch dispatcher returns has a "status" that is
    "success", "error" or "info", in Downloader.py and in Pdf.py, whatever
    the units meet and in whatever order they complete: a unit that raises
    is turned into an "error" Result. *)
Theorem batch_results_have_known_status :
  forall (view : nat -> Env) (completed : list nat) (book_list : list string),
    Forall known_status (Downloader.handle_multiple_downloads view completed book_list)
    /\ Forall known_status (Pdf.handle_multiple_downloads view completed book_list).
Proof.
  intros view completed book_list. split.
  - unfold Downloader.handle_multiple_downloads. apply Forall_flat_map, Forall_forall.
    intros i _. destruct (nth_error book_list i) as [book |]; [| constructor].
    constructor; [| constructor]. apply collect_known_status.
    apply (download_pdf_returns (view i) True); trivial.
  - unfold Pdf.handle_multiple_downloads. apply Forall_flat_map, Forall_forall.
    intros i _. destruct (nth_error book_list i) as [book |]; [| constructor].
    constructor; [| constructor].
    apply (collect_known_status book (Pdf.submit view i book)).
    apply (pdf_download_pdf_returns (view i) True); trivial.
Qed.

Lemma dispatch_in_order (run : nat -> string -> Result) (book_list : list string)
    (k : nat) :
  flat_map (fun i => match nth_error book_list (i - k) with
                     | Some book => [run i book]
                     | None => []
                     end)
           (seq k (List.length book_list))
  = map (fun ib => run (fst ib) (snd ib))
        (combine (seq k (List.length book_list)) book_list).
Proof.
  revert k. induction book_list as [| book rest IH]; intros k; [reflexivity |].
  cbn [List.length seq flat_map combine map fst snd].
  rewrite Nat.sub_diag. cbn [nth_error app]. f_equal.
  rewrite <- (IH (S k)). apply flat_map_agree. intros i Hi.
  apply in_seq in Hi.
  replace (i - k) with (S (i - S k)) by lia. reflexivity.
Qed.

Lemma dispatch_permutation (run : nat -> string -> Result) (completed : list nat)
    (book_list : list string) :
  Permutation completed (seq 0 (List.length book_list)) ->
  Permutation
    (flat_map (fun i => match nth_error book_list i with
                        | Some book => [run i book]
                        | None => []
                        end) completed)
    (map (fun ib => run (fst ib) (snd ib))
         (combine (seq 0 (List.length book_list)) book_list)).
Proof.
  intros Hperm. rewrite <- dispatch_in_order.
  rewrite (flat_map_agree _
             (fun i => match nth_error book_list i with
                       | Some book => [run i book]
                       | None => []
                       end) (seq 0 (List.length book_list))).
  - apply Permutation_flat_map, Hperm.
  - intros i _. now rewrite Nat.sub_0_r.
Qed.

(** X16. When every future completes exactly once, the batch dispatcher of
    Downloader.py and that of Pdf.py return as many Results as there are
    entries in the list, duplicates included, and these are the Results of
    the entries' units, rearranged into completion order. *)
Theorem batch_returns_one_result_per_entry :
  forall (view : nat -> Env) (completed : list nat) (book_list : list string),
    Permutation completed (seq 0 (List.length book_list)) ->
    (Permutation
       (Downloader.handle_multiple_downloads view completed book_list)
       (map (fun ib => Downloader.collect (snd ib)
                         (Downloader.submit view (fst ib) (snd ib)))
            (combine (seq 0 (List.length book_list)) book_list))
     /\ List.length (Downloader.handle_multiple_downloads view completed book_list)
        = List.length book_list)
    /\ (Permutation
          (Pdf.handle_multiple_downloads view completed book_list)
          (map (fun ib => Pdf.collect (snd ib) (Pdf.submit view (fst ib) (snd ib)))
               (combine (seq 0 (List.length book_list)) book_list))
        /\ List.length (Pdf.handle_multiple_downloads view completed book_list)
           = List.length book_list).
Proof.
  intros view completed book_list Hperm.
  pose proof (dispatch_permutation
                (fun i book => Downloader.collect book (Downloader.submit view i book))
                completed book_list Hperm) as HD.
  pose proof (dispatch_permutation
                (fun i book => Pdf.collect book (Pdf.submit view i book))
                completed book_list Hperm) as HP.
  split; (split; [assumption |]).
  - unfold Downloader.handle_multiple_downloads.
    rewrite (Permutation_length HD), length_map, length_combine, length_seq.
    apply Nat.min_id.
  - unfold Pdf.handle_multiple_downloads.
    rewrite (Permutation_length HP), length_map, length_combine, length_seq.
    apply Nat.min_id.
Qed.

Lemma batch_returns_one_result_per_entry_witness :
  (Permutation
     (Downloader.handle_multiple_downloads (fun _ => World.offline) [2; 0; 1]
        ["a"; "a"; "https://example.com/x.html"])
     (map (fun ib => Downloader.collect (snd ib)
                       (Downloader.submit (fun _ => World.offline) (fst ib) (snd ib)))
          (combine (seq 0 3) ["a"; "a"; "https://example.com/x.html"]))
   /\ List.length (Downloader.handle_multiple_downloads (fun _ => World.offline)
                     [2; 0; 1] ["a"; "a"; "https://example.com/x.html"]) = 3)
  /\ (Permutation
        (Pdf.handle_multiple_downloads (fun _ => World.offline) [2; 0; 1]
           ["a"; "a"; "https://example.com/x.html"])
        (map (fun ib => Pdf.collect (snd ib)
                          (Pdf.submit (fun _ => World.offline) (fst ib) (snd ib)))
             (combine (seq 0 3) ["a"; "a"; "https://example.com/x.html"]))
      /\ List.length (Pdf.handle_multiple_downloads (fun _ => World.offline)
                        [2; 0; 1] ["a"; "a"; "https://example.com/x.html"]) = 3).
Proof.
  apply (batch_returns_one_result_per_entry (fun _ => World.offline) [2; 0; 1]
           ["a"; "a"; "https://example.com/x.html"]).
  cbn [List.length seq].
  apply Permutation_sym, (Permutation_cons_app [2] [1] 0 (perm_swap 2 1 [])).
Defined.

(** X17. A unit whose exception escapes [download_pdf] is not lost: once
    its future has completed, the batch holds an "error" Result with the
    text of the exception and the identifier under "book". *)
Theorem batch_reports_escaped_exception_with_book :
  forall (view : nat -> Env) (completed : list nat) (book_list : list string)
         (i : nat) (book : string) (e : exn),
    nth_error book_list i = Some book ->
    In i completed ->
    Downloader.submit view i book = Raise e ->
    In [("status", VStr "error"); ("message", VStr (str_exn e)); ("book", VStr book)]
       (Downloader.handle_multiple_downloads view completed book_list).
Proof.
  intros view completed book_list i book e Hbook Hin Hraise.
  unfold Downloader.handle_multiple_downloads. apply in_flat_map.
  exists i. split; [exact Hin |]. rewrite Hbook, Hraise. now left.
Qed.

Lemma batch_reports_escaped_exception_witness :
  In [("status", VStr "error"); ("message", VStr "No module named 'googlesearch'");
      ("book", VStr "Atomic Habits")]
     (Downloader.handle_multiple_downloads (fun _ => World.no_googlesearch) [1; 0]
        ["https://example.com/x.html"; "Atomic Habits"]).
Proof.
  exact (batch_reports_escaped_exception_with_book (fun _ => World.no_googlesearch)
           [1; 0] ["https://example.com/x.html"; "Atomic Habits"] 1 "Atomic Habits"
           (Exn "ModuleNotFoundError" "No module named 'googlesearch'")
           eq_refl (or_introl eq_refl) eq_refl).
Defined.

(** X18. The three files agree on every identifier that is a URL and on
    every identifier that mentions neither "past paper" nor "exam paper":
    there [download_pdf] of Downloader.py, of Pdf.py and of Example.py give
    the same outcome and leave the same trace. *)
Theorem download_pdf_agrees_outside_past_papers :
  forall (env : Env) (identifier : string) (t : Trace),
    startswith (lower (strip identifier)) "http" = true
    \/ (contains (lower (strip identifier)) "past paper" = false
        /\ contains (lower (strip identifier)) "exam paper" = false) ->
    Downloader.download_pdf env identifier t = Pdf.download_pdf env identifier t
    /\ Pdf.download_pdf env identifier t = Example.download_pdf env identifier t.
Proof.
  intros env identifier t H.
  unfold Downloader.download_pdf, Pdf.download_pdf, Example.download_pdf. cbv zeta.
  destruct (startswith (lower (strip identifier)) "http").
  - split; reflexivity.
  - destruct H as [H | [-> ->]]; [discriminate |]. split; reflexivity.
Qed.

Lemma download_pdf_agrees_witness :
  Downloader.download_pdf World.pdfdrive_has_book "  Book.pdf " []
  = Pdf.download_pdf World.pdfdrive_has_book "  Book.pdf " []
  /\ Pdf.download_pdf World.pdfdrive_has_book "  Book.pdf " []
     = Example.download_pdf World.pdfdrive_has_book "  Book.pdf " [].
Proof.
  exact (download_pdf_agrees_outside_past_papers World.pdfdrive_has_book "  Book.pdf " []
           (or_intror (conj eq_refl eq_refl))).
Defined.

(** X19. Where the three files part. For an identifier that is no URL:
    Example.py always runs the book-name chain; Pdf.py runs it unless the
    identifier mentions "past paper"; Downloader.py runs the catalogue
    search as soon as it mentions "past paper" or "exam paper". So an "exam
    paper" query is a book search in Pdf.py and Example.py and a catalogue
    search in Downloader.py. *)
Theorem exam_paper_query_is_routed_differently :
  forall (env : Env) (identifier : string) (t : Trace),
    let query := strip identifier in
    startswith (lower query) "http" = false ->
    contains (lower query) "past paper" = false ->
    contains (lower query) "exam paper" = true ->
    Downloader.download_pdf env identifier t
    = (os_makedirs env DOWNLOAD_DIR ;; Downloader._try_past_paper_download env query) t
    /\ Pdf.download_pdf env identifier t
       = (os_makedirs env DOWNLOAD_DIR ;; Pdf._download_by_book_name env query) t
    /\ Example.download_pdf env identifier t
       = (os_makedirs env DOWNLOAD_DIR ;; Example._download_by_book_name env query) t.
Proof.
  intros env identifier t query Hhttp Hpast Hexam.
  unfold Downloader.download_pdf, Pdf.download_pdf, Example.download_pdf. cbv zeta.
  fold query. rewrite Hhttp, Hpast, Hexam. repeat split; reflexivity.
Qed.

Lemma exam_paper_query_witness :
  Downloader.download_pdf World.nothing_found "exam paper COMM1101 2024" []
  = (os_makedirs World.nothing_found DOWNLOAD_DIR ;;
     Downloader._try_past_paper_download World.nothing_found
       "exam paper COMM1101 2024") []
  /\ Pdf.download_pdf World.nothing_found "exam paper COMM1101 2024" []
     = (os_makedirs World.nothing_found DOWNLOAD_DIR ;;
        Pdf._download_by_book_name World.nothing_found "exam paper COMM1101 2024") []
  /\ Example.download_pdf World.nothing_found "exam paper COMM1101 2024" []
     = (os_makedirs World.nothing_found DOWNLOAD_DIR ;;
        Example._download_by_book_name World.nothing_found
          "exam paper COMM1101 2024") [].
Proof.
  exact (exam_paper_query_is_routed_differently World.nothing_found
           "exam paper COMM1101 2024" [] eq_refl eq_refl eq_refl).
Defined.

Example exam_paper_query_differs :
  fst (Downloader.download_pdf World.nothing_found "exam paper COMM1101 2024" [])
  <> fst (Pdf.download_pdf World.nothing_found "exam paper COMM1101 2024" []).
Proof. discriminate. Qed.


(** X20. In Pdf.py a past-paper query is answered without asking any
    server: once the download directory exists, [download_pdf] prints one
    line and returns an "info" Result whose "url" is the catalogue search
    page for the trimmed query, with '+' for every space. The console is
    taken to accept the line printed. *)
Theorem pdf_past_paper_is_answered_offline :
  forall (env : Env) (identifier : string) (t : Trace),
    let query := strip identifier in
    let search_url := "http://opac.mzuni.ac.mw/cgi-bin/koha/opac-search.pl?q="
                      ++ replace " " "+" query in
    console_works env ->
    startswith (lower query) "http" = false ->
    contains (lower query) "past paper" = true ->
    env_makedirs env t DOWNLOAD_DIR = Ok tt ->
    Pdf.download_pdf env identifier t
    = (Ok [("status", VStr "info");
           ("message", VStr ("Please search manually at " ++ search_url));
           ("url", VStr search_url)],
       (t ++ [EvMakedirs DOWNLOAD_DIR;
              EvPrint ("Searching MZUNI library for '" ++ query ++ "'...")])%list)
    /\ filter is_network (since t (snd (Pdf.download_pdf env identifier t))) = [].
Proof.
  intros env identifier t query search_url Hconsole Hhttp Hpast Hdir.
  assert (H : Pdf.download_pdf env identifier t
              = (Ok [("status", VStr "info");
                     ("message", VStr ("Please search manually at " ++ search_url));
                     ("url", VStr search_url)],
                 (t ++ [EvMakedirs DOWNLOAD_DIR;
                        EvPrint ("Searching MZUNI library for '" ++ query ++ "'...")])%list)).
  { unfold Pdf.download_pdf. cbv zeta. fold query. rewrite Hhttp, Hpast.
    unfold Pdf._try_past_paper_download. unfold console_works in Hconsole.
    run_world. rewrite Hdir. run_world. rewrite Hconsole. now rewrite <- app_assoc. }
  split; [exact H |]. rewrite H. cbn [snd]. now rewrite since_app.
Qed.

Lemma pdf_past_paper_offline_witness :
  Pdf.download_pdf World.offline " Past Paper networking " []
  = (Ok [("status", VStr "info");
         ("message",
          VStr "Please search manually at http://opac.mzuni.ac.mw/cgi-bin/koha/opac-search.pl?q=Past+Paper+networking");
         ("url",
          VStr "http://opac.mzuni.ac.mw/cgi-bin/koha/opac-search.pl?q=Past+Paper+networking")],
     [EvMakedirs "downloads"; EvPrint "Searching MZUNI library for 'Past Paper networking'..."])
  /\ filter is_network
       (since [] (snd (Pdf.download_pdf World.offline " Past Paper networking " [])))
     = [].
Proof.
  exact (pdf_past_paper_is_answered_offline World.offline " Past Paper networking " []
           (fun _ _ => eq_refl) eq_refl eq_refl eq_refl).
Defined.

Lemma lstrip_idempotent (s : string) : lstrip (lstrip s) = lstrip s.
Proof.
  induction s as [| c s IH]; [reflexivity |]. cbn [lstrip].
  destruct (isspace c) eqn:Hc; [exact IH |]. cbn [lstrip]. now rewrite Hc.
Qed.

Lemma lstrip_head (s : string) :
  lstrip s = EmptyString
  \/ exists c r, lstrip s = String c r /\ isspace c = false.
Proof.
  induction s as [| c s IH]; [now left |]. cbn [lstrip].
  destruct (isspace c) eqn:Hc; [exact IH |]. right. now exists c, s.
Qed.

Lemma lstrip_keeps_last (s : string) (c : ascii) :
  isspace c = false ->
  exists u, lstrip (s ++ String c EmptyString) = u ++ String c EmptyString.
Proof.
  intros Hc. induction s as [| d s IH]; cbn [append lstrip].
  - rewrite Hc. now exists EmptyString.
  - destruct (isspace d); [exact IH |]. now exists (String d s).
Qed.

Lemma rstrip_rstrip (s : string) : rstrip (rstrip s) = rstrip s.
Proof. unfold rstrip. now rewrite rev_involutive, lstrip_idempotent. Qed.

Lemma strip_idempotent (s : string) : strip (strip s) = strip s.
Proof.
  unfold strip. destruct (lstrip_head s) as [-> | [c [r [-> Hc]]]]; [reflexivity |].
  assert (Hhead : exists u, rstrip (String c r) = String c u).
  { unfold rstrip. rewrite rev_cons.
    destruct (lstrip_keeps_last (PyStr.rev r) c Hc) as [u ->].
    rewrite rev_append. now exists (PyStr.rev u). }
  destruct Hhead as [u Hu].
  assert (Hl : lstrip (rstrip (String c r)) = rstrip (String c r))
    by (rewrite Hu; cbn [lstrip]; now rewrite Hc).
  rewrite Hl. apply rstrip_rstrip.
Qed.

(** X21. Trimming is done once and for all: trimming a trimmed identifier
    changes nothing, so [download_pdf] gives the same outcome and trace for
    an identifier and for its trimmed form, in each of the three files. *)
Theorem download_pdf_ignores_surrounding_space :
  forall (env : Env) (identifier : string) (t : Trace),
    strip (strip identifier) = strip identifier
    /\ Downloader.download_pdf env (strip identifier) t
       = Downloader.download_pdf env identifier t
    /\ Pdf.download_pdf env (strip identifier) t = Pdf.download_pdf env identifier t
    /\ Example.download_pdf env (strip identifier) t
       = Example.download_pdf env identifier t.
Proof.
  intros env identifier t.
  unfold Downloader.download_pdf, Pdf.download_pdf, Example.download_pdf. cbv zeta.
  rewrite strip_idempotent. repeat split; reflexivity.
Qed.

(* ------------------------------------------------------------------ *)
(** ** Outcome and trace together *)

Lemma pdf_writes_app (e1 e2 : Trace) :
  pdf_writes (e1 ++ e2)%list = pdf_writes e1 + pdf_writes e2.
Proof. unfold pdf_writes. now rewrite filter_app, length_app. Qed.

Lemma traced_ret {A} (a : A) (Q : Outcome A -> Trace -> Prop) :
  Q (Ok a) [] -> traced (ret a) Q.
Proof. intros H t. exists []. split; [symmetry; apply app_nil_r | exact H]. Qed.

Lemma traced_raise {A} (e : exn) (Q : Outcome A -> Trace -> Prop) :
  Q (Raise e) [] -> traced (raise e) Q.
Proof. intros H t. exists []. split; [symmetry; apply app_nil_r | exact H]. Qed.

Lemma traced_weaken {A} (m : M A) (Q Q' : Outcome A -> Trace -> Prop) :
  traced m Q -> (forall o evs, Q o evs -> Q' o evs) -> traced m Q'.
Proof.
  intros H HQ t. destruct (H t) as [evs [Ht Hq]]. exists evs. auto.
Qed.

Lemma traced_bind {A B} (m : M A) (k : A -> M B)
    (Qm : Outcome A -> Trace -> Prop) (Q : Outcome B -> Trace -> Prop) :
  traced m Qm ->
  (forall a e1, Qm (Ok a) e1 -> traced (k a) (fun o e2 => Q o (e1 ++ e2)%list)) ->
  (forall e e1, Qm (Raise e) e1 -> Q (Raise e) e1) ->
  traced (bind m k) Q.
Proof.
  intros Hm Hk Hraise t. destruct (Hm t) as [e1 [H1 Q1]]. unfold bind.
  destruct (m t) as [[a | e] t']; simpl in H1, Q1; subst t'.
  - destruct (Hk a e1 Q1 (t ++ e1)%list) as [e2 [H2 Q2]].
    exists (e1 ++ e2)%list. split; [now rewrite H2, <- app_assoc | exact Q2].
  - exists e1. split; [reflexivity | now apply Hraise].
Qed.

Lemma traced_try {A} (body : M A) (handler : exn -> M A)
    (Qb : Outcome A -> Trace -> Prop) (Q : Outcome A -> Trace -> Prop) :
  traced body Qb ->
  (forall a e1, Qb (Ok a) e1 -> Q (Ok a) e1) ->
  (forall e e1, Qb (Raise e) e1 -> traced (handler e) (fun o e2 => Q o (e1 ++ e2)%list)) ->
  traced (try_except body handler) Q.
Proof.
  intros Hb Hok Hh t. destruct (Hb t) as [e1 [H1 Q1]]. unfold try_except.
  destruct (body t) as [[a | e] t']; simpl in H1, Q1; subst t'.
  - exists e1. split; [reflexivity | now apply Hok].
  - destruct (Hh e e1 Q1 (t ++ e1)%list) as [e2 [H2 Q2]].
    exists (e1 ++ e2)%list. split; [now rewrite H2, <- app_assoc | exact Q2].
Qed.

(** From what a computation emits and what it returns to both at once. *)
Lemma traced_of_emits_post {A} (m : M A) (P : Event -> bool) (R : Outcome A -> Prop) :
  emits P m -> post m R -> traced m (fun o evs => R o /\ forallb P evs = true).
Proof.
  intros He Hp t. destruct (He t) as [evs [H1 H2]]. exists evs. auto.
Qed.

Lemma no_write_events (evs : Trace) :
  forallb (fun e => match e with EvWriteFile _ => false | _ => true end) evs = true ->
  pdf_writes evs = 0.
Proof.
  unfold pdf_writes. induction evs as [| e evs IH]; [reflexivity |].
  cbn [forallb filter]. rewrite andb_true_iff. intros [He Hevs].
  destruct e; try discriminate He; now apply IH.
Qed.

Lemma counted_ret {A} (a : A) (Q : Outcome A -> nat -> Prop) :
  Q (Ok a) 0 -> counted (ret a) Q.
Proof. intros H. now apply traced_ret. Qed.

Lemma counted_raise {A} (e : exn) (Q : Outcome A -> nat -> Prop) :
  Q (Raise e) 0 -> counted (raise e) Q.
Proof. intros H. now apply traced_raise. Qed.

Lemma counted_bind {A B} (m : M A) (k : A -> M B)
    (Qm : Outcome A -> nat -> Prop) (Q : Outcome B -> nat -> Prop) :
  counted m Qm ->
  (forall a n, Qm (Ok a) n -> counted (k a) (fun o n2 => Q o (n + n2))) ->
  (forall e n, Qm (Raise e) n -> Q (Raise e) n) ->
  counted (bind m k) Q.
Proof.
  intros Hm Hk Hraise. eapply traced_bind; [exact Hm | |].
  - intros a e1 H1. eapply traced_weaken; [exact (Hk a _ H1) |].
    intros o e2 H. cbv beta in H. now rewrite pdf_writes_app.
  - intros e e1 H1. exact (Hraise e _ H1).
Qed.

Lemma counted_try {A} (body : M A) (handler : exn -> M A)
    (Qb : Outcome A -> nat -> Prop) (Q : Outcome A -> nat -> Prop) :
  counted body Qb ->
  (forall a n, Qb (Ok a) n -> Q (Ok a) n) ->
  (forall e n, Qb (Raise e) n -> counted (handler e) (fun o n2 => Q o (n + n2))) ->
  counted (try_except body handler) Q.
Proof.
  intros Hb Hok Hh. eapply traced_try; [exact Hb | |].
  - intros a e1 H1. exact (Hok a _ H1).
  - intros e e1 H1. eapply traced_weaken; [exact (Hh e _ H1) |].
    intros o e2 H. cbv beta in H. now rewrite pdf_writes_app.
Qed.

Lemma counted_call {A} (ev : Event) (answer : Trace -> Outcome A)
    (Q : Outcome A -> nat -> Prop) :
  (forall o, Q o (pdf_writes [ev])) -> counted (call ev answer) Q.
Proof. intros H t. exists [ev]. split; [reflexivity | apply H]. Qed.

Lemma counted_perform {A} (ev : Event) (answer : Trace -> A)
    (Q : Outcome A -> nat -> Prop) :
  (forall a, Q (Ok a) (pdf_writes [ev])) -> counted (perform ev answer) Q.
Proof. intros H t. exists [ev]. split; [reflexivity | apply H]. Qed.

Lemma counted_lift {A} (o : Outcome A) (Q : Outcome A -> nat -> Prop) :
  Q o 0 -> counted (lift o) Q.
Proof. intros H t. exists []. split; [symmetry; apply app_nil_r | exact H]. Qed.

Lemma counted_bind_call {A B} (ev : Event) (answer : Trace -> Outcome A) (k : A -> M B)
    (Q : Outcome B -> nat -> Prop) :
  (forall a, counted (k a) (fun o n => Q o (pdf_writes [ev] + n))) ->
  (forall e, Q (Raise e) (pdf_writes [ev])) ->
  counted (bind (call ev answer) k) Q.
Proof.
  intros Hk Hraise.
  apply counted_bind with (Qm := fun _ n => n = pdf_writes [ev]).
  - now apply counted_call.
  - intros a n ->. apply Hk.
  - intros e n ->. apply Hraise.
Qed.

Lemma counted_bind_perform {A B} (ev : Event) (answer : Trace -> A) (k : A -> M B)
    (Q : Outcome B -> nat -> Prop) :
  (forall a, counted (k a) (fun o n => Q o (pdf_writes [ev] + n))) ->
  counted (bind (perform ev answer) k) Q.
Proof.
  intros Hk.
  apply counted_bind with (Qm := fun o n => n = pdf_writes [ev] /\ is_raise o = false).
  - now apply counted_perform.
  - intros a n [-> _]. apply Hk.
  - intros e n [_ [=]].
Qed.


(** [print] writes no PDF, whether the console takes the line or not. *)
Lemma counted_bind_print {B} (env : Env) (line : string) (k : unit -> M B)
    (Q : Outcome B -> nat -> Prop) :
  counted (k tt) Q -> (forall e, Q (Raise e) 0) ->
  counted (bind (print env line) k) Q.
Proof.
  intros Hk Hraise.
  apply counted_bind with (Qm := fun _ n => n = 0).
  - intros t. exists [EvPrint line]. now split.
  - intros [] n ->. exact Hk.
  - intros e n ->. apply Hraise.
Qed.

Lemma counted_bind_lift {A B} (o : Outcome A) (k : A -> M B)
    (Q : Outcome B -> nat -> Prop) :
  (forall a, counted (k a) Q) -> (forall e, Q (Raise e) 0) ->
  counted (bind (lift o) k) Q.
Proof.
  intros Hk Hraise. apply counted_bind with (Qm := fun _ n => n = 0).
  - now apply counted_lift.
  - intros a n ->. apply Hk.
  - intros e n ->. apply Hraise.
Qed.

(** A callee that writes no PDF, followed by the rest. *)
Lemma counted_bind_silent {A B} (m : M A) (k : A -> M B)
    (Q : Outcome B -> nat -> Prop) :
  emits (fun e => match e with EvWriteFile _ => false | _ => true end) m ->
  (forall a, counted (k a) Q) -> (forall e, Q (Raise e) 0) ->
  counted (bind m k) Q.
Proof.
  intros He Hk Hraise.
  apply counted_bind with (Qm := fun _ n => n = 0).
  - intros t. destruct (He t) as [evs [H1 H2]]. exists evs.
    split; [exact H1 | now apply no_write_events].
  - intros a n ->. apply Hk.
  - intros e n ->. apply Hraise.
Qed.

Ltac counted_step :=
  match goal with
  | |- counted (bind (print _ _) _) _ => apply counted_bind_print; [| intro]
  | |- counted (bind (lift ?o) _) _ => apply counted_bind_lift; [intro |]
  | |- counted (bind (BeautifulSoup _ _) _) _ => apply counted_bind_lift; [intro |]
  | |- counted (bind (Image_open _ _) _) _ => apply counted_bind_lift; [intro |]
  | |- counted (bind (requests_get _ _) _) _ => apply counted_bind_call; [intro |]
  | |- counted (bind (write_stream _ _) _) _ => apply counted_bind_call; [intro |]
  | |- counted (bind (img_save _ _) _) _ => apply counted_bind_call; [intro |]
  | |- counted (bind (import_from _ _) _) _ => apply counted_bind_call; [intro |]
  | |- counted (bind (os_makedirs _ _) _) _ => apply counted_bind_call; [intro |]
  | |- counted (bind (googlesearch_search _ _) _) _ =>
      apply counted_bind_perform; intro
  | |- counted (ret _) _ => apply counted_ret
  | |- counted (raise _) _ => apply counted_raise
  | |- counted (match ?x with _ => _ end) _ => destruct x eqn:?
  | |- counted (let _ := _ in _) _ => cbv zeta
  end.

Ltac counted_auto := repeat (counted_step; cbn [pdf_writes filter List.length Nat.add]).

Section WriteCounts.
Variable env : Env.

Lemma cover_image_writes_no_pdf (book_name : string) :
  emits (fun e => match e with EvWriteFile _ => false | _ => true end)
        (Downloader._download_cover_image env book_name).
Proof. unfold Downloader._download_cover_image. emits_open; reflexivity. Qed.

Lemma extract_writes_no_pdf (book_url : string) :
  emits (fun e => match e with EvWriteFile _ => false | _ => true end)
        (Downloader._extract_pdfdrive_pdf env book_url).
Proof. unfold Downloader._extract_pdfdrive_pdf. emits_open; reflexivity. Qed.

Lemma download_counted (url title : string) :
  counted (Downloader._download_pdf_and_cover env url title) one_download.
Proof.
  unfold Downloader._download_pdf_and_cover. cbv zeta.
  apply counted_try
    with (Qb := fun o n => match o with
                           | Ok r => one_download (Ok r) n
                           | Raise _ => n <= 1
                           end).
  - counted_auto; try lia.
    apply counted_bind_silent; [apply cover_image_writes_no_pdf | | intros; lia].
    intros cover_path. apply counted_ret. eexists. split; [reflexivity |].
    repeat split; [now left | lia].
  - trivial.
  - intros e n Hn. apply counted_ret. eexists. split; [reflexivity |].
    rewrite Nat.add_0_r. repeat split; [now right | exact Hn | discriminate].
Qed.

Lemma download_then_some_counted (url title : string)
    (Q : Outcome (option Result) -> nat -> Prop) (n0 : nat) :
  (forall r n, one_download (Ok r) n -> Q (Ok (Some r)) (n0 + n)) ->
  counted (r <- Downloader._download_pdf_and_cover env url title ;; ret (Some r))
          (fun o n => Q o (n0 + n)).
Proof.
  intros HQ. eapply counted_bind; [apply download_counted | |].
  - intros r n Hr. apply counted_ret. rewrite Nat.add_0_r. now apply HQ.
  - intros e n [r [[=] _]].
Qed.

(** The handler of a strategy: it prints and returns [None]. *)
Lemma handler_counted (line : string) (n : nat) :
  n = 0 ->
  counted (print env line ;; ret None) (fun o n2 => strategy_writes o (n + n2)).
Proof.
  intros ->. apply counted_bind_print; [apply counted_ret |]; reflexivity.
Qed.

Lemma pdfdrive_counted (book_name : string) :
  counted (Downloader._try_pdfdrive_search env book_name) strategy_writes.
Proof.
  unfold Downloader._try_pdfdrive_search.
  apply counted_bind_print; [| reflexivity]. cbv zeta.
  apply counted_try with (Qb := strategy_writes).
  - counted_auto; try reflexivity.
    apply counted_bind_silent; [apply extract_writes_no_pdf | | reflexivity].
    intros pdf_url. counted_auto; try reflexivity.
    apply (download_then_some_counted _ _ strategy_writes 0). trivial.
  - trivial.
  - intros e n Hn. now apply handler_counted.
Qed.

Lemma archive_loop_counted (book_name : string) (docs : list JSON) :
  counted (Downloader._try_archive_search_loop env book_name docs) strategy_writes.
Proof.
  induction docs as [| doc rest IH]; cbn [Downloader._try_archive_search_loop].
  - now apply counted_ret.
  - counted_auto; try reflexivity; [| exact IH].
    apply (download_then_some_counted _ _ strategy_writes 0). trivial.
Qed.

Lemma archive_counted (book_name : string) :
  counted (Downloader._try_archive_search env book_name) strategy_writes.
Proof.
  unfold Downloader._try_archive_search.
  apply counted_bind_print; [| reflexivity]. cbv zeta.
  apply counted_try with (Qb := strategy_writes).
  - counted_auto; try reflexivity. apply archive_loop_counted.
  - trivial.
  - intros e n Hn. now apply handler_counted.
Qed.

Lemma google_loop_counted (book_name : string) (urls : list string) (stop : option exn) :
  counted (Downloader._try_google_pdf_search_loop env book_name urls stop)
          strategy_writes.
Proof.
  induction urls as [| url rest IH]; cbn [Downloader._try_google_pdf_search_loop].
  - counted_auto; reflexivity.
  - counted_auto; [| exact IH].
    apply (download_then_some_counted _ _ strategy_writes 0). trivial.
Qed.

Lemma google_counted (book_name : string) :
  counted (Downloader._try_google_pdf_search env book_name) strategy_writes.
Proof.
  unfold Downloader._try_google_pdf_search.
  apply counted_bind_print; [| reflexivity].
  counted_auto; [| reflexivity].
  apply counted_try with (Qb := strategy_writes).
  - counted_auto. apply google_loop_counted.
  - trivial.
  - intros e n Hn. now apply handler_counted.
Qed.

End WriteCounts.

Lemma one_download_chain_writes (r : Result) (n : nat) :
  one_download (Ok r) n -> truthy (Some r) = Some r /\ chain_writes (Ok r) n.
Proof.
  intros [r' [[= <-] [Hr [Halt [Hn Hs]]]]]. split; [now apply truthy_download |].
  split; [exact Hn |]. intros r' [= <-]. split; [exact Hs |].
  intros H. now contradiction H.
Qed.

(** X22. For one book name the chain writes at most one PDF file: exactly
    one when it returns a "success" Result, and none when it returns the
    "Could not find PDF" Result with its "alternatives". *)
Theorem chain_writes_at_most_one_pdf :
  forall (env : Env) (book_name : string),
    traced (Downloader._download_by_book_name env book_name)
           (fun o evs =>
              pdf_writes evs <= 1
              /\ forall r, o = Ok r ->
                   (status r = Some (VStr "success") -> pdf_writes evs = 1)
                   /\ (dict_get "alternatives" r <> None -> pdf_writes evs = 0)).
Proof.
  intros env book_name.
  change (counted (Downloader._download_by_book_name env book_name) chain_writes).
  unfold Downloader._download_by_book_name. cbv zeta.
  eapply counted_bind; [apply pdfdrive_counted | | intros e n ->; split; [lia | discriminate]].
  intros [r1 |] n1 H1; cbn [strategy_writes] in H1.
  { apply one_download_chain_writes in H1 as [-> H1].
    apply counted_ret. now rewrite Nat.add_0_r. }
  subst n1. cbn [truthy Nat.add].
  eapply counted_bind; [apply archive_counted | | intros e n ->; split; [lia | discriminate]].
  intros [r2 |] n2 H2; cbn [strategy_writes] in H2.
  { apply one_download_chain_writes in H2 as [-> H2].
    apply counted_ret. now rewrite Nat.add_0_r. }
  subst n2. cbn [truthy Nat.add].
  eapply counted_bind; [apply google_counted | | intros e n ->; split; [lia | discriminate]].
  intros [r3 |] n3 H3; cbn [strategy_writes] in H3.
  { apply one_download_chain_writes in H3 as [-> H3].
    apply counted_ret. now rewrite Nat.add_0_r. }
  subst n3. cbn [truthy Nat.add]. apply counted_ret.
  split; [lia |]. intros r [= <-]. split; [discriminate | reflexivity].
Qed.


(** X23. Once the PDF has been fetched and written, the Result is decided
    by the cover lookup alone: a "success" with the file path and with what
    the lookup returned as its "cover", or, when the lookup raises, the
    "error" with the text of that exception. With a console that takes the
    lines printed the lookup does not raise, so the Result is the "success",
    and its "cover" is [None] or the path of the cover image. When the write
    fails, the Result is the "error" with the text of the exception and the
    cover is not looked up. *)
Theorem download_success_does_not_depend_on_cover :
  forall (env : Env) (url title : string) (t : Trace) (res : Response),
    let path := "downloads/" ++ Re.sub_non_word title ++ ".pdf" in
    let cover_path := path_join DOWNLOAD_DIR (title ++ "_cover.jpg") in
    let written := (t ++ [EvGet url; EvWriteFile path])%list in
    env_get env t url = Ok res ->
    (env_write_file env (t ++ [EvGet url])%list path = Ok tt ->
     Downloader._download_pdf_and_cover env url title t
     = match Downloader._download_cover_image env title written with
       | (Ok cover, t') =>
           (Ok [("status", VStr "success");
                ("message", VStr ("Downloaded '" ++ title ++ "'"));
                ("file_path", VStr path);
                ("cover", opt_value cover)], t')
       | (Raise e, t') =>
           (Ok [("status", VStr "error"); ("message", VStr (str_exn e))], t')
       end
     /\ (console_works env ->
         exists cover t',
           Downloader._download_cover_image env title written = (Ok cover, t')
           /\ (cover = None \/ cover = Some cover_path)))
    /\ (forall e,
          env_write_file env (t ++ [EvGet url])%list path = Raise e ->
          Downloader._download_pdf_and_cover env url title t
          = (Ok [("status", VStr "error"); ("message", VStr (str_exn e))], written)).
Proof.
  intros env url title t res path cover_path written Hget. subst path written.
  unfold Downloader._download_pdf_and_cover. cbv zeta.
  rewrite (path_join_download_dir _ (sanitized_name_is_relative title)).
  run_world. rewrite Hget. run_world. split.
  - intros Hwrite. rewrite Hwrite. run_world. rewrite <- app_assoc. cbn [app].
    split.
    + now destruct (Downloader._download_cover_image env title _) as [[cover | e] t'].
    + intros Hconsole.
      destruct (cover_is_cover_path env title Hconsole
                  (t ++ [EvGet url; EvWriteFile ("downloads/" ++ Re.sub_non_word title ++ ".pdf")])%list)
        as [cover [t' [Hrun Hcover]]].
      now exists cover, t'.
  - intros e Hwrite. rewrite Hwrite. run_world. now rewrite <- app_assoc.
Qed.

Lemma download_success_witness :
  (Downloader._download_pdf_and_cover Scene.cover_known
     "https://example.com/a.pdf" "C++: A/B (2nd ed.)" []
   = (Ok [("status", VStr "success");
          ("message", VStr "Downloaded 'C++: A/B (2nd ed.)'");
          ("file_path", VStr "downloads/C AB 2nd ed.pdf");
          ("cover", VStr "downloads/C++: A/B (2nd ed.)_cover.jpg")],
      [EvGet "https://example.com/a.pdf"; EvWriteFile "downloads/C AB 2nd ed.pdf";
       EvGet "https://www.googleapis.com/books/v1/volumes?q=C++: A/B (2nd ed.)";
       EvGet "https://books.example.com/thumb.jpg";
       EvImageSave "downloads/C++: A/B (2nd ed.)_cover.jpg"])
   /\ exists cover t',
        Downloader._download_cover_image Scene.cover_known "C++: A/B (2nd ed.)"
          [EvGet "https://example.com/a.pdf"; EvWriteFile "downloads/C AB 2nd ed.pdf"]
        = (Ok cover, t')
        /\ (cover = None \/ cover = Some "downloads/C++: A/B (2nd ed.)_cover.jpg"))
  /\ Downloader._download_pdf_and_cover Scene.disk_full
       "https://example.com/a.pdf" "C++: A/B (2nd ed.)" []
     = (Ok [("status", VStr "error");
            ("message", VStr "[Errno 28] No space left on device")],
        [EvGet "https://example.com/a.pdf"; EvWriteFile "downloads/C AB 2nd ed.pdf"]).
Proof.
  split.
  - destruct (proj1 (download_success_does_not_depend_on_cover Scene.cover_known
                       "https://example.com/a.pdf" "C++: A/B (2nd ed.)" []
                       World.empty_page eq_refl) eq_refl) as [Hrun Hcover].
    split; [exact Hrun | exact (Hcover (fun _ _ => eq_refl))].
  - exact (proj2 (download_success_does_not_depend_on_cover Scene.disk_full
                    "https://example.com/a.pdf" "C++: A/B (2nd ed.)" []
                    World.empty_page eq_refl)
             (Exn "OSError" "[Errno 28] No space left on device") eq_refl).
Defined.

Example unprinted_cover_error_fails_the_download :
  Downloader._download_pdf_and_cover Scene.written_then_console_closed
    "https://example.com/a.pdf" "Atomic Habits" []
  = (Ok [("status", VStr "error"); ("message", VStr "[Errno 32] Broken pipe")],
     [EvGet "https://example.com/a.pdf"; EvWriteFile "downloads/Atomic Habits.pdf";
      EvGet "https://www.googleapis.com/books/v1/volumes?q=Atomic Habits";
      EvPrint "Cover image not found: Expecting value"]).
Proof. reflexivity. Qed.

(** X24. When the book catalogue has no entry for the title (its answer has
    no "items", or an empty list), the cover lookup returns [None] after
    that one request, without printing anything and without saving
    anything. *)
Theorem cover_without_catalogue_entry_is_none :
  forall (env : Env) (book_name : string) (t : Trace) (res : Response)
         (data items : JSON),
    let search_url := "https://www.googleapis.com/books/v1/volumes?q=" ++ book_name in
    env_get env t search_url = Ok res ->
    json res = Ok data ->
    Json.get data "items" (JArr []) = Ok items ->
    Json.truthy items = false ->
    Downloader._download_cover_image env book_name t
    = (Ok None, (t ++ [EvGet search_url])%list).
Proof.
  intros env book_name t res data items search_url Hget Hjson Hitems Hempty.
  subst search_url. unfold Downloader._download_cover_image.
  run_world. rewrite Hget. run_world. rewrite Hjson. run_world.
  rewrite Hitems. run_world. now rewrite Hempty.
Qed.

Lemma cover_without_catalogue_entry_witness :
  Downloader._download_cover_image Scene.no_cover_known "Atomic Habits" []
  = (Ok None, [EvGet "https://www.googleapis.com/books/v1/volumes?q=Atomic Habits"]).
Proof.
  exact (cover_without_catalogue_entry_is_none Scene.no_cover_known "Atomic Habits" []
           Scene.empty_catalogue
           (JObj [("kind", JStr "books#volumes"); ("totalItems", JNum "0" false)])
           (JArr []) eq_refl eq_refl eq_refl eq_refl).
Defined.

(** X25. In each of the three files [download_pdf] returns a Result, with
    status "success", "error" or "info", whenever creating the download
    directory, importing [googlesearch] and printing to the console all
    work: no failure of a server, of a page's markup or of a file write
    makes it raise. *)
Theorem download_pdf_returns_in_all_files :
  forall (env : Env) (identifier : string),
    (forall t path, env_makedirs env t path = Ok tt) ->
    (forall t module, env_import env t module = Ok tt) ->
    console_works env ->
    returns (Downloader.download_pdf env identifier) known_status
    /\ returns (Pdf.download_pdf env identifier) known_status
    /\ returns (Example.download_pdf env identifier) known_status.
Proof.
  intros env identifier Hdir Himport Hconsole.
  assert (Hc : ~ console_works env -> False) by (intros N; exact (N Hconsole)).
  assert (Hi : forall t e, env_import env t "googlesearch" = Raise e -> False)
    by (intros t e H; rewrite Himport in H; discriminate H).
  assert (Hd : forall t e, env_makedirs env t DOWNLOAD_DIR = Raise e -> False)
    by (intros t e H; rewrite Hdir in H; discriminate H).
  split; [| split].
  - exact (download_pdf_returns env False Hc Hi Hd identifier).
  - exact (pdf_download_pdf_returns env False Hc Hi Hd identifier).
  - exact (example_download_pdf_returns env False Hc Hi Hd identifier).
Qed.

Lemma download_pdf_returns_in_all_files_witness :
  returns (Downloader.download_pdf World.offline "Atomic Habits") known_status
  /\ returns (Pdf.download_pdf World.offline "Atomic Habits") known_status
  /\ returns (Example.download_pdf World.offline "Atomic Habits") known_status.
Proof.
  exact (download_pdf_returns_in_all_files World.offline "Atomic Habits"
           (fun _ _ => eq_refl) (fun _ _ => eq_refl) (fun _ _ => eq_refl)).
Defined.

Lemma extracted_code_and_year_witness :
  (exists before ls ws ds rest,
      "past paper cs 101 from 2020" = before ++ "cs 101" ++ rest
      /\ "cs 101" = ls ++ ws ++ ds
      /\ 2 <= String.length ls <= 4 /\ Re.all_chars isalpha_ascii ls = true
      /\ String.length ws <= 1 /\ Re.all_chars isspace ws = true
      /\ String.length ds = 3 /\ Re.all_chars isdigit ds = true)
  /\ (exists before ds rest,
         "past paper cs 101 from 2020" = before ++ "20" ++ ds ++ rest
         /\ "2020" = "20" ++ ds
         /\ String.length ds = 2 /\ Re.all_chars isdigit ds = true).
Proof.
  split.
  - exact (proj1 (extracted_code_and_year_shape "past paper cs 101 from 2020")
             "cs 101" eq_refl).
  - exact (proj2 (extracted_code_and_year_shape "past paper cs 101 from 2020")
             "2020" eq_refl).
Defined.
